(** * Sales ledger and reports: [AnaliseVendasEdu.py] and [RelatorioFinalEdu.py]

    A shallow embedding of the two variants of the sales system and the
    properties of their ledger, aggregations, rankings and seller report.

    Modelling conventions.
    - A Python [str] is a [string] whose characters are read as the code
      points 0..255 (Latin-1); [strip], [lower], [in] and the comparison of
      strings are the Python ones on that range.
    - A Python [float] is a primitive binary64 [float]; [+], [*], [/], [<],
      [<=], [==] are the IEEE operations Python uses.  [round(x, 2)] and the
      conversion of an [int] are computed exactly, through [spec_float].
    - The arguments of [registrar_venda] have the types its signature
      documents and its callers pass: three [str], an [int] (here [Z]) and
      a [float].  The [isinstance] tests of the source then hold by typing;
      a Python [int] given as the price, which the test on the price also
      lets through, is outside the model.
    - A [dict] is an association list in insertion order.
    - The notices [print] gives while a sale is registered and the menu
      are console traffic and are left out; the texts of the general
      report, printed or saved, are in the last part. *)

From Stdlib Require Import ZArith List String Ascii Bool Lia Floats.
From Stdlib Require Import Permutation Sorted FinFun.
Import ListNotations.

Set Warnings "-inexact-float".

Open Scope Z_scope.

(** ** Python built-ins used by the program *)

Module Py.

(** *** Strings *)

(** [str.isspace] on the code points below 256: TAB..CR, FS..US, space,
    NEL and the no-break space. *)
Definition isspace (c : ascii) : bool :=
  let n := N_of_ascii c in
  ((9 <=? n) && (n <=? 13) || (28 <=? n) && (n <=? 32)
   || (n =? 133) || (n =? 160))%N.

Fixpoint lstrip (s : string) : string :=
  match s with
  | EmptyString => EmptyString
  | String c s' => if isspace c then lstrip s' else s
  end.

Fixpoint rstrip (s : string) : string :=
  match s with
  | EmptyString => EmptyString
  | String c s' =>
      match rstrip s' with
      | EmptyString => if isspace c then EmptyString else String c EmptyString
      | r => String c r
      end
  end.

(** [s.strip()] *)
Definition strip (s : string) : string := rstrip (lstrip s).

(** Lower-casing of one code point below 256: [A-Z] and the accented
    capitals U+00C0..U+00DE (the multiplication sign U+00D7 apart) move up
    by 32; everything else is left alone. *)
Definition lower_char (c : ascii) : ascii :=
  let n := N_of_ascii c in
  if ((65 <=? n) && (n <=? 90)
      || (192 <=? n) && (n <=? 222) && negb (n =? 215))%N
  then ascii_of_N (n + 32) else c.

(** [s.lower()] *)
Fixpoint lower (s : string) : string :=
  match s with
  | EmptyString => EmptyString
  | String c s' => String (lower_char c) (lower s')
  end.

(** [sub in s]: [sub] occurs in [s] as a contiguous substring. *)
Fixpoint str_in (sub s : string) : bool :=
  String.prefix sub s
  || match s with
     | EmptyString => false
     | String _ s' => str_in sub s'
     end.

(** Truth value of a string: [bool(s)]. *)
Definition truthy (s : string) : bool :=
  match s with EmptyString => false | String _ _ => true end.

(** [all([a, b, c])] on three strings. *)
Definition all3 (a b c : string) : bool := truthy a && truthy b && truthy c.

(** [len(s)] *)
Definition len (s : string) : Z := Z.of_nat (String.length s).

(** [s[i]] for [0 <= i < len(s)]; the program indexes only behind a
    length test, so the out-of-range answer is never observed. *)
Definition char_at (s : string) (i : nat) : option ascii := String.get i s.

(** [s[0:n]] *)
Definition slice_prefix (n : nat) (s : string) : string := String.substring 0 n s.

(** *** Floats *)

Inductive exn : Type := OverflowError.

(** What a call does: it raises, or it returns a value. *)
Inductive outcome (A : Type) : Type :=
| Raised (e : exn)
| Returned (a : A).
Arguments Raised {A} e.
Arguments Returned {A} a.

(** [float(n)] for an [int]: the nearest binary64 value, ties to even;
    [None] stands for the [OverflowError] Python raises when that value
    is not finite. *)
Definition float_of_int (n : Z) : option float :=
  let f := SF2Prim (binary_normalize prec emax n 0 false) in
  if is_infinity f then None else Some f.

(** [n * x] for an [int] [n] and a [float] [x]: the [int] is converted
    first. *)
Definition mul_int_float (n : Z) (x : float) : option float :=
  match float_of_int n with
  | Some f => Some (f * x)%float
  | None => None
  end.

(** [float(n)] for the length of a list.  A Python list has fewer than
    [2^63] items, where the conversion cannot overflow. *)
Definition float_of_len (n : Z) : float :=
  SF2Prim (binary_normalize prec emax n 0 false).

(** The integer nearest to [n / d] for [d > 0], ties to even. *)
Definition round_half_even (n d : Z) : Z :=
  let q := n / d in
  match 2 * (n mod d) ?= d with
  | Lt => q
  | Gt => q + 1
  | Eq => if Z.even q then q else q + 1
  end.

(** [round(x, 2)]: the exact value of [x] is rounded to the nearest
    multiple of 1/100 (ties to even), and the binary64 value nearest to that
    decimal is returned; infinities, NaN and zeros round to themselves. *)
Definition round2 (x : float) : float :=
  match Prim2SF x with
  | S754_finite s m e =>
      let n := if 0 <=? e then Zpos m * 100 * 2 ^ e
               else round_half_even (Zpos m * 100) (2 ^ (- e)) in
      match n with
      | Zpos p =>
          SF2Prim (SFdiv prec emax (S754_finite s p 0) (S754_finite false 100 0))
      | _ => SF2Prim (S754_zero s)
      end
  | _ => x
  end.

(** [sum(xs)] of floats: the items are added from left to right, starting
    from the integer 0, which the first addition converts to [0.0].
    (CPython 3.12 and later add floats with a compensated algorithm, whose
    result can differ from this one in the last bit when there are three
    items or more.  Below, [sum] is only ever compared with [sum] on the
    same list, or applied to at most two items.) *)
Definition sum (xs : list float) : float :=
  fold_left PrimFloat.add xs 0%float.

(** *** Dictionaries, sorting, [max] and slices *)

(** [d[k] = f(d[k])] on a [defaultdict] whose missing values are [dflt]:
    a present key keeps its place, a new key goes to the end. *)
Fixpoint dict_update {V : Type} (dflt : V) (f : V -> V) (k : string)
  (d : list (string * V)) : list (string * V) :=
  match d with
  | [] => [(k, f dflt)]
  | (k', v) :: d' =>
      if (k' =? k)%string then (k', f v) :: d'
      else (k', v) :: dict_update dflt f k d'
  end.

(** One step of a stable ascending sort that, like [list.sort], only asks
    whether one item is less than another: [x], which came before every
    item of the sorted [l], passes the items that are less than it. *)
Fixpoint insert_asc {A : Type} (lt : A -> A -> bool) (x : A) (l : list A)
  : list A :=
  match l with
  | [] => [x]
  | y :: l' => if lt y x then y :: insert_asc lt x l' else x :: y :: l'
  end.

(** [sorted(l)] under the order [lt]: ascending, equal items in their
    original order.  Where [lt] orders the items as [<] orders numbers or
    texts (a strict weak order), a list has one stable ascending
    arrangement, the one [list.sort] returns and this function computes.
    On float keys with a NaN among them [<] is no such order, and what
    [list.sort] returns then depends on the comparisons its merge strategy
    happens to make: that order is not modelled, and what is proved below
    of the order of float keys is stated for keys without NaN. *)
Definition sorted {A : Type} (lt : A -> A -> bool) (l : list A) : list A :=
  fold_right (insert_asc lt) [] l.

(** [sorted(l, key=key, reverse=True)]: the list is reversed, sorted
    ascending on the keys, and reversed again, which keeps equal keys in
    their original order. *)
Definition sorted_reverse {A K : Type} (lt : K -> K -> bool) (key : A -> K)
  (l : list A) : list A :=
  rev (sorted (fun a b => lt (key a) (key b)) (rev l)).

(** [a < b] on [(str, float)] tuples: decided at the first component that
    differs. *)
Definition item_lt (a b : string * float) : bool :=
  if (fst a =? fst b)%string
  then (if (snd a =? snd b)%float then false else (snd a <? snd b)%float)
  else (fst a <? fst b)%string.

(** [max(x :: xs, key=key)]: an item replaces the current maximum only
    when its key is greater, so the first of several maxima is kept. *)
Definition max_by {A : Type} (key : A -> float) (x : A) (xs : list A) : A :=
  fold_left (fun m y => if (key m <? key y)%float then y else m) xs x.

(** [l[:n]]; a negative [n] counts from the end. *)
Definition take {A : Type} (n : Z) (l : list A) : list A :=
  if n <? 0 then firstn (Z.to_nat (Z.of_nat (List.length l) + n)) l
  else firstn (Z.to_nat n) l.

(** *** [datetime] with the format ['%Y-%m-%d'] *)

Record datetime : Type := Datetime { year : Z; month : Z; day : Z }.

Definition is_digit (c : ascii) : bool :=
  let n := N_of_ascii c in ((48 <=? n) && (n <=? 57))%N.

Definition between (lo hi c : ascii) : bool :=
  ((N_of_ascii lo <=? N_of_ascii c) && (N_of_ascii c <=? N_of_ascii hi))%N.

Definition digit_val (c : ascii) : Z := Z.of_N (N_of_ascii c) - 48.

(** The directive [%Y] is the regular expression [\d\d\d\d]. *)
Definition match_Y (s : string) : option (Z * string) :=
  match s with
  | String a (String b (String c (String d rest))) =>
      if is_digit a && is_digit b && is_digit c && is_digit d
      then Some (1000 * digit_val a + 100 * digit_val b
                 + 10 * digit_val c + digit_val d, rest)
      else None
  | _ => None
  end.

(** The directive [%m] is [1[0-2]|0[1-9]|[1-9]]: the ways it matches a
    prefix of [s], in the order the matcher tries them, each with the
    month read and the rest of the text. *)
Definition match_m (s : string) : list (Z * string) :=
  match s with
  | EmptyString => []
  | String a r1 =>
      match r1 with
      | EmptyString => []
      | String b r2 =>
          (if Ascii.eqb a "1" && between "0" "2" b
           then [(10 + digit_val b, r2)] else [])
          ++ (if Ascii.eqb a "0" && between "1" "9" b
              then [(digit_val b, r2)] else [])
      end
      ++ (if between "1" "9" a then [(digit_val a, r1)] else [])
  end.

(** The directive [%d] is [3[0-1]|[1-2]\d|0[1-9]|[1-9]| [1-9]]. *)
Definition match_d (s : string) : list (Z * string) :=
  match s with
  | EmptyString => []
  | String a r1 =>
      match r1 with
      | EmptyString => []
      | String b r2 =>
          (if Ascii.eqb a "3" && between "0" "1" b
           then [(30 + digit_val b, r2)] else [])
          ++ (if between "1" "2" a && is_digit b
              then [(10 * digit_val a + digit_val b, r2)] else [])
          ++ (if Ascii.eqb a "0" && between "1" "9" b
              then [(digit_val b, r2)] else [])
      end
      ++ (if between "1" "9" a then [(digit_val a, r1)] else [])
      ++ match r1 with
         | EmptyString => []
         | String b r2 =>
             if Ascii.eqb a " " && between "1" "9" b
             then [(digit_val b, r2)] else []
         end
  end.

(** The first alternative of [l] on which the rest of the pattern, [k],
    succeeds. *)
Fixpoint first_match {A B : Type} (k : A -> option B) (l : list A)
  : option B :=
  match l with
  | [] => None
  | a :: l' => match k a with Some b => Some b | None => first_match k l' end
  end.

(** [re.match] of the pattern of ['%Y-%m-%d'] at the start of [s]: the
    three numbers and the text left unmatched. *)
Definition match_Ymd (s : string) : option (Z * Z * Z * string) :=
  match match_Y s with
  | Some (y, String "-" r) =>
      first_match
        (fun '(m, r') =>
           match r' with
           | String "-" r'' =>
               match match_d r'' with
               | (d, rest) :: _ => Some (y, m, d, rest)
               | [] => None
               end
           | _ => None
           end)
        (match_m r)
  | _ => None
  end.

Definition is_leap (y : Z) : bool :=
  (y mod 4 =? 0) && (negb (y mod 100 =? 0) || (y mod 400 =? 0)).

Definition days_in_month (y m : Z) : Z :=
  if m =? 2 then (if is_leap y then 29 else 28)
  else if (m =? 4) || (m =? 6) || (m =? 9) || (m =? 11) then 30
  else 31.

(** The dates [datetime] builds: years from 1, months 1..12, days within
    the month. *)
Definition date_ok (y m d : Z) : bool :=
  (1 <=? y) && (1 <=? m) && (m <=? 12)
  && (1 <=? d) && (d <=? days_in_month y m).

(** [datetime.strptime(s, '%Y-%m-%d')]; [None] stands for [ValueError]:
    the text does not match, text is left over, or the numbers are not a
    date of the calendar. *)
Definition strptime_Ymd (s : string) : option datetime :=
  match match_Ymd s with
  | Some (y, m, d, EmptyString) =>
      if date_ok y m d then Some (Datetime y m d) else None
  | _ => None
  end.

Definition digit_char (n : Z) : ascii := ascii_of_N (Z.to_N (48 + n mod 10)).

(** Two and four decimal digits, zero-filled. *)
Definition pad2 (n : Z) : string :=
  String (digit_char (n / 10)) (String (digit_char n) EmptyString).

Definition pad4 (n : Z) : string :=
  String (digit_char (n / 1000)) (String (digit_char (n / 100)) (pad2 n)).

(** The year as the directive [%Y] of [strftime] writes it.  CPython
    hands the directive to the C library, and the one of Linux (glibc)
    writes the year with no filling: 999 is ["999"].  Other C libraries,
    and CPython from 3.13 on, fill it with zeros to four digits.  From
    1000 to 9999, the last year of a [datetime], all of them write the
    same four digits; what is proved below of the text of a year is
    stated for those years. *)
Definition strftime_Y (y : Z) : string :=
  if y <? 10 then String (digit_char y) EmptyString
  else if y <? 100 then pad2 y
  else if y <? 1000 then String (digit_char (y / 100)) (pad2 y)
  else pad4 y.

(** [d.strftime('%Y-%m-%d')] and [d.strftime('%Y-%m')]. *)
Definition strftime_Ymd (d : datetime) : string :=
  (strftime_Y (year d) ++ "-" ++ pad2 (month d) ++ "-" ++ pad2 (day d))%string.

Definition strftime_Ym (d : datetime) : string :=
  (strftime_Y (year d) ++ "-" ++ pad2 (month d))%string.

End Py.

(** ** The ledger *)

(** A sale.  [D] is what the variant keeps of the date: the text it was
    given ([data]) in [AnaliseVendasEdu], the parsed date and its
    normalised text ([data_obj], [data_str]) in [RelatorioFinalEdu]. *)
Record venda (D : Type) : Type := Venda {
  id : Z;
  produto : string;
  vendedor : string;
  quantidade : Z;
  valor_unitario : float;
  valor_total : float;
  data : D
}.
Arguments Venda {D} _ _ _ _ _ _ _.
Arguments id {D} _.
Arguments produto {D} _.
Arguments vendedor {D} _.
Arguments quantidade {D} _.
Arguments valor_unitario {D} _.
Arguments valor_total {D} _.
Arguments data {D} _.

(** The mutable state: the list [vendas] and the counter [contador_id]
    (module globals in the first variant, attributes of [SistemaVendas] in
    the second). *)
Record sistema (D : Type) : Type := Sistema {
  vendas : list (venda D);
  contador_id : Z
}.
Arguments Sistema {D} _ _.
Arguments vendas {D} _.
Arguments contador_id {D} _.

(** The state at start-up: [vendas = []], [contador_id = 1]. *)
Definition inicial {D : Type} : sistema D := Sistema [] 1.

Module StatsVendedor.
Record t : Type := Make {
  total_vendas : float;
  quantidade_vendas : Z;
  valor_medio : float
}.
End StatsVendedor.

Module StatsProduto.
Record t : Type := Make {
  total_vendido : float;
  quantidade_vendida : Z;
  receita : float
}.
End StatsProduto.

Module RelatorioVendedor.
Record t (D : Type) : Type := Make {
  nome : string;
  total_vendas : float;
  quantidade_transacoes : Z;
  valor_medio_transacao : float;
  produtos_vendidos : list (string * Z);
  lista_vendas : list (venda D)
}.
Arguments Make {D} _ _ _ _ _ _.
Arguments nome {D} _.
Arguments total_vendas {D} _.
Arguments quantidade_transacoes {D} _.
Arguments valor_medio_transacao {D} _.
Arguments produtos_vendidos {D} _.
Arguments lista_vendas {D} _.
End RelatorioVendedor.

Module RelatorioGeral.
Record t : Type := Make {
  total_vendas : float;
  estatisticas_vendedor : list (string * StatsVendedor.t);
  estatisticas_produto : list (string * StatsProduto.t);
  vendas_por_mes : list (string * float);
  ranking_vendedores : list (string * float);
  ranking_produtos : list (string * Z);
  melhor_mes : option string * float;
  total_transacoes : Z
}.
End RelatorioGeral.

(** ** Calculations, rankings and reports

    These functions have the same text in both variants; they only differ
    in how the month of a sale is read, which is the parameter [mes]. *)

(** [total / qtd if qtd > 0 else 0.0] *)
Definition media (total : float) (qtd : Z) : float :=
  if 0 <? qtd then (total / Py.float_of_len qtd)%float else 0%float.

Definition calcular_total_vendas {D : Type} (vs : list (venda D)) : float :=
  match vs with
  | [] => 0%float
  | _ => Py.sum (map valor_total vs)
  end.

(** The first loop of [calcular_vendas_por_vendedor]: total and count per
    seller. *)
Definition acumular_por_vendedor {D : Type} (vs : list (venda D))
  : list (string * (float * Z)) :=
  fold_left
    (fun stats venda =>
       Py.dict_update (0%float, 0)
         (fun '(total, qtd) => ((total + valor_total venda)%float, qtd + 1))
         (vendedor venda) stats)
    vs [].

Definition calcular_vendas_por_vendedor {D : Type} (vs : list (venda D))
  : list (string * StatsVendedor.t) :=
  map (fun '(vendedor, (total, qtd)) =>
         (vendedor, StatsVendedor.Make total qtd (media total qtd)))
      (acumular_por_vendedor vs).

(** The first loop of [calcular_vendas_por_produto]: total and units per
    product. *)
Definition acumular_por_produto {D : Type} (vs : list (venda D))
  : list (string * (float * Z)) :=
  fold_left
    (fun stats venda =>
       Py.dict_update (0%float, 0)
         (fun '(total, qtd) =>
            ((total + valor_total venda)%float, qtd + quantidade venda))
         (produto venda) stats)
    vs [].

Definition calcular_vendas_por_produto {D : Type} (vs : list (venda D))
  : list (string * StatsProduto.t) :=
  map (fun '(produto, (total, qtd)) =>
         (produto, StatsProduto.Make total qtd total))
      (acumular_por_produto vs).

(** The loop of [calcular_vendas_por_mes], before the sort. *)
Definition acumular_por_mes {D : Type} (mes : D -> string)
  (vs : list (venda D)) : list (string * float) :=
  fold_left
    (fun stats venda =>
       Py.dict_update 0%float (fun total => (total + valor_total venda)%float)
         (mes (data venda)) stats)
    vs [].

Definition calcular_vendas_por_mes {D : Type} (mes : D -> string)
  (vs : list (venda D)) : list (string * float) :=
  Py.sorted Py.item_lt (acumular_por_mes mes vs).

Definition ranking_vendedores {D : Type} (vs : list (venda D)) (limite : Z)
  : list (string * float) :=
  let ranking :=
    Py.sorted_reverse PrimFloat.ltb
      (fun item => StatsVendedor.total_vendas (snd item))
      (calcular_vendas_por_vendedor vs) in
  map (fun '(vendedor, dados) => (vendedor, StatsVendedor.total_vendas dados))
      (Py.take limite ranking).

Definition ranking_produtos {D : Type} (vs : list (venda D)) (limite : Z)
  : list (string * Z) :=
  let ranking :=
    Py.sorted_reverse Z.ltb
      (fun item => StatsProduto.quantidade_vendida (snd item))
      (calcular_vendas_por_produto vs) in
  map (fun '(produto, dados) => (produto, StatsProduto.quantidade_vendida dados))
      (Py.take limite ranking).

Definition melhor_mes {D : Type} (mes : D -> string) (vs : list (venda D))
  : option string * float :=
  match calcular_vendas_por_mes mes vs with
  | [] => (None, 0%float)
  | item :: items =>
      let '(m, total) := Py.max_by snd item items in (Some m, total)
  end.

Definition gerar_relatorio_geral {D : Type} (mes : D -> string)
  (vs : list (venda D)) : option RelatorioGeral.t :=
  match vs with
  | [] => None
  | _ =>
      Some (RelatorioGeral.Make
              (calcular_total_vendas vs)
              (calcular_vendas_por_vendedor vs)
              (calcular_vendas_por_produto vs)
              (calcular_vendas_por_mes mes vs)
              (ranking_vendedores vs 5)
              (ranking_produtos vs 5)
              (melhor_mes mes vs)
              (Z.of_nat (List.length vs)))
  end.

(** The test of the comprehension in [gerar_relatorio_vendedor]:
    [nome_vendedor.lower() in v['vendedor'].lower()]. *)
Definition corresponde {D : Type} (nome_vendedor : string) (v : venda D)
  : bool :=
  Py.str_in (Py.lower nome_vendedor) (Py.lower (vendedor v)).

(** The first variant writes the name as
    [vendas_do_vendedor[0]['vendedor'] if vendas_do_vendedor else nome_vendedor];
    the list is not empty at that point, so both variants take the first
    match. *)
Definition gerar_relatorio_vendedor {D : Type} (vs : list (venda D))
  (nome_vendedor : string) : option (RelatorioVendedor.t D) :=
  let vendas_do_vendedor := filter (corresponde nome_vendedor) vs in
  match vendas_do_vendedor with
  | [] => None
  | primeira :: _ =>
      let total_vendas := Py.sum (map valor_total vendas_do_vendedor) in
      let quantidade_vendas := Z.of_nat (List.length vendas_do_vendedor) in
      let produtos_vendidos :=
        fold_left
          (fun d v => Py.dict_update 0 (fun q => q + quantidade v) (produto v) d)
          vendas_do_vendedor [] in
      Some (RelatorioVendedor.Make
              (vendedor primeira)
              total_vendas
              quantidade_vendas
              (media total_vendas quantidade_vendas)
              produtos_vendidos
              vendas_do_vendedor)
  end.

(** ** Insertion *)

(** The arguments of one call of [registrar_venda]. *)
Record chamada : Type := Chamada {
  arg_produto : string;
  arg_vendedor : string;
  arg_quantidade : Z;
  arg_valor_unitario : float;
  arg_data : string
}.

(** The first three tests of [registrar_venda], the same in both
    variants. *)
Definition textos_presentes (c : chamada) : bool :=
  Py.all3 (arg_produto c) (arg_vendedor c) (arg_data c).

Definition quantidade_positiva (c : chamada) : bool :=
  negb (arg_quantidade c <=? 0).

Definition valor_positivo (c : chamada) : bool :=
  negb (arg_valor_unitario c <=? 0)%float.

(** *** [AnaliseVendasEdu.py]: module-level state, the date kept as text *)

Module AnaliseVendasEdu.

Definition estado : Type := sistema string.

(** [len(data) != 10 or data[4] != '-' or data[7] != '-'] is false. *)
Definition formato_data (data : string) : bool :=
  (Py.len data =? 10)
  && match Py.char_at data 4, Py.char_at data 7 with
     | Some a, Some b => Ascii.eqb a "-" && Ascii.eqb b "-"
     | _, _ => false
     end.

Definition registrar_venda (st : estado) (produto vendedor : string)
  (quantidade : Z) (valor_unitario : float) (data : string)
  : estado * Py.outcome (option (venda string)) :=
  if negb (Py.all3 produto vendedor data) then (st, Py.Returned None)
  else if quantidade <=? 0 then (st, Py.Returned None)
  else if (valor_unitario <=? 0)%float then (st, Py.Returned None)
  else if negb (formato_data data) then (st, Py.Returned None)
  else
    match Py.mul_int_float quantidade valor_unitario with
    | None => (st, Py.Raised Py.OverflowError)
    | Some valor_total =>
        let venda :=
          Venda (contador_id st) (Py.strip produto) (Py.strip vendedor)
            quantidade valor_unitario valor_total data in
        (Sistema (vendas st ++ [venda]) (contador_id st + 1),
         Py.Returned (Some venda))
    end.

(** The accent of the fallback text is the code point 225. *)
Definition extrair_mes (data : string) : string :=
  if 7 <=? Py.len data then Py.slice_prefix 7 data
  else ("Data Inv" ++ String (ascii_of_N 225) "lida")%string.

Definition calcular_vendas_por_mes (st : estado) : list (string * float) :=
  calcular_vendas_por_mes extrair_mes (vendas st).

Definition melhor_mes (st : estado) : option string * float :=
  melhor_mes extrair_mes (vendas st).

Definition gerar_relatorio_geral (st : estado) : option RelatorioGeral.t :=
  gerar_relatorio_geral extrair_mes (vendas st).

(** The fourth test. *)
Definition data_aceita (c : chamada) : bool := formato_data (arg_data c).

(** All four tests pass. *)
Definition valida (c : chamada) : bool :=
  textos_presentes c && quantidade_positiva c && valor_positivo c
  && data_aceita c.

Definition chamar (st : estado) (c : chamada)
  : estado * Py.outcome (option (venda string)) :=
  registrar_venda st (arg_produto c) (arg_vendedor c) (arg_quantidade c)
    (arg_valor_unitario c) (arg_data c).

(** A sequence of calls, each on the state the one before left (a call
    that raises leaves the state as it is, and the menu goes on after
    it). *)
Definition executar (st : estado) (cs : list chamada) : estado :=
  fold_left (fun st c => fst (chamar st c)) cs st.

End AnaliseVendasEdu.

(** *** [RelatorioFinalEdu.py]: the class [SistemaVendas], the date parsed *)

Module RelatorioFinalEdu.

Record data_venda : Type := DataVenda {
  data_str : string;
  data_obj : Py.datetime
}.

Definition estado : Type := sistema data_venda.

Definition registrar_venda (self : estado) (produto vendedor : string)
  (quantidade : Z) (valor_unitario : float) (data : string)
  : estado * Py.outcome (option (venda data_venda)) :=
  if negb (Py.all3 produto vendedor data) then (self, Py.Returned None)
  else if quantidade <=? 0 then (self, Py.Returned None)
  else if (valor_unitario <=? 0)%float then (self, Py.Returned None)
  else
    match Py.strptime_Ymd data with
    | None => (self, Py.Returned None)
    | Some data_obj =>
        let data_str := Py.strftime_Ymd data_obj in
        match Py.mul_int_float quantidade valor_unitario with
        | None => (self, Py.Raised Py.OverflowError)
        | Some produto_valor =>
            let valor_total := Py.round2 produto_valor in
            let venda :=
              Venda (contador_id self) (Py.strip produto) (Py.strip vendedor)
                quantidade valor_unitario valor_total
                (DataVenda data_str data_obj) in
            (Sistema (vendas self ++ [venda]) (contador_id self + 1),
             Py.Returned (Some venda))
        end
    end.

Definition extrair_mes (data_obj : Py.datetime) : string :=
  Py.strftime_Ym data_obj.

Definition mes_da_venda (d : data_venda) : string := extrair_mes (data_obj d).

Definition calcular_vendas_por_mes (self : estado) : list (string * float) :=
  calcular_vendas_por_mes mes_da_venda (vendas self).

Definition melhor_mes (self : estado) : option string * float :=
  melhor_mes mes_da_venda (vendas self).

Definition gerar_relatorio_geral (self : estado) : option RelatorioGeral.t :=
  gerar_relatorio_geral mes_da_venda (vendas self).

(** The fourth test: [strptime] does not raise. *)
Definition data_aceita (c : chamada) : bool :=
  match Py.strptime_Ymd (arg_data c) with Some _ => true | None => false end.

(** All four tests pass. *)
Definition valida (c : chamada) : bool :=
  textos_presentes c && quantidade_positiva c && valor_positivo c
  && data_aceita c.

Definition chamar (self : estado) (c : chamada)
  : estado * Py.outcome (option (venda data_venda)) :=
  registrar_venda self (arg_produto c) (arg_vendedor c) (arg_quantidade c)
    (arg_valor_unitario c) (arg_data c).

Definition executar (self : estado) (cs : list chamada) : estado :=
  fold_left (fun st c => fst (chamar st c)) cs self.

End RelatorioFinalEdu.

(** ** Properties stated on the ledger *)

(** The ids of the ledger are 1, 2, 3, ... in order of insertion, and the
    counter is the next one. *)
Definition ids_em_sequencia {D : Type} (st : sistema D) : Prop :=
  map id (vendas st) = map Z.of_nat (seq 1 (List.length (vendas st)))
  /\ contador_id st = Z.of_nat (List.length (vendas st)) + 1.

(** The distinct texts of a list, in the order of their first
    appearance. *)
Definition distintos (ks : list string) : list string :=
  fold_left
    (fun acc k => if existsb (String.eqb k) acc then acc else acc ++ [k])
    ks [].

(** The items of a list filed under the key [k]. *)
Definition grupo {A : Type} (chave : A -> string) (k : string) (l : list A)
  : list A :=
  filter (fun a => (chave a =? k)%string) l.

(** The entries of a dictionary come in strictly ascending order of
    their keys. *)
Definition chaves_crescentes {V : Type} (d : list (string * V)) : Prop :=
  StronglySorted (fun a b => (fst a <? fst b)%string = true) d.

(** What [melhor_mes] owes to the month totals [por_mes]: the sentinel
    when there is none; otherwise an entry of the map that no entry
    exceeds (with every total at most it when NaN is not involved), and
    that comes first, in the order of the months, among the entries whose
    total equals its own. *)
Definition maior_mes (por_mes : list (string * float))
  (res : option string * float) : Prop :=
  match por_mes with
  | [] => res = (None, 0%float)
  | _ :: _ =>
      exists m total,
        res = (Some m, total)
        /\ In (m, total) por_mes
        /\ (forall m' t', In (m', t') por_mes -> (total <? t')%float = false)
        /\ (forall m' t', In (m', t') por_mes ->
              is_nan total = false -> is_nan t' = false ->
              (t' <=? total)%float = true)
        /\ (forall m' t', In (m', t') por_mes ->
              (t' =? total)%float = true -> (m <=? m')%string = true)
  end.

(** What a loop [total += x] leaves in [total], started at 0.0, after the
    items of [xs]. *)
Definition acumulado (xs : list float) : float :=
  fold_left PrimFloat.add xs 0%float.

(** The sum of the stored totals of [l] under an exact reading [valor] of
    the amounts (say, in cents). *)
Definition soma_exata {D : Type} (valor : float -> Z) (l : list (venda D))
  : Z :=
  fold_right (fun v acc => valor (valor_total v) + acc) 0 l.

(** [sub] occurs in [s]: some text before it and some text after it make
    up [s]. *)
Definition contem (sub s : string) : Prop :=
  exists antes depois, s = (antes ++ sub ++ depois)%string.

(** The seller of a sale contains the query, letter case apart. *)
Definition vendedor_contem {D : Type} (consulta : string) (v : venda D) : Prop :=
  contem (Py.lower consulta) (Py.lower (vendedor v)).

(** The whole ranking of the sellers, before it is cut at the limit. *)
Definition ranking_completo {D : Type} (vs : list (venda D))
  : list (string * StatsVendedor.t) :=
  Py.sorted_reverse PrimFloat.ltb
    (fun item => StatsVendedor.total_vendas (snd item))
    (calcular_vendas_por_vendedor vs).

(** [ranking_vendedores] with the sort left open: [ordena] stands for
    whatever list [sorted(..., reverse=True)] returns for the seller
    aggregates. *)
Definition ranking_vendedores_com {D : Type}
  (ordena : list (string * StatsVendedor.t) -> list (string * StatsVendedor.t))
  (vs : list (venda D)) (limite : Z) : list (string * float) :=
  map (fun '(vendedor, dados) => (vendedor, StatsVendedor.total_vendas dados))
      (Py.take limite (ordena (calcular_vendas_por_vendedor vs))).

(** No seller total is NaN. *)
Definition totais_sem_nan {D : Type} (vs : list (venda D)) : Prop :=
  Forall (fun e => is_nan (StatsVendedor.total_vendas (snd e)) = false)
    (calcular_vendas_por_vendedor vs).

(** No item is followed by one with a greater key. *)
Definition decrescente {A : Type} (key : A -> float) (l : list A) : Prop :=
  Sorted (fun a b => (key a <? key b)%float = false) l.

(** The items of [l'] whose key equals [k] are those of [l], in the same
    order. *)
Definition mesma_ordem {A : Type} (key : A -> float) (l l' : list A) : Prop :=
  forall k : float,
    filter (fun a => (key a =? k)%float) l'
    = filter (fun a => (key a =? k)%float) l.

(** A text of the shape YYYY-MM-DD, written with its eight digits. *)
Definition texto_iso (y1 y2 y3 y4 m1 m2 d1 d2 : ascii) : string :=
  String y1 (String y2 (String y3 (String y4 (String "-"
    (String m1 (String m2 (String "-"
      (String d1 (String d2 EmptyString))))))))).

(** The number two digits write. *)
Definition dois_digitos (a b : ascii) : Z :=
  10 * Py.digit_val a + Py.digit_val b.

Definition quatro_digitos (a b c d : ascii) : Z :=
  1000 * Py.digit_val a + 100 * Py.digit_val b
  + 10 * Py.digit_val c + Py.digit_val d.

(** The 256 code points of the strings. *)
Definition todos_os_caracteres : list ascii :=
  map (fun n => ascii_of_nat n) (seq 0 256).

(** The sales of the example data that the properties below are tried
    on. *)
Definition exemplo : list chamada :=
  [ Chamada "Notebook Dell" "Maria Silva" 2 3500 "2024-01-15";
    Chamada "Mouse Logitech" "Carlos Andrade" 5 89.90 "2024-01-16";
    Chamada "Teclado" "Maria Silva" 3 250 "2024-01-17";
    Chamada "Mouse Logitech" "Ana Pereira" 10 85 "2024-02-12";
    Chamada "Monitor LG" "Carlos Andrade" 1 1150 "2024-03-05" ].

(** * Proofs *)

(** ** Insertion *)

Section Insercao.

Import Py.

Lemma seq_ids_snoc (n : nat) :
  map Z.of_nat (seq 1 (n + 1)) = map Z.of_nat (seq 1 n) ++ [Z.of_nat n + 1].
Proof.
  rewrite seq_app, map_app. simpl. do 2 f_equal. lia.
Qed.

Lemma ids_em_sequencia_snoc {D : Type} (st : sistema D) (v : venda D) :
  ids_em_sequencia st ->
  id v = contador_id st ->
  ids_em_sequencia (Sistema (vendas st ++ [v]) (contador_id st + 1)).
Proof.
  intros [Hids Hc] Hv. unfold ids_em_sequencia. simpl.
  rewrite map_app, length_app, seq_ids_snoc, Hids. simpl. split.
  - now rewrite Hv, Hc.
  - rewrite Hc. lia.
Qed.

(** What a call of the first variant can do: nothing (refusal or
    [OverflowError]), or one sale appended with the counter as its id. *)
Lemma analise_chamar_cases (st : AnaliseVendasEdu.estado) (c : chamada) :
  fst (AnaliseVendasEdu.chamar st c) = st
  \/ exists v,
      AnaliseVendasEdu.chamar st c
      = (Sistema (vendas st ++ [v]) (contador_id st + 1), Returned (Some v))
      /\ id v = contador_id st.
Proof.
  unfold AnaliseVendasEdu.chamar, AnaliseVendasEdu.registrar_venda.
  repeat match goal with
         | |- context [if ?b then _ else _] => destruct b; [now left|]
         end.
  destruct (mul_int_float _ _); [right|now left].
  eexists. split; reflexivity.
Qed.

Lemma relatorio_chamar_cases (st : RelatorioFinalEdu.estado) (c : chamada) :
  fst (RelatorioFinalEdu.chamar st c) = st
  \/ exists v,
      RelatorioFinalEdu.chamar st c
      = (Sistema (vendas st ++ [v]) (contador_id st + 1), Returned (Some v))
      /\ id v = contador_id st.
Proof.
  unfold RelatorioFinalEdu.chamar, RelatorioFinalEdu.registrar_venda.
  repeat match goal with
         | |- context [if ?b then _ else _] => destruct b; [now left|]
         end.
  destruct (strptime_Ymd _); [|now left].
  destruct (mul_int_float _ _); [right|now left].
  eexists. split; reflexivity.
Qed.

Lemma analise_executar_ids (cs : list chamada) (st : AnaliseVendasEdu.estado) :
  ids_em_sequencia st -> ids_em_sequencia (AnaliseVendasEdu.executar st cs).
Proof.
  revert st. induction cs as [|c cs IH]; intros st Hst; [exact Hst|].
  simpl. apply IH.
  destruct (analise_chamar_cases st c) as [-> | (v & -> & Hv)]; [exact Hst|].
  now apply ids_em_sequencia_snoc.
Qed.

Lemma relatorio_executar_ids (cs : list chamada) (st : RelatorioFinalEdu.estado) :
  ids_em_sequencia st -> ids_em_sequencia (RelatorioFinalEdu.executar st cs).
Proof.
  revert st. induction cs as [|c cs IH]; intros st Hst; [exact Hst|].
  simpl. apply IH.
  destruct (relatorio_chamar_cases st c) as [-> | (v & -> & Hv)]; [exact Hst|].
  now apply ids_em_sequencia_snoc.
Qed.

Lemma ids_em_sequencia_inicial {D : Type} : ids_em_sequencia (@inicial D).
Proof. split; reflexivity. Qed.

Lemma NoDup_seq_ids (n : nat) : NoDup (map Z.of_nat (seq 1 n)).
Proof.
  apply Injective_map_NoDup; [|apply seq_NoDup].
  intros a b. apply Nat2Z.inj.
Qed.

(** C5. After any sequence of calls of [registrar_venda] on a fresh
    ledger, accepted or not, the ids of the stored sales are exactly
    1, 2, 3, ... in the order of the ledger: no gap, no reuse (they are
    pairwise distinct), and the counter is the next id.  Both variants. *)
Theorem ids_sequenciais (cs : list chamada) :
  (let st := AnaliseVendasEdu.executar inicial cs in
   map id (vendas st) = map Z.of_nat (seq 1 (List.length (vendas st)))
   /\ NoDup (map id (vendas st))
   /\ contador_id st = Z.of_nat (List.length (vendas st)) + 1)
  /\
  (let st := RelatorioFinalEdu.executar inicial cs in
   map id (vendas st) = map Z.of_nat (seq 1 (List.length (vendas st)))
   /\ NoDup (map id (vendas st))
   /\ contador_id st = Z.of_nat (List.length (vendas st)) + 1).
Proof.
  split; cbv zeta.
  - destruct (analise_executar_ids cs inicial ids_em_sequencia_inicial)
      as [Hids Hc].
    repeat split; trivial. rewrite Hids. apply NoDup_seq_ids.
  - destruct (relatorio_executar_ids cs inicial ids_em_sequencia_inicial)
      as [Hids Hc].
    repeat split; trivial. rewrite Hids. apply NoDup_seq_ids.
Qed.

(** A call that fails one of the four tests the code makes returns [None]
    and leaves the state as it was: same sales, same counter.  Both
    variants. *)
Theorem rejeicao_sem_efeito (c : chamada) :
  (forall st : AnaliseVendasEdu.estado,
      AnaliseVendasEdu.valida c = false ->
      AnaliseVendasEdu.chamar st c = (st, Returned None))
  /\
  (forall self : RelatorioFinalEdu.estado,
      RelatorioFinalEdu.valida c = false ->
      RelatorioFinalEdu.chamar self c = (self, Returned None)).
Proof.
  split; intros st H.
  - unfold AnaliseVendasEdu.valida, textos_presentes, quantidade_positiva,
      valor_positivo, AnaliseVendasEdu.data_aceita in H.
    unfold AnaliseVendasEdu.chamar, AnaliseVendasEdu.registrar_venda.
    destruct (all3 _ _ _); [|reflexivity].
    destruct (arg_quantidade c <=? 0); [reflexivity|].
    destruct (arg_valor_unitario c <=? 0)%float; [reflexivity|].
    destruct (AnaliseVendasEdu.formato_data _); [discriminate H|reflexivity].
  - unfold RelatorioFinalEdu.valida, textos_presentes, quantidade_positiva,
      valor_positivo, RelatorioFinalEdu.data_aceita in H.
    unfold RelatorioFinalEdu.chamar, RelatorioFinalEdu.registrar_venda.
    destruct (all3 _ _ _); [|reflexivity].
    destruct (arg_quantidade c <=? 0); [reflexivity|].
    destruct (arg_valor_unitario c <=? 0)%float; [reflexivity|].
    destruct (strptime_Ymd _); [discriminate H|reflexivity].
Qed.

(** The scenario of the specification: a quantity of 0 is refused, the
    ledger keeps its size and no id is used. *)
Lemma rejeicao_sem_efeito_witness :
  let c := Chamada "Notebook" "Ana" 0 1000 "2024-01-15" in
  let st := AnaliseVendasEdu.executar inicial exemplo in
  let self := RelatorioFinalEdu.executar inicial exemplo in
  (AnaliseVendasEdu.valida c = false
   /\ AnaliseVendasEdu.chamar st c = (st, Returned None))
  /\ (RelatorioFinalEdu.valida c = false
      /\ RelatorioFinalEdu.chamar self c = (self, Returned None)).
Proof.
  cbv zeta.
  pose proof (rejeicao_sem_efeito (Chamada "Notebook" "Ana" 0 1000 "2024-01-15"))
    as [HA HR].
  split; (split; [reflexivity|]).
  - apply HA. reflexivity.
  - apply HR. reflexivity.
Defined.

End Insercao.

(** ** Order of floats and of strings *)

Section Ordem.

Ltac sf_cases :=
  repeat match goal with
         | s : bool |- _ => destruct s
         end;
  simpl in *; try discriminate; try reflexivity;
  repeat match goal with
         | H : context [Z.compare ?a ?b] |- _ =>
             destruct (Z.compare_spec a b); subst
         | |- context [Z.compare ?a ?b] =>
             destruct (Z.compare_spec a b); subst
         end;
  simpl in *; try discriminate; try reflexivity; try lia;
  repeat match goal with
         | H : context [Pos.compare_cont Eq ?a ?b] |- _ =>
             change (Pos.compare_cont Eq a b) with (Pos.compare a b) in H;
             destruct (Pos.compare_spec a b); subst
         | |- context [Pos.compare_cont Eq ?a ?b] =>
             change (Pos.compare_cont Eq a b) with (Pos.compare a b);
             destruct (Pos.compare_spec a b); subst
         end;
  simpl in *; try discriminate; try reflexivity; try lia.

Lemma SFltb_trans (x y z : spec_float) :
  SFltb x y = true -> SFltb y z = true -> SFltb x z = true.
Proof.
  unfold SFltb, SFcompare.
  destruct x as [sx|sx| |sx mx ex], y as [sy|sy| |sy my ey],
    z as [sz|sz| |sz mz ez]; intros H1 H2; sf_cases.
Qed.

Lemma SFltb_irrefl (x : spec_float) : SFltb x x = false.
Proof.
  unfold SFltb, SFcompare. destruct x as [sx|sx| |sx mx ex]; sf_cases.
Qed.

Lemma SFltb_eqb_r (c y z : spec_float) :
  SFeqb z y = true -> SFltb c y = true -> SFltb c z = true.
Proof.
  unfold SFltb, SFeqb, SFcompare.
  destruct c as [sx|sx| |sx mx ex], y as [sy|sy| |sy my ey],
    z as [sz|sz| |sz mz ez]; intros H1 H2; sf_cases.
Qed.

Lemma SFleb_of_not_ltb (x y : spec_float) :
  SFeqb x x = true -> SFeqb y y = true -> SFltb x y = false ->
  SFleb y x = true.
Proof.
  unfold SFltb, SFeqb, SFleb, SFcompare.
  destruct x as [sx|sx| |sx mx ex], y as [sy|sy| |sy my ey];
    intros H1 H2 H3; sf_cases.
Qed.

Lemma SFltb_of_eqb (x y k : spec_float) :
  SFeqb y k = true -> SFeqb x k = true -> SFltb y x = false.
Proof.
  unfold SFltb, SFeqb, SFcompare.
  destruct x as [sx|sx| |sx mx ex], y as [sy|sy| |sy my ey],
    k as [sz|sz| |sz mz ez]; intros H1 H2; sf_cases.
Qed.

(** [<] on floats is transitive and irreflexive, also with NaN. *)
Lemma float_ltb_trans (x y z : float) :
  (x <? y)%float = true -> (y <? z)%float = true -> (x <? z)%float = true.
Proof. rewrite !ltb_spec. apply SFltb_trans. Qed.

Lemma float_ltb_irrefl (x : float) : (x <? x)%float = false.
Proof. rewrite ltb_spec. apply SFltb_irrefl. Qed.

Lemma float_ltb_asym (x y : float) :
  (x <? y)%float = true -> (y <? x)%float = false.
Proof.
  intros H. destruct (y <? x)%float eqn:E; [|reflexivity].
  now rewrite <- (float_ltb_irrefl x), (float_ltb_trans x y x).
Qed.

(** [==] on the right of [<] can be replaced. *)
Lemma float_ltb_eqb_r (c y z : float) :
  (z =? y)%float = true -> (c <? y)%float = true -> (c <? z)%float = true.
Proof. rewrite !ltb_spec, eqb_spec. apply SFltb_eqb_r. Qed.

(** Two floats equal to a third are not one below the other. *)
Lemma float_ltb_of_eqb (x y k : float) :
  (y =? k)%float = true -> (x =? k)%float = true -> (y <? x)%float = false.
Proof. rewrite !eqb_spec, ltb_spec. apply SFltb_of_eqb. Qed.

(** Without NaN the order is total: what is not smaller is at least as
    large. *)
Lemma float_leb_of_not_ltb (x y : float) :
  is_nan x = false -> is_nan y = false -> (x <? y)%float = false ->
  (y <=? x)%float = true.
Proof.
  unfold is_nan. rewrite !negb_false_iff, !eqb_spec, ltb_spec, leb_spec.
  apply SFleb_of_not_ltb.
Qed.

(** The order of strings, by code points. *)
Lemma ascii_compare_trans (c : comparison) (x y z : ascii) :
  Ascii.compare x y = c -> Ascii.compare y z = c -> Ascii.compare x z = c.
Proof.
  unfold Ascii.compare. destruct c; intros H1 H2.
  - apply N.compare_eq_iff in H1, H2. apply N.compare_eq_iff. congruence.
  - rewrite N.compare_lt_iff in *. lia.
  - rewrite N.compare_gt_iff in *. lia.
Qed.

Lemma string_compare_lt_trans (x y z : string) :
  String.compare x y = Lt -> String.compare y z = Lt ->
  String.compare x z = Lt.
Proof.
  revert y z. induction x as [|a x IH]; intros [|b y] [|c z]; simpl;
    try discriminate; try reflexivity.
  destruct (Ascii.compare a b) eqn:Eab; try discriminate;
    destruct (Ascii.compare b c) eqn:Ebc; try discriminate; intros H1 H2.
  - apply Ascii.compare_eq_iff in Eab, Ebc. subst.
    replace (Ascii.compare c c) with Eq
      by (symmetry; apply N.compare_refl).
    eauto.
  - apply Ascii.compare_eq_iff in Eab. subst. now rewrite Ebc.
  - apply Ascii.compare_eq_iff in Ebc. subst. now rewrite Eab.
  - now rewrite (ascii_compare_trans Lt a b c).
Qed.

Lemma string_compare_refl (x : string) : String.compare x x = Eq.
Proof.
  induction x as [|a x IH]; simpl; [reflexivity|].
  unfold Ascii.compare. now rewrite N.compare_refl.
Qed.

Lemma string_leb_refl (x : string) : (x <=? x)%string = true.
Proof. unfold String.leb. now rewrite string_compare_refl. Qed.

Lemma string_leb_trans (x y z : string) :
  (x <=? y)%string = true -> (y <=? z)%string = true ->
  (x <=? z)%string = true.
Proof.
  unfold String.leb.
  destruct (String.compare x y) eqn:Exy; try discriminate;
    destruct (String.compare y z) eqn:Eyz; try discriminate; intros _ _;
    try (apply String.compare_eq_iff in Exy; subst);
    try (apply String.compare_eq_iff in Eyz; subst);
    rewrite ?Exy, ?Eyz, ?string_compare_refl; trivial.
  now rewrite (string_compare_lt_trans x y z).
Qed.

Lemma string_leb_of_not_ltb (x y : string) :
  (x <? y)%string = false -> (y <=? x)%string = true.
Proof.
  unfold String.ltb, String.leb. rewrite (String.compare_antisym x y).
  now destruct (String.compare y x).
Qed.

Lemma string_leb_of_ltb (x y : string) :
  (x <? y)%string = true -> (x <=? y)%string = true.
Proof.
  unfold String.ltb, String.leb. now destruct (String.compare x y).
Qed.

End Ordem.

(** ** Dictionaries built by a loop *)

Section Dicionarios.

Import Py.

Lemma existsb_eqb_In (k : string) (ks : list string) :
  existsb (String.eqb k) ks = true <-> In k ks.
Proof.
  rewrite existsb_exists. split.
  - intros (x & Hx & E). apply String.eqb_eq in E. now subst.
  - intros H. exists k. split; [exact H|apply String.eqb_refl].
Qed.

Lemma distintos_snoc (ks : list string) (k : string) :
  distintos (ks ++ [k])
  = if existsb (String.eqb k) (distintos ks) then distintos ks
    else distintos ks ++ [k].
Proof. unfold distintos. now rewrite fold_left_app. Qed.

Lemma distintos_In (ks : list string) (k : string) :
  In k (distintos ks) <-> In k ks.
Proof.
  induction ks as [|a ks IH] using rev_ind; [reflexivity|].
  rewrite distintos_snoc, in_app_iff. simpl.
  destruct (existsb _ _) eqn:E.
  - apply existsb_eqb_In in E. split.
    + intros H. left. now apply IH.
    + intros [H|[<-|[]]]; [now apply IH|exact E].
  - rewrite in_app_iff, IH. simpl. tauto.
Qed.

Lemma distintos_NoDup (ks : list string) : NoDup (distintos ks).
Proof.
  induction ks as [|a ks IH] using rev_ind; [constructor|].
  rewrite distintos_snoc. destruct (existsb _ _) eqn:E; [exact IH|].
  apply NoDup_app; [exact IH|repeat constructor; intros []|].
  intros k Hk [<-|[]].
  apply existsb_eqb_In in Hk. congruence.
Qed.

(** Updating a key that the dictionary has changes its entry in place. *)
Lemma dict_update_present {V : Type} (dflt : V) (f : V -> V) (k : string)
  (g : string -> V) (ks : list string) :
  NoDup ks -> In k ks ->
  dict_update dflt f k (map (fun k' => (k', g k')) ks)
  = map (fun k' => (k', if (k' =? k)%string then f (g k') else g k')) ks.
Proof.
  induction ks as [|a ks IH]; intros Hnd Hin; [destruct Hin|].
  inversion_clear Hnd as [|? ? Ha Hks]. simpl.
  destruct (a =? k)%string eqn:E.
  - apply String.eqb_eq in E. subst a. f_equal.
    apply map_ext_in. intros k' Hk'.
    destruct (k' =? k)%string eqn:E'; [|reflexivity].
    apply String.eqb_eq in E'. now subst.
  - f_equal. apply IH; [exact Hks|].
    destruct Hin as [->|H]; [|exact H].
    now rewrite String.eqb_refl in E.
Qed.

(** Updating a key that the dictionary lacks adds it at the end. *)
Lemma dict_update_absent {V : Type} (dflt : V) (f : V -> V) (k : string)
  (g : string -> V) (ks : list string) :
  ~ In k ks ->
  dict_update dflt f k (map (fun k' => (k', g k')) ks)
  = map (fun k' => (k', g k')) ks ++ [(k, f dflt)].
Proof.
  induction ks as [|a ks IH]; intros Hin; [reflexivity|]. simpl.
  destruct (a =? k)%string eqn:E.
  - apply String.eqb_eq in E. subst. destruct Hin. now left.
  - f_equal. apply IH. intros H. apply Hin. now right.
Qed.

Lemma grupo_snoc {A : Type} (chave : A -> string) (k : string) (l : list A)
  (a : A) :
  grupo chave k (l ++ [a])
  = grupo chave k l ++ (if (chave a =? k)%string then [a] else []).
Proof. unfold grupo. rewrite filter_app. reflexivity. Qed.

Lemma grupo_absent {A : Type} (chave : A -> string) (k : string)
  (l : list A) :
  ~ In k (map chave l) -> grupo chave k l = [].
Proof.
  induction l as [|a l IH]; intros H; [reflexivity|]. simpl in *.
  destruct (chave a =? k)%string eqn:E.
  - apply String.eqb_eq in E. destruct H. now left.
  - apply IH. intros Hin. apply H. now right.
Qed.

(** A dictionary filled by [for a in l: d[chave(a)] = passo(a, d[chave(a)])]
    has the keys of [l] in the order of their first appearance, and under
    each key the steps of the items of that key, applied in order to the
    default value. *)
Lemma dict_fold_spec {A V : Type} (chave : A -> string) (dflt : V)
  (passo : A -> V -> V) (l : list A) :
  fold_left (fun d a => dict_update dflt (passo a) (chave a) d) l []
  = map (fun k =>
           (k, fold_left (fun acc a => passo a acc) (grupo chave k l) dflt))
      (distintos (map chave l)).
Proof.
  induction l as [|a l IH] using rev_ind; [reflexivity|].
  rewrite fold_left_app, IH, map_app. simpl fold_left at 1.
  change (map chave [a]) with [chave a]. rewrite distintos_snoc.
  destruct (existsb _ _) eqn:E.
  - apply existsb_eqb_In in E.
    rewrite (dict_update_present dflt (passo a) (chave a)
               (fun k => fold_left (fun acc a => passo a acc)
                           (grupo chave k l) dflt))
      by (trivial; apply distintos_NoDup).
    apply map_ext. intros k. rewrite grupo_snoc, String.eqb_sym.
    destruct (chave a =? k)%string; [|now rewrite app_nil_r].
    now rewrite fold_left_app.
  - assert (Hnot : ~ In (chave a) (distintos (map chave l))).
    { intros H. apply existsb_eqb_In in H. congruence. }
    rewrite (dict_update_absent dflt (passo a) (chave a)
               (fun k => fold_left (fun acc a => passo a acc)
                           (grupo chave k l) dflt)) by exact Hnot.
    rewrite map_app. simpl. f_equal.
    + apply map_ext_in. intros k Hk. rewrite grupo_snoc.
      destruct (chave a =? k)%string eqn:E'; [|now rewrite app_nil_r].
      apply String.eqb_eq in E'. subst. contradiction.
    + rewrite grupo_snoc, String.eqb_refl, grupo_absent; [reflexivity|].
      now rewrite <- distintos_In.
Qed.

Lemma dict_fold_keys {A V : Type} (chave : A -> string) (dflt : V)
  (passo : A -> V -> V) (l : list A) :
  map fst (fold_left (fun d a => dict_update dflt (passo a) (chave a) d) l [])
  = distintos (map chave l).
Proof.
  rewrite dict_fold_spec, map_map. simpl. apply map_id.
Qed.

(** The groups of the distinct keys are a partition of the list. *)
Lemma filter_or_disjoint {A : Type} (p q : A -> bool) (l : list A) :
  (forall a, In a l -> p a = true -> q a = false) ->
  Permutation (filter (fun a => p a || q a) l) (filter p l ++ filter q l).
Proof.
  induction l as [|a l IH]; intros H; [constructor|]. simpl.
  assert (IH' := IH (fun b Hb => H b (or_intror Hb))).
  destruct (p a) eqn:Ep; simpl.
  - rewrite (H a (or_introl eq_refl) Ep). now constructor.
  - destruct (q a); [|exact IH'].
    now apply Permutation_cons_app.
Qed.

Lemma grupos_particao {A : Type} (chave : A -> string) (l : list A)
  (ks : list string) :
  NoDup ks ->
  Permutation (List.concat (map (fun k => grupo chave k l) ks))
    (filter (fun a => existsb (String.eqb (chave a)) ks) l).
Proof.
  induction ks as [|k ks IH]; intros Hnd; simpl.
  - induction l as [|a l IHl]; [constructor|exact IHl].
  - inversion_clear Hnd as [|? ? Hk Hks].
    rewrite (filter_or_disjoint (fun a => (chave a =? k)%string)
               (fun a => existsb (String.eqb (chave a)) ks)).
    + apply Permutation_app_head, IH, Hks.
    + intros a _ E. apply String.eqb_eq in E. subst.
      destruct (existsb _ ks) eqn:E'; [|reflexivity].
      apply existsb_eqb_In in E'. contradiction.
Qed.

Lemma grupos_distintos_particao {A : Type} (chave : A -> string)
  (l : list A) :
  Permutation
    (List.concat (map (fun k => grupo chave k l) (distintos (map chave l)))) l.
Proof.
  rewrite grupos_particao by apply distintos_NoDup.
  rewrite forallb_filter_id; [reflexivity|].
  apply forallb_forall. intros a Ha.
  apply existsb_eqb_In, distintos_In, in_map, Ha.
Qed.

End Dicionarios.

(** ** Sorting, [max] and slices *)

Section Ordenacao.

Import Py.

Lemma insert_asc_perm {A : Type} (lt : A -> A -> bool) (x : A) (l : list A) :
  Permutation (insert_asc lt x l) (x :: l).
Proof.
  induction l as [|y l IH]; simpl; [reflexivity|].
  destruct (lt y x); [|reflexivity].
  rewrite IH. apply perm_swap.
Qed.

Lemma sorted_perm {A : Type} (lt : A -> A -> bool) (l : list A) :
  Permutation (sorted lt l) l.
Proof.
  induction l as [|x l IH]; simpl; [constructor|].
  fold (sorted lt l). rewrite insert_asc_perm. now constructor.
Qed.

Lemma sorted_reverse_perm {A K : Type} (lt : K -> K -> bool) (key : A -> K)
  (l : list A) :
  Permutation (sorted_reverse lt key l) l.
Proof.
  unfold sorted_reverse.
  now rewrite <- Permutation_rev, sorted_perm, <- Permutation_rev.
Qed.

(** On entries with different keys the order of tuples is the order of
    the keys. *)
Lemma item_lt_keys (a b : string * float) :
  fst a <> fst b -> item_lt a b = (fst a <? fst b)%string.
Proof.
  intros H. unfold item_lt. apply String.eqb_neq in H. now rewrite H.
Qed.

Lemma string_ltb_of_not_ltb (x y : string) :
  x <> y -> (x <? y)%string = false -> (y <? x)%string = true.
Proof.
  unfold String.ltb. rewrite (String.compare_antisym y x).
  destruct (String.compare x y) eqn:E; try easy.
  intros H. apply String.compare_eq_iff in E. contradiction.
Qed.

Lemma string_ltb_trans (x y z : string) :
  (x <? y)%string = true -> (y <? z)%string = true -> (x <? z)%string = true.
Proof.
  unfold String.ltb.
  destruct (String.compare x y) eqn:Exy; try discriminate.
  destruct (String.compare y z) eqn:Eyz; try discriminate.
  now rewrite (string_compare_lt_trans x y z).
Qed.

Lemma insert_asc_chaves (x : string * float) (l : list (string * float)) :
  ~ In (fst x) (map fst l) -> chaves_crescentes l ->
  chaves_crescentes (insert_asc item_lt x l).
Proof.
  unfold chaves_crescentes.
  induction l as [|y l IH]; intros Hx Hl; simpl.
  - repeat constructor.
  - apply StronglySorted_inv in Hl as [Hl Hy].
    assert (Hne : fst y <> fst x) by (intros E; apply Hx; now left).
    rewrite (item_lt_keys y x Hne).
    destruct (fst y <? fst x)%string eqn:E.
    + constructor.
      * apply IH; [|exact Hl]. intros H. apply Hx. now right.
      * eapply Permutation_Forall;
          [symmetry; apply insert_asc_perm|]. now constructor.
    + apply string_ltb_of_not_ltb in E; [|exact Hne].
      constructor; [now constructor|].
      constructor; [exact E|].
      eapply Forall_impl; [|exact Hy]. intros z Hz.
      now apply (string_ltb_trans _ (fst y)).
Qed.

Lemma sorted_chaves (l : list (string * float)) :
  NoDup (map fst l) -> chaves_crescentes (sorted item_lt l).
Proof.
  induction l as [|x l IH]; intros Hnd; simpl; [constructor|].
  inversion_clear Hnd as [|? ? Hx Hl]. fold (sorted item_lt l).
  apply insert_asc_chaves; [|now apply IH].
  intros H. apply Hx.
  eapply Permutation_in; [|exact H].
  apply Permutation_map, sorted_perm.
Qed.

(** The loop of [max]: the result splits the list so that no earlier item
    has a key equal to its own, and no item at all has a greater key. *)
Lemma max_by_loop {A : Type} (key : A -> float) (xs pre : list A) (cur : A)
  (post : list A) :
  (forall y, In y pre -> (key y =? key cur)%float = false) ->
  (forall y, In y (pre ++ cur :: post) -> (key cur <? key y)%float = false) ->
  let m := fold_left (fun m y => if (key m <? key y)%float then y else m)
             xs cur in
  exists l1 l2,
    pre ++ cur :: post ++ xs = l1 ++ m :: l2
    /\ (forall y, In y l1 -> (key y =? key m)%float = false)
    /\ (forall y, In y (l1 ++ m :: l2) -> (key m <? key y)%float = false).
Proof.
  revert pre cur post. induction xs as [|x xs IH]; intros pre cur post H1 H2.
  - simpl. exists pre, post. rewrite app_nil_r. auto.
  - simpl. destruct (key cur <? key x)%float eqn:E.
    + destruct (IH (pre ++ cur :: post) x []) as (l1 & l2 & Heq & H3 & H4).
      * intros y Hy. destruct (key y =? key x)%float eqn:E'; [|reflexivity].
        pose proof (H2 y Hy) as Hc.
        now rewrite (float_ltb_eqb_r _ _ _ E' E) in Hc.
      * intros y Hy.
        apply in_app_or in Hy as [Hy|[<-|[]]];
          [|apply float_ltb_irrefl].
        destruct (key x <? key y)%float eqn:E'; [|reflexivity].
        pose proof (H2 y Hy) as Hc.
        now rewrite (float_ltb_trans _ _ _ E E') in Hc.
      * exists l1, l2. repeat split; trivial.
        rewrite <- Heq, <- !app_assoc. reflexivity.
    + destruct (IH pre cur (post ++ [x])) as (l1 & l2 & Heq & H3 & H4).
      * exact H1.
      * intros y Hy. rewrite app_comm_cons, app_assoc in Hy.
        apply in_app_or in Hy as [Hy|[<-|[]]]; [now apply H2|exact E].
      * exists l1, l2. repeat split; trivial.
        rewrite <- Heq, <- !app_assoc. reflexivity.
Qed.

Lemma max_by_spec {A : Type} (key : A -> float) (x : A) (xs : list A) :
  exists l1 l2,
    x :: xs = l1 ++ max_by key x xs :: l2
    /\ (forall y, In y l1 -> (key y =? key (max_by key x xs))%float = false)
    /\ (forall y, In y (x :: xs) ->
          (key (max_by key x xs) <? key y)%float = false).
Proof.
  destruct (max_by_loop key xs [] x []) as (l1 & l2 & Heq & H1 & H2).
  - intros y [].
  - intros y [<-|[]]. apply float_ltb_irrefl.
  - exists l1, l2. simpl in Heq. rewrite Heq. auto.
Qed.

(** The sort on float keys is stable and leaves no item before one with
    a smaller key. *)
Lemma insert_asc_estavel {A : Type} (key : A -> float) (k : float) (x : A)
  (l : list A) :
  filter (fun a => (key a =? k)%float)
    (insert_asc (fun a b => (key a <? key b)%float) x l)
  = filter (fun a => (key a =? k)%float) (x :: l).
Proof.
  induction l as [|y l IH]; [reflexivity|]. cbn [insert_asc].
  destruct (key y <? key x)%float eqn:E; [|reflexivity].
  cbn [filter] in *. rewrite IH.
  destruct (key y =? k)%float eqn:Ey, (key x =? k)%float eqn:Ex; trivial.
  now rewrite (float_ltb_of_eqb _ _ _ Ey Ex) in E.
Qed.

Lemma sorted_estavel {A : Type} (key : A -> float) (k : float) (l : list A) :
  filter (fun a => (key a =? k)%float)
    (sorted (fun a b => (key a <? key b)%float) l)
  = filter (fun a => (key a =? k)%float) l.
Proof.
  induction l as [|x l IH]; [reflexivity|].
  cbn [sorted fold_right]. fold (sorted (fun a b => (key a <? key b)%float) l).
  rewrite insert_asc_estavel. cbn [filter]. now rewrite IH.
Qed.

Lemma sorted_reverse_estavel {A : Type} (key : A -> float) (l : list A) :
  mesma_ordem key l (sorted_reverse PrimFloat.ltb key l).
Proof.
  intros k. unfold sorted_reverse.
  now rewrite filter_rev, sorted_estavel, filter_rev, rev_involutive.
Qed.

Lemma insert_asc_crescente {A : Type} (key : A -> float) (x : A)
  (l : list A) :
  Sorted (fun a b => (key b <? key a)%float = false) l ->
  Sorted (fun a b => (key b <? key a)%float = false)
    (insert_asc (fun a b => (key a <? key b)%float) x l).
Proof.
  induction l as [|y l IH]; intros H; cbn [insert_asc].
  - repeat constructor.
  - destruct (key y <? key x)%float eqn:E.
    + inversion_clear H as [|? ? Hl Hy]. constructor; [now apply IH|].
      destruct l as [|z l]; cbn [insert_asc].
      * constructor. now apply float_ltb_asym.
      * inversion_clear Hy.
        destruct (key z <? key x)%float; constructor; trivial.
        now apply float_ltb_asym.
    + constructor; [exact H|]. now constructor.
Qed.

Lemma sorted_crescente {A : Type} (key : A -> float) (l : list A) :
  Sorted (fun a b => (key b <? key a)%float = false)
    (sorted (fun a b => (key a <? key b)%float) l).
Proof.
  induction l as [|x l IH]; [constructor|].
  cbn [sorted fold_right]. now apply insert_asc_crescente.
Qed.

Lemma Sorted_snoc {A : Type} (R : A -> A -> Prop) (l : list A) (b a : A) :
  Sorted R (l ++ [b]) -> R b a -> Sorted R ((l ++ [b]) ++ [a]).
Proof.
  induction l as [|c l IH]; intros H Hba; simpl in *.
  - repeat constructor. exact Hba.
  - inversion_clear H as [|? ? Hl Hc]. constructor; [now apply IH|].
    destruct l; simpl in *; inversion_clear Hc; now constructor.
Qed.

Lemma Sorted_rev {A : Type} (R : A -> A -> Prop) (l : list A) :
  Sorted R l -> Sorted (fun a b => R b a) (rev l).
Proof.
  induction l as [|a l IH]; intros H; [constructor|].
  inversion_clear H as [|? ? Hl Ha]. specialize (IH Hl).
  destruct l as [|b l]; [repeat constructor|].
  simpl in *. apply Sorted_snoc; [exact IH|]. now inversion_clear Ha.
Qed.

Lemma sorted_reverse_decrescente {A : Type} (key : A -> float) (l : list A) :
  decrescente key (sorted_reverse PrimFloat.ltb key l).
Proof.
  unfold decrescente, sorted_reverse.
  apply (Sorted_rev (fun a b => (key b <? key a)%float = false)).
  apply sorted_crescente.
Qed.

Lemma take_map {A B : Type} (f : A -> B) (n : Z) (l : list A) :
  take n (map f l) = map f (take n l).
Proof.
  unfold take. rewrite length_map. destruct (n <? 0); apply firstn_map.
Qed.

(** A slice of a longer slice from the start. *)
Lemma take_take {A : Type} (n m : Z) (l : list A) :
  0 <= n <= m -> take n (take m l) = take n l.
Proof.
  intros H. unfold take.
  destruct (n <? 0) eqn:En; [lia|]. destruct (m <? 0) eqn:Em; [lia|].
  rewrite firstn_firstn. f_equal. lia.
Qed.

End Ordenacao.

(** ** The month map and the best month *)

Section MelhorMes.

Import Py.

Context {D : Type} (mes : D -> string).

Lemma acumular_por_mes_chaves (vs : list (venda D)) :
  map fst (acumular_por_mes mes vs)
  = distintos (map (fun v => mes (data v)) vs).
Proof.
  apply (dict_fold_keys (fun v : venda D => mes (data v)) 0%float
           (fun v total => (total + valor_total v)%float)).
Qed.

(** The month map is in ascending order of its keys. *)
Lemma calcular_vendas_por_mes_crescente (vs : list (venda D)) :
  chaves_crescentes (calcular_vendas_por_mes mes vs).
Proof.
  apply sorted_chaves. rewrite acumular_por_mes_chaves.
  apply distintos_NoDup.
Qed.

(** It is empty exactly when the ledger is. *)
Lemma calcular_vendas_por_mes_nil (vs : list (venda D)) :
  calcular_vendas_por_mes mes vs = [] <-> vs = [].
Proof.
  split; [|now intros ->].
  intros H. destruct vs as [|v vs]; [reflexivity|].
  assert (Hin : In (mes (data v)) (map fst (calcular_vendas_por_mes mes (v :: vs)))).
  { eapply Permutation_in;
      [symmetry; apply Permutation_map, sorted_perm|].
    rewrite acumular_por_mes_chaves. apply distintos_In. now left. }
  rewrite H in Hin. destruct Hin.
Qed.

Lemma StronglySorted_after {A : Type} (R : A -> A -> Prop) (l1 l2 : list A)
  (x : A) :
  StronglySorted R (l1 ++ x :: l2) -> Forall (R x) l2.
Proof.
  induction l1 as [|a l1 IH]; simpl; intros H;
    apply StronglySorted_inv in H as [H1 H2]; auto.
Qed.

Lemma melhor_mes_maior (vs : list (venda D)) :
  maior_mes (calcular_vendas_por_mes mes vs) (melhor_mes mes vs).
Proof.
  pose proof (calcular_vendas_por_mes_crescente vs) as Hs.
  unfold melhor_mes, maior_mes.
  destruct (calcular_vendas_por_mes mes vs) as [|item items]; [reflexivity|].
  destruct (max_by_spec snd item items) as (l1 & l2 & Heq & H1 & H2).
  rewrite Heq in H2, Hs |- *. clear Heq.
  destruct (max_by snd item items) as [m total]. cbn [snd] in H1, H2.
  exists m, total. repeat split.
  - apply in_elt.
  - intros m' t' Hin. apply (H2 (m', t') Hin).
  - intros m' t' Hin Hn Hn'.
    apply float_leb_of_not_ltb; trivial. apply (H2 (m', t') Hin).
  - intros m' t' Hin Heqb.
    apply in_app_or in Hin as [Hin|[Hin|Hin]].
    + pose proof (H1 (m', t') Hin) as Hc. simpl in Hc. congruence.
    + inversion Hin. apply string_leb_refl.
    + apply StronglySorted_after in Hs.
      rewrite Forall_forall in Hs.
      apply string_leb_of_ltb, (Hs (m', t') Hin).
Qed.

End MelhorMes.


(** ** Rankings *)

Section Rankings.

Import Py.

Context {D : Type}.

Lemma ranking_vendedores_take (vs : list (venda D)) (limite mais : Z) :
  0 <= limite -> 0 <= mais ->
  ranking_vendedores vs limite
  = take limite (ranking_vendedores vs (limite + mais)).
Proof.
  intros H1 H2. unfold ranking_vendedores.
  rewrite take_map, take_take by lia. reflexivity.
Qed.

(** The ranking holds every seller once: its full length is the number of
    distinct sellers. *)
Lemma calcular_vendas_por_vendedor_chaves (vs : list (venda D)) :
  map fst (calcular_vendas_por_vendedor vs) = distintos (map vendedor vs).
Proof.
  unfold calcular_vendas_por_vendedor. rewrite map_map.
  rewrite <- (dict_fold_keys (@vendedor D) (0%float, 0)
                (fun v '(total, qtd) =>
                   ((total + valor_total v)%float, qtd + 1)) vs).
  apply map_ext. now intros [k [t q]].
Qed.

End Rankings.

(** C8. With more distinct sellers than [limite], the ranking cut at
    [limite] is the first [limite] items of the ranking cut at
    [limite + 10].  Both are cut from one list, the seller aggregates as
    sorted, so this holds whatever order the sort gives them, also when a
    total is NaN.  When no total is NaN that list has no item before one
    of greater total, and sellers of equal total are in the order of the
    aggregates. *)
Theorem ranking_prefixo_estavel {D : Type} (vs : list (venda D)) (limite : nat) :
  (limite < List.length (distintos (map vendedor vs)))%nat ->
  ranking_vendedores vs (Z.of_nat limite)
  = firstn limite (ranking_vendedores vs (Z.of_nat limite + 10))
  /\ (forall ordena,
        ranking_vendedores_com ordena vs (Z.of_nat limite)
        = firstn limite
            (ranking_vendedores_com ordena vs (Z.of_nat limite + 10)))
  /\ (totais_sem_nan vs ->
      (forall n : Z,
         ranking_vendedores vs n
         = map (fun item => (fst item, StatsVendedor.total_vendas (snd item)))
             (Py.take n (ranking_completo vs)))
      /\ Permutation (ranking_completo vs) (calcular_vendas_por_vendedor vs)
      /\ decrescente (fun item => StatsVendedor.total_vendas (snd item))
           (ranking_completo vs)
      /\ mesma_ordem (fun item => StatsVendedor.total_vendas (snd item))
           (calcular_vendas_por_vendedor vs) (ranking_completo vs)).
Proof.
  intros _.
  assert (G : forall ordena,
             ranking_vendedores_com ordena vs (Z.of_nat limite)
             = firstn limite
                 (ranking_vendedores_com ordena vs (Z.of_nat limite + 10))).
  { intros ordena. unfold ranking_vendedores_com.
    rewrite <- !take_map.
    set (l := map _ (ordena (calcular_vendas_por_vendedor vs))).
    rewrite <- (take_take (Z.of_nat limite) (Z.of_nat limite + 10) l) by lia.
    unfold Py.take at 1.
    destruct (Z.ltb_spec (Z.of_nat limite) 0) as [E|E]; [lia|].
    now rewrite Nat2Z.id. }
  split; [exact (G _)|]. split; [exact G|].
  intros _. repeat split.
  - intros n. unfold ranking_vendedores, ranking_completo.
    apply map_ext. now intros [k dados].
  - apply sorted_reverse_perm.
  - apply sorted_reverse_decrescente.
  - apply sorted_reverse_estavel.
Qed.

Lemma ranking_prefixo_estavel_witness :
  let vs := vendas (RelatorioFinalEdu.executar inicial exemplo) in
  (2 < List.length (distintos (map vendedor vs)))%nat
  /\ ranking_vendedores vs 2
     = [("Maria Silva"%string, 7750%float);
        ("Carlos Andrade"%string, 1599.5%float)]
  /\ ranking_vendedores vs 2 = firstn 2 (ranking_vendedores vs (2 + 10)).
Proof.
  cbv zeta. split; [apply Nat.ltb_lt; vm_compute; reflexivity|].
  split; [vm_compute; reflexivity|].
  refine (proj1 (ranking_prefixo_estavel
                   (vendas (RelatorioFinalEdu.executar inicial exemplo)) 2 _)).
  apply Nat.ltb_lt. vm_compute. reflexivity.
Defined.

(** ** The report of one seller *)

Section RelatorioDoVendedor.

Import Py.

Lemma prefix_spec (p s : string) :
  String.prefix p s = true <-> exists depois, s = (p ++ depois)%string.
Proof.
  revert s. induction p as [|a p IH]; intros s; simpl.
  - destruct s; split; eauto.
  - destruct s as [|b s]; simpl.
    + split; [discriminate|]. intros (d & H). discriminate H.
    + destruct (ascii_dec a b) as [->|Hne].
      * rewrite IH. split; intros (d & H); exists d.
        -- now rewrite H.
        -- now inversion H.
      * split; [discriminate|]. intros (d & H). inversion H. congruence.
Qed.

Lemma str_in_spec (sub s : string) : str_in sub s = true <-> contem sub s.
Proof.
  unfold contem. induction s as [|a s IH].
  - cbn [str_in]. rewrite orb_false_r, prefix_spec. split.
    + intros (d & H). now exists EmptyString, d.
    + intros ([|b pre] & d & H); [now exists d|discriminate H].
  - cbn [str_in]. rewrite orb_true_iff, IH, prefix_spec. split.
    + intros [(d & H)|(pre & d & H)].
      * now exists EmptyString, d.
      * exists (String a pre), d. simpl. now rewrite H.
    + intros ([|b pre] & d & H).
      * left. now exists d.
      * right. inversion H. now exists pre, d.
Qed.

Context {D : Type}.

Lemma corresponde_spec (consulta : string) (v : venda D) :
  corresponde consulta v = true <-> vendedor_contem consulta v.
Proof. apply str_in_spec. Qed.

(** The empty query is found in every seller. *)
Lemma corresponde_vazio (v : venda D) : corresponde "" v = true.
Proof.
  unfold corresponde. simpl. now destruct (lower (vendedor v)).
Qed.

Lemma filter_first {A : Type} (p : A -> bool) (l : list A) (x : A)
  (rest : list A) :
  filter p l = x :: rest ->
  exists antes depois,
    l = antes ++ x :: depois /\ (forall a, In a antes -> p a = false).
Proof.
  induction l as [|a l IH]; simpl; [discriminate|].
  destruct (p a) eqn:E.
  - intros H. inversion H. subst. exists [], l. split; [reflexivity|easy].
  - intros H. destruct (IH H) as (antes & depois & -> & Hantes).
    exists (a :: antes), depois. split; [reflexivity|].
    intros b [<-|Hb]; auto.
Qed.

Lemma gerar_relatorio_vendedor_cases (vs : list (venda D)) (consulta : string) :
  match filter (corresponde consulta) vs with
  | [] => gerar_relatorio_vendedor vs consulta = None
  | primeira :: resto =>
      exists r,
        gerar_relatorio_vendedor vs consulta = Some r
        /\ RelatorioVendedor.nome r = vendedor primeira
        /\ RelatorioVendedor.lista_vendas r = primeira :: resto
        /\ RelatorioVendedor.total_vendas r
           = sum (map valor_total (primeira :: resto))
        /\ RelatorioVendedor.quantidade_transacoes r
           = Z.of_nat (List.length (primeira :: resto))
  end.
Proof.
  unfold gerar_relatorio_vendedor.
  destruct (filter (corresponde consulta) vs); [reflexivity|].
  eexists. split; [reflexivity|]. simpl. auto.
Qed.

End RelatorioDoVendedor.

(** C9. [gerar_relatorio_vendedor] keeps exactly the sales whose seller
    contains the query as a substring, letter case apart, in the order of
    the ledger; it returns [None] exactly when no sale matches; otherwise
    the name it reports is the seller of the first matching sale, as it
    is stored.  On the example data the query "ana" finds the seller
    "Ana Pereira" and reports that name.  Both variants. *)
Theorem relatorio_vendedor_por_trecho {D : Type} (vs : list (venda D))
  (consulta : string) :
  (gerar_relatorio_vendedor vs consulta = None
   <-> forall v, In v vs -> ~ vendedor_contem consulta v)
  /\ (forall r,
        gerar_relatorio_vendedor vs consulta = Some r ->
        RelatorioVendedor.lista_vendas r = filter (corresponde consulta) vs
        /\ (forall v, In v (RelatorioVendedor.lista_vendas r)
                      <-> In v vs /\ vendedor_contem consulta v)
        /\ exists antes primeira depois,
            vs = antes ++ primeira :: depois
            /\ (forall v, In v antes -> ~ vendedor_contem consulta v)
            /\ vendedor_contem consulta primeira
            /\ RelatorioVendedor.nome r = vendedor primeira)
  /\ option_map RelatorioVendedor.nome
       (gerar_relatorio_vendedor
          (vendas (AnaliseVendasEdu.executar inicial exemplo)) "ana")
     = Some "Ana Pereira"%string
  /\ option_map RelatorioVendedor.nome
       (gerar_relatorio_vendedor
          (vendas (RelatorioFinalEdu.executar inicial exemplo)) "ana")
     = Some "Ana Pereira"%string.
Proof.
  pose proof (gerar_relatorio_vendedor_cases vs consulta) as Hc.
  split; [|split; [|split; vm_compute; reflexivity]].
  - destruct (filter (corresponde consulta) vs) as [|p resto] eqn:Ef.
    + split; [|intros _; exact Hc].
      intros _ v Hv Hm. apply corresponde_spec in Hm.
      assert (Hin : In v (filter (corresponde consulta) vs))
        by (apply filter_In; auto).
      rewrite Ef in Hin. destruct Hin.
    + destruct Hc as (r & Hr & _). split; [congruence|].
      intros Hnone. exfalso.
      assert (Hin : In p (filter (corresponde consulta) vs))
        by (rewrite Ef; now left).
      apply filter_In in Hin as [Hin Hm].
      apply (Hnone p Hin), corresponde_spec, Hm.
  - intros r Hr.
    destruct (filter (corresponde consulta) vs) as [|p resto] eqn:Ef;
      [congruence|].
    destruct Hc as (r' & Hr' & Hnome & Hlista & _).
    assert (r' = r) by congruence. subst r'.
    split; [exact Hlista|]. split.
    + intros v. rewrite Hlista, <- Ef, filter_In, corresponde_spec.
      reflexivity.
    + destruct (filter_first _ _ _ _ Ef) as (antes & depois & Hvs & Hantes).
      exists antes, p, depois. repeat split; trivial.
      * intros v Hv Hm. apply corresponde_spec in Hm.
        rewrite (Hantes v Hv) in Hm. discriminate.
      * apply corresponde_spec.
        assert (Hin : In p (filter (corresponde consulta) vs))
          by (rewrite Ef; now left).
        now apply filter_In in Hin.
Qed.

(** C10. On a ledger that is not empty the empty query never gives
    [None]: every seller contains the empty text, so the report lists the
    whole ledger, its total is [calcular_total_vendas()], its count is the
    size of the ledger, and its name is the seller of the first sale of the
    ledger.  Both variants. *)
Theorem relatorio_consulta_vazia {D : Type} (v : venda D) (vs : list (venda D)) :
  exists r,
    gerar_relatorio_vendedor (v :: vs) "" = Some r
    /\ RelatorioVendedor.lista_vendas r = v :: vs
    /\ RelatorioVendedor.total_vendas r = calcular_total_vendas (v :: vs)
    /\ RelatorioVendedor.quantidade_transacoes r
       = Z.of_nat (List.length (v :: vs))
    /\ RelatorioVendedor.nome r = vendedor v.
Proof.
  pose proof (gerar_relatorio_vendedor_cases (v :: vs) "") as Hc.
  rewrite forallb_filter_id in Hc
    by (apply forallb_forall; intros; apply corresponde_vazio).
  destruct Hc as (r & Hr & Hnome & Hlista & Htotal & Hqtd).
  exists r. repeat split; trivial.
Qed.

(** ** Totals by seller, by product and overall *)

Section Conservacao.

Import Py.

Context {D : Type}.

Lemma acumular_total {A : Type} (valor : A -> float) (conta : A -> Z -> Z)
  (g : list A) (total : float) (qtd : Z) :
  fst (fold_left
         (fun acc a =>
            (let '(total, qtd) := acc in
             ((total + valor a)%float, conta a qtd)))
         g (total, qtd))
  = fold_left PrimFloat.add (map valor g) total.
Proof.
  revert total qtd. induction g as [|a g IH]; intros total qtd; simpl;
    [reflexivity|apply IH].
Qed.

(** The total of a seller is the sum, from 0.0 and in the order of the
    ledger, of the totals of the sales of that seller. *)
Lemma total_por_vendedor (vs : list (venda D)) :
  map (fun e => (fst e, StatsVendedor.total_vendas (snd e)))
      (calcular_vendas_por_vendedor vs)
  = map (fun k => (k, acumulado (map valor_total (grupo vendedor k vs))))
      (distintos (map vendedor vs)).
Proof.
  unfold calcular_vendas_por_vendedor, acumular_por_vendedor.
  rewrite (dict_fold_spec (@vendedor D) (0%float, 0)
             (fun v '(total, qtd) =>
                ((total + valor_total v)%float, qtd + 1)) vs).
  rewrite !map_map. apply map_ext. intros k. cbn [fst snd]. unfold acumulado.
  rewrite <- (acumular_total valor_total (fun _ q => q + 1) _ 0%float 0).
  now destruct (fold_left _ _ _).
Qed.

Lemma receita_por_produto (vs : list (venda D)) :
  map (fun e => (fst e, StatsProduto.receita (snd e)))
      (calcular_vendas_por_produto vs)
  = map (fun k => (k, acumulado (map valor_total (grupo produto k vs))))
      (distintos (map produto vs)).
Proof.
  unfold calcular_vendas_por_produto, acumular_por_produto.
  rewrite (dict_fold_spec (@produto D) (0%float, 0)
             (fun v '(total, qtd) =>
                ((total + valor_total v)%float, qtd + quantidade v)) vs).
  rewrite !map_map. apply map_ext. intros k. cbn [fst snd]. unfold acumulado.
  rewrite <- (acumular_total valor_total (fun v q => q + quantidade v)
                _ 0%float 0).
  now destruct (fold_left _ _ _).
Qed.

Lemma calcular_total_vendas_sum (vs : list (venda D)) :
  calcular_total_vendas vs = sum (map valor_total vs).
Proof. now destruct vs. Qed.

Lemma soma_exata_app (valor : float -> Z) (l1 l2 : list (venda D)) :
  soma_exata valor (l1 ++ l2) = soma_exata valor l1 + soma_exata valor l2.
Proof.
  unfold soma_exata. induction l1 as [|v l1 IH]; simpl; [reflexivity|].
  rewrite IH. lia.
Qed.

Lemma soma_exata_perm (valor : float -> Z) (l1 l2 : list (venda D)) :
  Permutation l1 l2 -> soma_exata valor l1 = soma_exata valor l2.
Proof.
  unfold soma_exata. induction 1; simpl; lia.
Qed.

Lemma soma_exata_concat (valor : float -> Z) (gs : list (list (venda D))) :
  soma_exata valor (List.concat gs)
  = fold_right Z.add 0 (map (soma_exata valor) gs).
Proof.
  induction gs as [|g gs IH]; simpl; [reflexivity|].
  now rewrite soma_exata_app, IH.
Qed.

(** Under an exact reading of the amounts the sum of the sums of the
    groups is the sum over the ledger. *)
Lemma soma_exata_grupos (valor : float -> Z) (chave : venda D -> string)
  (vs : list (venda D)) :
  fold_right Z.add 0
    (map (fun k => soma_exata valor (grupo chave k vs))
       (distintos (map chave vs)))
  = soma_exata valor vs.
Proof.
  rewrite <- (soma_exata_perm valor _ _ (grupos_distintos_particao chave vs)).
  now rewrite soma_exata_concat, map_map.
Qed.

End Conservacao.

(** C4, as the code has it.  The total of each seller and the revenue of
    each product are what the loop [total += valor_total] leaves, from 0.0
    and in the order of the ledger, over the sales of that seller or product;
    [calcular_total_vendas()] is that sum over the whole ledger; the sales
    of the sellers, and those of the products, are the sales of the ledger,
    each once.  So the three grand totals add the same stored totals in
    three groupings, and under any exact reading of the amounts they are
    the same number. *)
Theorem conservacao_por_grupos {D : Type} (vs : list (venda D)) :
  map (fun e => (fst e, StatsVendedor.total_vendas (snd e)))
      (calcular_vendas_por_vendedor vs)
  = map (fun k => (k, acumulado (map valor_total (grupo vendedor k vs))))
      (distintos (map vendedor vs))
  /\ map (fun e => (fst e, StatsProduto.receita (snd e)))
       (calcular_vendas_por_produto vs)
     = map (fun k => (k, acumulado (map valor_total (grupo produto k vs))))
         (distintos (map produto vs))
  /\ calcular_total_vendas vs = Py.sum (map valor_total vs)
  /\ Permutation
       (List.concat
          (map (fun k => grupo vendedor k vs) (distintos (map vendedor vs))))
       vs
  /\ Permutation
       (List.concat
          (map (fun k => grupo produto k vs) (distintos (map produto vs))))
       vs
  /\ (forall valor : float -> Z,
        fold_right Z.add 0
          (map (fun k => soma_exata valor (grupo vendedor k vs))
             (distintos (map vendedor vs)))
        = soma_exata valor vs
        /\ fold_right Z.add 0
             (map (fun k => soma_exata valor (grupo produto k vs))
                (distintos (map produto vs)))
           = soma_exata valor vs).
Proof.
  repeat split.
  - apply total_por_vendedor.
  - apply receita_por_produto.
  - apply calcular_total_vendas_sum.
  - apply grupos_distintos_particao.
  - apply grupos_distintos_particao.
  - apply soma_exata_grupos.
  - apply soma_exata_grupos.
Qed.

(** C4 as it is written fails: three sales of 0.1, 0.2 and 0.3 by one
    seller, the first of one product and the other two of another.  The
    seller's total is (0.1 + 0.2) + 0.3, the revenues of the products add up
    to 0.1 + (0.2 + 0.3), and the two floats differ. *)
Lemma conservacao_contraexemplo :
  let cs := [ Chamada "Caneta" "Ana" 1 0.1 "2024-01-15";
              Chamada "Lapis" "Ana" 1 0.2 "2024-01-16";
              Chamada "Lapis" "Ana" 1 0.3 "2024-01-17" ] in
  let por_vendedor {D} (vs : list (venda D)) :=
    Py.sum (map (fun e => StatsVendedor.total_vendas (snd e))
              (calcular_vendas_por_vendedor vs)) in
  let por_produto {D} (vs : list (venda D)) :=
    Py.sum (map (fun e => StatsProduto.receita (snd e))
              (calcular_vendas_por_produto vs)) in
  let va := vendas (AnaliseVendasEdu.executar inicial cs) in
  let vr := vendas (RelatorioFinalEdu.executar inicial cs) in
  (List.length va = 3%nat
   /\ por_vendedor va = 0.6000000000000001%float
   /\ por_produto va = 0.6%float
   /\ (por_vendedor va =? por_produto va)%float = false)
  /\
  (List.length vr = 3%nat
   /\ por_vendedor vr = 0.6000000000000001%float
   /\ por_produto vr = 0.6%float
   /\ (por_vendedor vr =? por_produto vr)%float = false).
Proof. vm_compute. repeat split. Qed.

(** ** What [registrar_venda] stores *)

Section Registro.

Import Py.

(** In the second variant the stored total is [round(q * v, 2)], the
    texts are stripped, the date is the parsed one, and the record returned
    is the one appended. *)
Lemma relatorio_registro (self : RelatorioFinalEdu.estado) (c : chamada)
  (st' : RelatorioFinalEdu.estado) (v : venda RelatorioFinalEdu.data_venda) :
  RelatorioFinalEdu.chamar self c = (st', Returned (Some v)) ->
  RelatorioFinalEdu.valida c = true
  /\ st' = Sistema (vendas self ++ [v]) (contador_id self + 1)
  /\ id v = contador_id self
  /\ produto v = strip (arg_produto c)
  /\ vendedor v = strip (arg_vendedor c)
  /\ quantidade v = arg_quantidade c
  /\ valor_unitario v = arg_valor_unitario c
  /\ option_map round2
       (mul_int_float (arg_quantidade c) (arg_valor_unitario c))
     = Some (valor_total v)
  /\ strptime_Ymd (arg_data c) = Some (RelatorioFinalEdu.data_obj (data v)).
Proof.
  unfold RelatorioFinalEdu.chamar, RelatorioFinalEdu.registrar_venda,
    RelatorioFinalEdu.valida, RelatorioFinalEdu.data_aceita,
    textos_presentes, quantidade_positiva, valor_positivo.
  destruct (all3 _ _ _); [|discriminate].
  destruct (arg_quantidade c <=? 0); [discriminate|].
  destruct (arg_valor_unitario c <=? 0)%float; [discriminate|].
  destruct (strptime_Ymd _); [|discriminate].
  destruct (mul_int_float _ _); [|discriminate].
  intros H. inversion H. subst. simpl. repeat split.
Qed.

(** A call that passes the four tests inserts, unless the quantity is too
    large to be converted to a float. *)
Lemma relatorio_valida_insere (self : RelatorioFinalEdu.estado) (c : chamada) :
  RelatorioFinalEdu.valida c = true ->
  (exists v, snd (RelatorioFinalEdu.chamar self c) = Returned (Some v))
  \/ (float_of_int (arg_quantidade c) = None
      /\ RelatorioFinalEdu.chamar self c = (self, Raised OverflowError)).
Proof.
  unfold RelatorioFinalEdu.chamar, RelatorioFinalEdu.registrar_venda,
    RelatorioFinalEdu.valida, RelatorioFinalEdu.data_aceita,
    textos_presentes, quantidade_positiva, valor_positivo, mul_int_float.
  destruct (all3 _ _ _); [|discriminate].
  destruct (arg_quantidade c <=? 0); [discriminate|].
  destruct (arg_valor_unitario c <=? 0)%float; [discriminate|].
  destruct (strptime_Ymd _); [|discriminate].
  destruct (float_of_int _); intros _; [left; eexists; reflexivity|now right].
Qed.

(** The first variant stores the product [q * v] as it is, and the date
    as it was given. *)
Lemma analise_registro (st : AnaliseVendasEdu.estado) (c : chamada)
  (st' : AnaliseVendasEdu.estado) (v : venda string) :
  AnaliseVendasEdu.chamar st c = (st', Returned (Some v)) ->
  AnaliseVendasEdu.valida c = true
  /\ st' = Sistema (vendas st ++ [v]) (contador_id st + 1)
  /\ id v = contador_id st
  /\ produto v = strip (arg_produto c)
  /\ vendedor v = strip (arg_vendedor c)
  /\ quantidade v = arg_quantidade c
  /\ valor_unitario v = arg_valor_unitario c
  /\ mul_int_float (arg_quantidade c) (arg_valor_unitario c)
     = Some (valor_total v)
  /\ data v = arg_data c.
Proof.
  unfold AnaliseVendasEdu.chamar, AnaliseVendasEdu.registrar_venda,
    AnaliseVendasEdu.valida, AnaliseVendasEdu.data_aceita,
    textos_presentes, quantidade_positiva, valor_positivo.
  destruct (all3 _ _ _); [|discriminate].
  destruct (arg_quantidade c <=? 0); [discriminate|].
  destruct (arg_valor_unitario c <=? 0)%float; [discriminate|].
  destruct (AnaliseVendasEdu.formato_data _); [|discriminate].
  destruct (mul_int_float _ _); [|discriminate].
  intros H. inversion H. subst. simpl. repeat split.
Qed.

(** The dates [strptime] accepts are dates of the calendar. *)
Lemma strptime_Ymd_valid (s : string) (d : datetime) :
  strptime_Ymd s = Some d ->
  1 <= year d /\ 1 <= month d <= 12 /\ 1 <= day d <= days_in_month (year d) (month d).
Proof.
  unfold strptime_Ymd. destruct (match_Ymd s) as [[[[y m] dd] [|? ?]]|];
    try discriminate.
  unfold date_ok. destruct (_ && _) eqn:E; [|discriminate].
  intros H. inversion H. subst. simpl.
  repeat (apply andb_prop in E as [E ?]). lia.
Qed.

Lemma is_digit_cases (c : ascii) :
  is_digit c = true ->
  In c ["0"; "1"; "2"; "3"; "4"; "5"; "6"; "7"; "8"; "9"]%char.
Proof.
  destruct c as [[] [] [] [] [] [] [] []]; vm_compute; intros H;
    try discriminate H; tauto.
Qed.

Lemma days_in_month_le (y m : Z) : days_in_month y m <= 31.
Proof.
  unfold days_in_month.
  destruct (m =? 2); [destruct (is_leap y); lia|].
  destruct (_ || _); lia.
Qed.

Ltac digit_cases H :=
  apply is_digit_cases in H; simpl in H;
  repeat (destruct H as [<-|H]; [|]); [..|destruct H].

(** On a text of the shape YYYY-MM-DD [strptime] accepts exactly the dates
    of the calendar. *)
Lemma strptime_Ymd_texto_iso (y1 y2 y3 y4 m1 m2 d1 d2 : ascii) :
  is_digit y1 = true -> is_digit y2 = true ->
  is_digit y3 = true -> is_digit y4 = true ->
  is_digit m1 = true -> is_digit m2 = true ->
  is_digit d1 = true -> is_digit d2 = true ->
  strptime_Ymd (texto_iso y1 y2 y3 y4 m1 m2 d1 d2)
  = if date_ok (quatro_digitos y1 y2 y3 y4) (dois_digitos m1 m2)
         (dois_digitos d1 d2)
    then Some (Datetime (quatro_digitos y1 y2 y3 y4) (dois_digitos m1 m2)
                 (dois_digitos d1 d2))
    else None.
Proof.
  intros Hy1 Hy2 Hy3 Hy4 Hm1 Hm2 Hd1 Hd2.
  unfold strptime_Ymd, match_Ymd, texto_iso, match_Y.
  rewrite Hy1, Hy2, Hy3, Hy4. cbn [andb].
  fold (quatro_digitos y1 y2 y3 y4).
  generalize (quatro_digitos y1 y2 y3 y4). intros y.
  pose proof (days_in_month_le y) as Hdim.
  digit_cases Hm1; digit_cases Hm2;
    cbn -[date_ok match_d];
    try (unfold date_ok; cbn; rewrite ?andb_false_r; reflexivity);
    digit_cases Hd1; digit_cases Hd2; cbn -[date_ok days_in_month];
    try reflexivity;
    unfold date_ok; cbn -[days_in_month];
    rewrite ?andb_true_r, ?andb_false_r; cbn [andb]; try reflexivity;
    match goal with
    | |- context [?d <=? days_in_month y ?m] =>
        destruct (Z.leb_spec d (days_in_month y m)) as [H|H];
        [specialize (Hdim m); lia|now rewrite ?andb_false_r]
    end.
Qed.

(** The second variant refuses a text of the shape YYYY-MM-DD that is not
    a date of the calendar, whatever the other arguments, and keeps its
    state. *)
Lemma relatorio_rejeita_fora_do_calendario (self : RelatorioFinalEdu.estado)
  (produto vendedor : string) (quantidade : Z) (valor_unitario : float)
  (y1 y2 y3 y4 m1 m2 d1 d2 : ascii) :
  is_digit y1 = true -> is_digit y2 = true ->
  is_digit y3 = true -> is_digit y4 = true ->
  is_digit m1 = true -> is_digit m2 = true ->
  is_digit d1 = true -> is_digit d2 = true ->
  date_ok (quatro_digitos y1 y2 y3 y4) (dois_digitos m1 m2)
    (dois_digitos d1 d2) = false ->
  RelatorioFinalEdu.registrar_venda self produto vendedor quantidade
    valor_unitario (texto_iso y1 y2 y3 y4 m1 m2 d1 d2)
  = (self, Returned None).
Proof.
  intros Hy1 Hy2 Hy3 Hy4 Hm1 Hm2 Hd1 Hd2 Hbad.
  unfold RelatorioFinalEdu.registrar_venda.
  rewrite strptime_Ymd_texto_iso, Hbad by assumption.
  destruct (negb _); [reflexivity|].
  destruct (quantidade <=? 0); [reflexivity|].
  now destruct (valor_unitario <=? 0)%float.
Qed.

(** The first variant lets every text of that shape through its date
    test, a date of the calendar or not. *)
Lemma analise_formato_texto_iso (y1 y2 y3 y4 m1 m2 d1 d2 : ascii) :
  AnaliseVendasEdu.formato_data (texto_iso y1 y2 y3 y4 m1 m2 d1 d2) = true.
Proof. reflexivity. Qed.

(** A text that strips to nothing is made of spaces. *)
Lemma lstrip_empty (s : string) :
  lstrip s = EmptyString ->
  forallb isspace (list_ascii_of_string s) = true.
Proof.
  induction s as [|a s IH]; simpl; [reflexivity|].
  destruct (isspace a); [exact IH|discriminate].
Qed.

Lemma rstrip_empty (s : string) :
  rstrip s = EmptyString ->
  forallb isspace (list_ascii_of_string s) = true.
Proof.
  induction s as [|a s IH]; simpl; [reflexivity|].
  destruct (rstrip s); [|discriminate].
  destruct (isspace a); [intros _; now apply IH|discriminate].
Qed.

Lemma lstrip_suffix (s : string) :
  forallb isspace (list_ascii_of_string (lstrip s)) = true ->
  forallb isspace (list_ascii_of_string s) = true.
Proof.
  induction s as [|a s IH]; simpl; [reflexivity|].
  destruct (isspace a) eqn:E; [exact IH|].
  simpl. now rewrite E.
Qed.

Lemma strip_empty (s : string) :
  strip s = EmptyString ->
  forallb isspace (list_ascii_of_string s) = true.
Proof. intros H. now apply lstrip_suffix, rstrip_empty. Qed.

Lemma isspace_not_digit_hyphen (a : ascii) :
  isspace a = true -> is_digit a = false /\ Ascii.eqb a "-" = false.
Proof.
  destruct a as [[] [] [] [] [] [] [] []]; vm_compute; intros H;
    try discriminate H; split; reflexivity.
Qed.

Lemma get_forallb (p : ascii -> bool) (s : string) (i : nat) (a : ascii) :
  forallb p (list_ascii_of_string s) = true ->
  String.get i s = Some a -> p a = true.
Proof.
  revert i. induction s as [|b s IH]; intros i; simpl; [discriminate|].
  intros H. apply andb_prop in H as [Hb Hs].
  destruct i; [intros E; inversion E; now subst|apply IH, Hs].
Qed.

(** A date that is empty after stripping is refused by the date test of
    both variants, when it is not already refused as an empty text. *)
Lemma data_em_branco_recusada (c : chamada) :
  strip (arg_data c) = EmptyString ->
  AnaliseVendasEdu.data_aceita c = false
  /\ RelatorioFinalEdu.data_aceita c = false.
Proof.
  intros H. apply strip_empty in H. split.
  - unfold AnaliseVendasEdu.data_aceita, AnaliseVendasEdu.formato_data,
      char_at.
    destruct (String.get 4 (arg_data c)) as [a|] eqn:E;
      [|now rewrite andb_false_r].
    apply (get_forallb _ _ _ _ H), isspace_not_digit_hyphen in E as [_ E].
    rewrite E. destruct (String.get 7 _); now rewrite andb_false_r.
  - unfold RelatorioFinalEdu.data_aceita, strptime_Ymd, match_Ymd, match_Y.
    destruct (arg_data c) as [|a [|b [|x [|d rest]]]]; try reflexivity.
    simpl in H. apply andb_prop in H as [Ha _].
    apply isspace_not_digit_hyphen in Ha as [Ha _]. now rewrite Ha.
Qed.

(** The test of the texts refuses exactly the calls with an empty text;
    it does not look past spaces. *)
Lemma textos_presentes_false (c : chamada) :
  textos_presentes c = false
  <-> arg_produto c = ""%string \/ arg_vendedor c = ""%string
      \/ arg_data c = ""%string.
Proof.
  unfold textos_presentes, all3, truthy.
  destruct (arg_produto c), (arg_vendedor c), (arg_data c); simpl;
    intuition discriminate.
Qed.

End Registro.

(** C1 on the first variant: 3 units at 0.1 are stored with the total
    0.30000000000000004, the unrounded product, where [round(3 * 0.1, 2)]
    is 0.3; the second variant stores 0.3. *)
Theorem analise_total_sem_arredondar :
  let c := Chamada "Caneta" "Ana" 3 0.1 "2024-01-15" in
  Py.mul_int_float 3 0.1 = Some 0.30000000000000004%float
  /\ Py.round2 0.30000000000000004 = 0.3%float
  /\ (0.30000000000000004 =? 0.3)%float = false
  /\ snd (AnaliseVendasEdu.chamar inicial c)
     = Py.Returned
         (Some (Venda 1 "Caneta" "Ana" 3 0.1 0.30000000000000004 "2024-01-15"%string))
  /\ snd (RelatorioFinalEdu.chamar inicial c)
     = Py.Returned
         (Some (Venda 1 "Caneta" "Ana" 3 0.1 0.3
                  (RelatorioFinalEdu.DataVenda "2024-01-15"
                     (Py.Datetime 2024 1 15)))).
Proof. vm_compute. repeat split. Qed.

(** C2 on the first variant: the date "2024-13-01" has the length and the
    hyphens the test asks for, and the sale is inserted with id 1; the
    second variant, which parses the date, returns [None] and keeps its
    state. *)
Theorem analise_aceita_mes_13 :
  let c := Chamada "Notebook" "Ana" 1 10 "2024-13-01" in
  let v := Venda 1 "Notebook" "Ana" 1 10 10 "2024-13-01"%string in
  AnaliseVendasEdu.chamar inicial c = (Sistema [v] 2, Py.Returned (Some v))
  /\ Py.strptime_Ymd "2024-13-01" = None
  /\ RelatorioFinalEdu.chamar inicial c = (inicial, Py.Returned None).
Proof. vm_compute. repeat split. Qed.

(** C3 on both variants: a product of three spaces passes the test of the
    texts, which looks at them before they are stripped, and the sale is
    inserted with the empty text as its product. *)
Theorem produto_em_branco_inserido :
  let c := Chamada "   " "Ana" 1 10 "2024-01-15" in
  textos_presentes c = true
  /\ Py.strip "   " = ""%string
  /\ AnaliseVendasEdu.chamar inicial c
     = (Sistema [Venda 1 "" "Ana" 1 10 10 "2024-01-15"%string] 2,
        Py.Returned (Some (Venda 1 "" "Ana" 1 10 10 "2024-01-15"%string)))
  /\ option_map produto
       (hd_error (vendas (fst (RelatorioFinalEdu.chamar inicial c))))
     = Some ""%string
  /\ contador_id (fst (RelatorioFinalEdu.chamar inicial c)) = 2.
Proof. vm_compute. repeat split. Qed.

(** C6.  Inputs that fail a validation of the specification and are
    inserted all the same.  A product of three spaces is empty once
    trimmed, yet both variants store the sale and use the id 1 for it: the
    next sale gets the id 2.  The date "2024-13-01" is no date of the
    calendar; the first variant stores the sale and moves the counter,
    while the second, which parses the date, keeps its state.  A price
    that is NaN is no positive number: it is neither [<= 0] nor [> 0], and
    both variants store the sale. *)
Theorem entrada_invalida_inserida :
  let em_branco := Chamada "   " "Ana" 1 10 "2024-01-15" in
  let mes_13 := Chamada "Notebook" "Ana" 1 10 "2024-13-01" in
  let preco_nan := Chamada "Caneta" "Ana" 1 nan "2024-01-15" in
  let boa := Chamada "Mouse" "Ana" 1 50 "2024-01-20" in
  (Py.strip (arg_produto em_branco) = ""%string
   /\ contador_id (AnaliseVendasEdu.executar inicial [em_branco]) = 2
   /\ map id (vendas (AnaliseVendasEdu.executar inicial [em_branco; boa]))
      = [1; 2]
   /\ map produto
        (vendas (AnaliseVendasEdu.executar inicial [em_branco; boa]))
      = [""; "Mouse"]%string
   /\ contador_id (RelatorioFinalEdu.executar inicial [em_branco]) = 2
   /\ map id (vendas (RelatorioFinalEdu.executar inicial [em_branco; boa]))
      = [1; 2]
   /\ map produto
        (vendas (RelatorioFinalEdu.executar inicial [em_branco; boa]))
      = [""; "Mouse"]%string)
  /\ (Py.strptime_Ymd (arg_data mes_13) = None
      /\ contador_id (AnaliseVendasEdu.executar inicial [mes_13]) = 2
      /\ map id (vendas (AnaliseVendasEdu.executar inicial [mes_13; boa]))
         = [1; 2]
      /\ RelatorioFinalEdu.executar inicial [mes_13] = inicial)
  /\ ((arg_valor_unitario preco_nan <=? 0)%float = false
      /\ (0 <? arg_valor_unitario preco_nan)%float = false
      /\ contador_id (AnaliseVendasEdu.executar inicial [preco_nan]) = 2
      /\ map id (vendas (AnaliseVendasEdu.executar inicial [preco_nan; boa]))
         = [1; 2]
      /\ contador_id (RelatorioFinalEdu.executar inicial [preco_nan]) = 2
      /\ map id
           (vendas (RelatorioFinalEdu.executar inicial [preco_nan; boa]))
         = [1; 2]).
Proof. vm_compute. repeat split. Qed.

(** ** The built-ins on sample inputs

    The values on the right are the ones Python gives. *)

Section Amostras.

Import Py.

Example isspace_tabela :
  map N_of_ascii (filter isspace todos_os_caracteres)
  = [9; 10; 11; 12; 13; 28; 29; 30; 31; 32; 133; 160]%N.
Proof. vm_compute. reflexivity. Qed.

Example lower_tabela :
  map N_of_ascii
    (filter (fun c => negb (Ascii.eqb (lower_char c) c)) todos_os_caracteres)
  = map N.of_nat (seq 65 26 ++ seq 192 23 ++ seq 216 7)
  /\ forallb
       (fun c =>
          Ascii.eqb (lower_char c) c
          || (N_of_ascii (lower_char c) =? N_of_ascii c + 32)%N)
       todos_os_caracteres = true.
Proof. vm_compute. split; reflexivity. Qed.

Example strip_lower_in :
  strip "  Ana Pereira  " = "Ana Pereira"%string
  /\ strip "   " = ""%string
  /\ lower "Ana Pereira" = "ana pereira"%string
  /\ str_in "ana" "ana pereira" = true
  /\ str_in "" "" = true
  /\ str_in "anna" "ana pereira" = false.
Proof. vm_compute. repeat split. Qed.

Example round2_amostras :
  map round2 [0.125; 0.375; 2.675; 1.005; 449.50000000000006; 0.30000000000000004;
              123456789.987654321; 1e22; 0.005; 0.015; 0.025]%float
  = [0.12; 0.38; 2.67; 1.0; 449.5; 0.3; 123456789.99; 1e22; 0.01; 0.01;
     0.03]%float.
Proof. vm_compute. reflexivity. Qed.

Example float_of_int_amostras :
  float_of_int 3 = Some 3%float
  /\ float_of_int (2 ^ 53 + 1) = Some 9007199254740992%float
  /\ float_of_int (2 ^ 1024 - 2 ^ 970 - 1) = Some 1.7976931348623157e308%float
  /\ float_of_int (2 ^ 1024 - 2 ^ 970) = None
  /\ mul_int_float 5 89.90 = Some 449.5%float.
Proof. vm_compute. repeat split. Qed.

(** [strptime] also reads a month and a day of one digit, and a day led by
    a space; it normalises them. *)
Example strptime_amostras :
  map (fun s => option_map strftime_Ymd (strptime_Ymd s))
    ["2024-01-15"; "2024-1-5"; "2024-01- 5"; "2024-02-29"; "2023-02-29";
     "2024-13-01"; "2024-01-32"; "0000-01-01"; " 2024-01-01"; "2024-01-01 ";
     ""; "          "]%string
  = [Some "2024-01-15"; Some "2024-01-05"; Some "2024-01-05";
     Some "2024-02-29"; None; None; None; None; None; None; None;
     None]%string.
Proof. vm_compute. reflexivity. Qed.

(** Years below 1000 are written without filling. *)
Example strftime_amostras :
  map (fun s =>
         option_map (fun d => (strftime_Ymd d, strftime_Ym d))
           (strptime_Ymd s))
    ["0999-06-01"; "0005-01-02"; "0042-12-31"; "0100-02-03"; "1000-01-01";
     "9999-12-31"]%string
  = [Some ("999-06-01", "999-06"); Some ("5-01-02", "5-01");
     Some ("42-12-31", "42-12"); Some ("100-02-03", "100-02");
     Some ("1000-01-01", "1000-01"); Some ("9999-12-31", "9999-12")]%string.
Proof. vm_compute. reflexivity. Qed.

Example take_amostras :
  take 2 [1; 2; 3] = [1; 2] /\ take 5 [1; 2; 3] = [1; 2; 3]
  /\ take 0 [1; 2; 3] = [] /\ take (-1) [1; 2; 3] = [1; 2]
  /\ take (-7) [1; 2; 3] = [].
Proof. vm_compute. repeat split. Qed.

(** The scenario of the specification: two sales of one seller. *)
Example cenario_ana :
  let vs :=
    vendas (RelatorioFinalEdu.executar inicial
              [ Chamada "Notebook" "Ana" 2 1000 "2024-01-15";
                Chamada "Mouse" "Ana" 1 50 "2024-01-20" ]) in
  calcular_vendas_por_vendedor vs
  = [("Ana"%string, StatsVendedor.Make 2050 2 1025)].
Proof. vm_compute. reflexivity. Qed.

(** NaN is not [<= 0], so a NaN price passes the test of the price and
    its total is NaN; this is why [maior_mes] speaks of NaN. *)
Example nan_passa_no_teste_do_valor :
  valor_positivo (Chamada "Caneta" "Ana" 1 nan "2024-01-15") = true
  /\ option_map is_nan (option_map round2 (mul_int_float 1 nan)) = Some true.
Proof. vm_compute. split; reflexivity. Qed.

(** A negative limit is a slice from the end, for which the ranking at a
    larger limit no longer starts the same way: twelve sellers, limit -1. *)
Example ranking_limite_negativo :
  let nomes := ["a"; "b"; "c"; "d"; "e"; "f"; "g"; "h"; "i"; "j"; "k"; "l"]%string in
  let vs :=
    vendas (AnaliseVendasEdu.executar inicial
              (map (fun n => Chamada "Caneta" n 1 1 "2024-01-15") nomes)) in
  List.length (ranking_vendedores vs (-1)) = 11%nat
  /\ List.length (take (-1) (ranking_vendedores vs (-1 + 10))) = 8%nat.
Proof. vm_compute. split; reflexivity. Qed.

End Amostras.

(** * Further properties of the two files *)

(** ** Definitions *)

(** What every sale stored by the first variant satisfies. *)
Definition analise_bem_formada (v : venda string) : Prop :=
  0 < quantidade v
  /\ (valor_unitario v <=? 0)%float = false
  /\ Py.strip (produto v) = produto v
  /\ Py.strip (vendedor v) = vendedor v
  /\ Py.mul_int_float (quantidade v) (valor_unitario v) = Some (valor_total v)
  /\ AnaliseVendasEdu.formato_data (data v) = true.

(** What every sale stored by the second variant satisfies. *)
Definition relatorio_bem_formada (v : venda RelatorioFinalEdu.data_venda)
  : Prop :=
  let d := RelatorioFinalEdu.data_obj (data v) in
  0 < quantidade v
  /\ (valor_unitario v <=? 0)%float = false
  /\ Py.strip (produto v) = produto v
  /\ Py.strip (vendedor v) = vendedor v
  /\ option_map Py.round2
       (Py.mul_int_float (quantidade v) (valor_unitario v))
     = Some (valor_total v)
  /\ Py.date_ok (Py.year d) (Py.month d) (Py.day d) = true
  /\ Py.year d <= 9999
  /\ (1000 <= Py.year d ->
      RelatorioFinalEdu.data_str (data v)
      = texto_iso (Py.digit_char (Py.year d / 1000))
          (Py.digit_char (Py.year d / 100)) (Py.digit_char (Py.year d / 10))
          (Py.digit_char (Py.year d)) (Py.digit_char (Py.month d / 10))
          (Py.digit_char (Py.month d)) (Py.digit_char (Py.day d / 10))
          (Py.digit_char (Py.day d))).

(** ** Insertion: what a call does, and what the ledger keeps *)

Section InsercaoMais.

Import Py.

Lemma analise_executar_app (cs : list chamada) (st : AnaliseVendasEdu.estado) :
  exists novas,
    vendas (AnaliseVendasEdu.executar st cs) = vendas st ++ novas
    /\ contador_id (AnaliseVendasEdu.executar st cs)
       = contador_id st + Z.of_nat (List.length novas)
    /\ (List.length novas <= List.length cs)%nat.
Proof.
  revert st. induction cs as [|c cs IH]; intros st.
  - exists []. simpl. rewrite app_nil_r. repeat split; lia.
  - simpl. destruct (analise_chamar_cases st c) as [-> | (v & -> & Hv)].
    + destruct (IH st) as (novas & H1 & H2 & H3).
      exists novas. repeat split; trivial. lia.
    + destruct (IH (Sistema (vendas st ++ [v]) (contador_id st + 1)))
        as (novas & H1 & H2 & H3).
      exists (v :: novas). simpl in *. rewrite H1, H2, <- app_assoc.
      repeat split; trivial; lia.
Qed.

Lemma relatorio_executar_app (cs : list chamada)
  (st : RelatorioFinalEdu.estado) :
  exists novas,
    vendas (RelatorioFinalEdu.executar st cs) = vendas st ++ novas
    /\ contador_id (RelatorioFinalEdu.executar st cs)
       = contador_id st + Z.of_nat (List.length novas)
    /\ (List.length novas <= List.length cs)%nat.
Proof.
  revert st. induction cs as [|c cs IH]; intros st.
  - exists []. simpl. rewrite app_nil_r. repeat split; lia.
  - simpl. destruct (relatorio_chamar_cases st c) as [-> | (v & -> & Hv)].
    + destruct (IH st) as (novas & H1 & H2 & H3).
      exists novas. repeat split; trivial. lia.
    + destruct (IH (Sistema (vendas st ++ [v]) (contador_id st + 1)))
        as (novas & H1 & H2 & H3).
      exists (v :: novas). simpl in *. rewrite H1, H2, <- app_assoc.
      repeat split; trivial; lia.
Qed.

End InsercaoMais.

(** X1. The ledger only grows: after any sequence of calls, from any
    state, the sales that were there are still there, unchanged and in the
    same places, followed by the new ones; there is at most one new sale
    per call and the counter has advanced by their number.  Both
    variants. *)
Theorem vendas_so_crescem (cs : list chamada) :
  (forall st : AnaliseVendasEdu.estado,
      exists novas,
        vendas (AnaliseVendasEdu.executar st cs) = vendas st ++ novas
        /\ contador_id (AnaliseVendasEdu.executar st cs)
           = contador_id st + Z.of_nat (List.length novas)
        /\ (List.length novas <= List.length cs)%nat)
  /\
  (forall self : RelatorioFinalEdu.estado,
      exists novas,
        vendas (RelatorioFinalEdu.executar self cs) = vendas self ++ novas
        /\ contador_id (RelatorioFinalEdu.executar self cs)
           = contador_id self + Z.of_nat (List.length novas)
        /\ (List.length novas <= List.length cs)%nat).
Proof.
  split; intros st;
    [apply analise_executar_app|apply relatorio_executar_app].
Qed.

(** X2. The three things a call can do, and when.  It returns [None]
    exactly when one of the four tests fails; it raises [OverflowError]
    exactly when the tests pass and the quantity is too large for a float;
    otherwise it returns the new sale, which it has put at the end of the
    ledger with the counter as its id.  The state changes in the last case
    only.  Both variants. *)
Theorem registrar_venda_resultados (c : chamada) :
  (forall st : AnaliseVendasEdu.estado,
      match AnaliseVendasEdu.chamar st c with
      | (st', Py.Returned None) =>
          AnaliseVendasEdu.valida c = false /\ st' = st
      | (st', Py.Raised Py.OverflowError) =>
          AnaliseVendasEdu.valida c = true
          /\ Py.float_of_int (arg_quantidade c) = None /\ st' = st
      | (st', Py.Returned (Some v)) =>
          AnaliseVendasEdu.valida c = true
          /\ (exists f, Py.float_of_int (arg_quantidade c) = Some f)
          /\ st' = Sistema (vendas st ++ [v]) (contador_id st + 1)
          /\ id v = contador_id st
      end)
  /\
  (forall self : RelatorioFinalEdu.estado,
      match RelatorioFinalEdu.chamar self c with
      | (st', Py.Returned None) =>
          RelatorioFinalEdu.valida c = false /\ st' = self
      | (st', Py.Raised Py.OverflowError) =>
          RelatorioFinalEdu.valida c = true
          /\ Py.float_of_int (arg_quantidade c) = None /\ st' = self
      | (st', Py.Returned (Some v)) =>
          RelatorioFinalEdu.valida c = true
          /\ (exists f, Py.float_of_int (arg_quantidade c) = Some f)
          /\ st' = Sistema (vendas self ++ [v]) (contador_id self + 1)
          /\ id v = contador_id self
      end).
Proof.
  split; intros st.
  - unfold AnaliseVendasEdu.chamar, AnaliseVendasEdu.registrar_venda,
      AnaliseVendasEdu.valida, AnaliseVendasEdu.data_aceita,
      textos_presentes, quantidade_positiva, valor_positivo,
      Py.mul_int_float.
    destruct (Py.all3 _ _ _); [|now split].
    destruct (arg_quantidade c <=? 0); [now split|].
    destruct (arg_valor_unitario c <=? 0)%float; [now split|].
    destruct (AnaliseVendasEdu.formato_data _); [|now split].
    destruct (Py.float_of_int _) as [f|]; [|now repeat split].
    repeat split. now exists f.
  - unfold RelatorioFinalEdu.chamar, RelatorioFinalEdu.registrar_venda,
      RelatorioFinalEdu.valida, RelatorioFinalEdu.data_aceita,
      textos_presentes, quantidade_positiva, valor_positivo,
      Py.mul_int_float.
    destruct (Py.all3 _ _ _); [|now split].
    destruct (arg_quantidade c <=? 0); [now split|].
    destruct (arg_valor_unitario c <=? 0)%float; [now split|].
    destruct (Py.strptime_Ymd _); [|now split].
    destruct (Py.float_of_int _) as [f|]; [|now repeat split].
    repeat split. now exists f.
Qed.

(** ** What every stored sale satisfies *)

Section VendasBemFormadas.

Import Py.

Lemma rstrip_cons (c : ascii) (s : string) :
  rstrip (String c s)
  = match rstrip s with
    | EmptyString => if isspace c then EmptyString else String c EmptyString
    | r => String c r
    end.
Proof. reflexivity. Qed.

Lemma rstrip_idempotent (s : string) : rstrip (rstrip s) = rstrip s.
Proof.
  induction s as [|c s IH]; [reflexivity|]. rewrite rstrip_cons.
  destruct (rstrip s) as [|b r] eqn:E.
  - destruct (isspace c) eqn:Ec; [reflexivity|].
    rewrite rstrip_cons. cbn. now rewrite Ec.
  - rewrite rstrip_cons, IH. reflexivity.
Qed.

Lemma rstrip_head (a : ascii) (t : string) :
  isspace a = false -> exists u, rstrip (String a t) = String a u.
Proof.
  intros H. rewrite rstrip_cons. destruct (rstrip t); rewrite ?H; eauto.
Qed.

Lemma lstrip_head (s : string) :
  lstrip s = EmptyString
  \/ exists a t, lstrip s = String a t /\ isspace a = false.
Proof.
  induction s as [|c s IH]; [now left|]. cbn [lstrip].
  destruct (isspace c) eqn:E; [exact IH|]. right. eauto.
Qed.

(** Stripping twice is stripping once: a stripped text has no space at
    either end. *)
Lemma strip_idempotent (s : string) : strip (strip s) = strip s.
Proof.
  unfold strip. destruct (lstrip_head s) as [->|(a & t & -> & Ha)];
    [reflexivity|].
  destruct (rstrip_head a t Ha) as (u & Hu).
  rewrite Hu at 1. cbn [lstrip]. rewrite Ha, <- Hu.
  apply rstrip_idempotent.
Qed.

Lemma is_digit_val (c : ascii) :
  is_digit c = true -> 0 <= digit_val c <= 9.
Proof.
  unfold is_digit, digit_val. intros H. apply andb_prop in H as [H1 H2].
  apply N.leb_le in H1, H2. lia.
Qed.

Lemma first_match_inv {A B : Type} (P : B -> Prop) (k : A -> option B)
  (l : list A) (b : B) :
  (forall a b, k a = Some b -> P b) -> first_match k l = Some b -> P b.
Proof.
  intros Hk. induction l as [|a l IH]; simpl; [discriminate|].
  destruct (k a) eqn:E; [|exact IH].
  intros H. inversion H. subst. eauto.
Qed.

Lemma strptime_Ymd_year_le (s : string) (d : datetime) :
  strptime_Ymd s = Some d -> year d <= 9999.
Proof.
  unfold strptime_Ymd.
  destruct (match_Ymd s) as [[[[y m] dd] [|? ?]]|] eqn:E; try discriminate.
  destruct (date_ok y m dd); [|discriminate].
  intros H. inversion H. subst. simpl. clear H.
  unfold match_Ymd, match_Y in E.
  destruct s as [|a [|b [|c [|e rest]]]]; try discriminate.
  destruct (is_digit a) eqn:Ha; [|discriminate].
  destruct (is_digit b) eqn:Hb; [|discriminate].
  destruct (is_digit c) eqn:Hc; [|discriminate].
  destruct (is_digit e) eqn:He; [|discriminate].
  cbn [andb] in E.
  apply is_digit_val in Ha, Hb, Hc, He.
  set (y0 := 1000 * digit_val a + 100 * digit_val b + 10 * digit_val c
             + digit_val e) in E.
  assert (Hy0 : y0 <= 9999) by (unfold y0; lia). clearbody y0.
  destruct rest as [|x r]; [discriminate|].
  destruct (Ascii.eqb x "-") eqn:Ex.
  - apply Ascii.eqb_eq in Ex. subst x.
    revert E. apply (first_match_inv (fun r => fst (fst (fst r)) <= 9999)).
    intros [m' r'] [[[y' m''] d'] r'']. destruct r' as [|x' r']; [discriminate|].
    destruct x' as [[] [] [] [] [] [] [] []]; try discriminate.
    destruct (match_d r') as [|[d'' rest''] ?]; [discriminate|].
    intros H. inversion H. subst. exact Hy0.
  - destruct x as [[] [] [] [] [] [] [] []]; try discriminate.
Qed.

Lemma strftime_Y_pad4 (y : Z) : 1000 <= y -> strftime_Y y = pad4 y.
Proof.
  intros H. unfold strftime_Y.
  destruct (Z.ltb_spec y 10); [lia|].
  destruct (Z.ltb_spec y 100); [lia|].
  destruct (Z.ltb_spec y 1000); [lia|reflexivity].
Qed.

(** The text [strftime] writes for a year of four digits has the shape
    YYYY-MM-DD. *)
Lemma strftime_Ymd_texto_iso (d : datetime) :
  1000 <= year d ->
  strftime_Ymd d
  = texto_iso (digit_char (year d / 1000)) (digit_char (year d / 100))
      (digit_char (year d / 10)) (digit_char (year d))
      (digit_char (month d / 10)) (digit_char (month d))
      (digit_char (day d / 10)) (digit_char (day d)).
Proof.
  intros H. unfold strftime_Ymd. now rewrite strftime_Y_pad4.
Qed.

Lemma analise_bem_formada_nova (st : AnaliseVendasEdu.estado) (c : chamada)
  (st' : AnaliseVendasEdu.estado) (v : venda string) :
  AnaliseVendasEdu.chamar st c = (st', Returned (Some v)) ->
  analise_bem_formada v.
Proof.
  intros H. destruct (analise_registro _ _ _ _ H)
    as (Hv & _ & _ & Hp & Hs & Hq & Hu & Ht & Hd).
  unfold AnaliseVendasEdu.valida, textos_presentes, quantidade_positiva,
    valor_positivo, AnaliseVendasEdu.data_aceita in Hv.
  apply andb_prop in Hv as [Hv Hfmt]. apply andb_prop in Hv as [Hv Hpos].
  apply andb_prop in Hv as [_ Hqp].
  unfold analise_bem_formada. rewrite Hp, Hs, Hq, Hu, Hd, !strip_idempotent.
  repeat split; trivial.
  - destruct (Z.leb_spec (arg_quantidade c) 0); [discriminate|lia].
  - now apply negb_true_iff.
Qed.

Lemma relatorio_bem_formada_nova (st : RelatorioFinalEdu.estado) (c : chamada)
  (st' : RelatorioFinalEdu.estado) (v : venda RelatorioFinalEdu.data_venda) :
  RelatorioFinalEdu.chamar st c = (st', Returned (Some v)) ->
  relatorio_bem_formada v.
Proof.
  intros H. pose proof H as H'.
  destruct (relatorio_registro _ _ _ _ H)
    as (Hv & _ & _ & Hp & Hs & Hq & Hu & Ht & Hd).
  unfold RelatorioFinalEdu.valida, textos_presentes, quantidade_positiva,
    valor_positivo, RelatorioFinalEdu.data_aceita in Hv.
  apply andb_prop in Hv as [Hv _]. apply andb_prop in Hv as [Hv Hpos].
  apply andb_prop in Hv as [_ Hqp].
  unfold relatorio_bem_formada. cbv zeta.
  rewrite Hp, Hs, Hq, Hu, !strip_idempotent.
  pose proof (strptime_Ymd_year_le _ _ Hd) as Hy.
  assert (Hok : date_ok (year (RelatorioFinalEdu.data_obj (data v)))
                  (month (RelatorioFinalEdu.data_obj (data v)))
                  (day (RelatorioFinalEdu.data_obj (data v))) = true).
  { revert Hd. unfold strptime_Ymd.
    destruct (match_Ymd _) as [[[[y m] dd] [|? ?]]|]; try discriminate.
    destruct (date_ok y m dd) eqn:E; [|discriminate].
    intros Hd. injection Hd as <-. exact E. }
  repeat split; trivial.
  - destruct (Z.leb_spec (arg_quantidade c) 0); [discriminate|lia].
  - now apply negb_true_iff.
  - revert H'. unfold RelatorioFinalEdu.chamar,
      RelatorioFinalEdu.registrar_venda.
    repeat match goal with
           | |- context [if ?b then _ else _] => destruct b; [discriminate|]
           end.
    destruct (strptime_Ymd _); [|discriminate].
    destruct (mul_int_float _ _); [|discriminate].
    intros E Hano. inversion E. subst. cbn [data RelatorioFinalEdu.data_str
      RelatorioFinalEdu.data_obj] in *.
    now apply strftime_Ymd_texto_iso.
Qed.

Lemma analise_executar_bem_formadas (cs : list chamada)
  (st : AnaliseVendasEdu.estado) :
  Forall analise_bem_formada (vendas st) ->
  Forall analise_bem_formada (vendas (AnaliseVendasEdu.executar st cs)).
Proof.
  revert st. induction cs as [|c cs IH]; intros st Hst; [exact Hst|].
  simpl. apply IH.
  destruct (analise_chamar_cases st c) as [-> | (v & E & Hv)]; [exact Hst|].
  rewrite E. simpl. apply Forall_app. split; [exact Hst|].
  constructor; [|constructor]. eapply analise_bem_formada_nova, E.
Qed.

Lemma relatorio_executar_bem_formadas (cs : list chamada)
  (st : RelatorioFinalEdu.estado) :
  Forall relatorio_bem_formada (vendas st) ->
  Forall relatorio_bem_formada (vendas (RelatorioFinalEdu.executar st cs)).
Proof.
  revert st. induction cs as [|c cs IH]; intros st Hst; [exact Hst|].
  simpl. apply IH.
  destruct (relatorio_chamar_cases st c) as [-> | (v & E & Hv)]; [exact Hst|].
  rewrite E. simpl. apply Forall_app. split; [exact Hst|].
  constructor; [|constructor]. eapply relatorio_bem_formada_nova, E.
Qed.

End VendasBemFormadas.

(** X3. Whatever calls were made on a fresh ledger, every sale in it has
    a positive quantity, a price that is not [<= 0], a product and a seller
    with no space at either end, and a total computed from its own
    quantity and price: the product in the first variant, the product
    rounded to two places in the second.  The first variant keeps a date
    text of the accepted shape; the second a date of the calendar, of a
    year up to 9999, and with it, when the year is 1000 or later, its
    text in the form YYYY-MM-DD. *)
Theorem vendas_bem_formadas (cs : list chamada) :
  Forall analise_bem_formada
    (vendas (AnaliseVendasEdu.executar inicial cs))
  /\ Forall relatorio_bem_formada
       (vendas (RelatorioFinalEdu.executar inicial cs)).
Proof.
  split.
  - apply analise_executar_bem_formadas. constructor.
  - apply relatorio_executar_bem_formadas. constructor.
Qed.

(** ** The three aggregations, entry by entry *)

(** The sum of [f] over a list. *)
Definition soma_de {A : Type} (f : A -> Z) (l : list A) : Z :=
  fold_right (fun a acc => f a + acc) 0 l.

(** The entry [calcular_vendas_por_vendedor] builds for the seller [k]. *)
Definition entrada_vendedor {D : Type} (vs : list (venda D)) (k : string)
  : string * StatsVendedor.t :=
  let g := grupo vendedor k vs in
  let total := acumulado (map valor_total g) in
  let qtd := Z.of_nat (List.length g) in
  (k, StatsVendedor.Make total qtd (total / Py.float_of_len qtd)%float).

(** The entry [calcular_vendas_por_produto] builds for the product [k]. *)
Definition entrada_produto {D : Type} (vs : list (venda D)) (k : string)
  : string * StatsProduto.t :=
  let g := grupo produto k vs in
  let total := acumulado (map valor_total g) in
  (k, StatsProduto.Make total (soma_de quantidade g) total).

(** The entry of the month map for the month [k]. *)
Definition entrada_mes {D : Type} (mes : D -> string) (vs : list (venda D))
  (k : string) : string * float :=
  (k, acumulado (map valor_total (grupo (fun v => mes (data v)) k vs))).

Section Agregacoes.

Import Py.

Context {D : Type}.

Lemma soma_de_app {A : Type} (f : A -> Z) (l1 l2 : list A) :
  soma_de f (l1 ++ l2) = soma_de f l1 + soma_de f l2.
Proof.
  unfold soma_de. induction l1 as [|a l1 IH]; simpl; [reflexivity|].
  rewrite IH. lia.
Qed.

Lemma soma_de_perm {A : Type} (f : A -> Z) (l1 l2 : list A) :
  Permutation l1 l2 -> soma_de f l1 = soma_de f l2.
Proof. unfold soma_de. induction 1; simpl; lia. Qed.

Lemma soma_de_concat {A : Type} (f : A -> Z) (gs : list (list A)) :
  soma_de f (List.concat gs) = soma_de (soma_de f) gs.
Proof.
  induction gs as [|g gs IH]; [reflexivity|].
  simpl. rewrite soma_de_app, IH. reflexivity.
Qed.

Lemma soma_de_map {A B : Type} (f : B -> Z) (g : A -> B) (l : list A) :
  soma_de f (map g l) = soma_de (fun a => f (g a)) l.
Proof.
  unfold soma_de. induction l as [|a l IH]; simpl; [reflexivity|].
  now rewrite IH.
Qed.

(** Summed over the distinct keys, the sums over the groups give the sum
    over the list. *)
Lemma soma_de_grupos {A : Type} (f : A -> Z) (chave : A -> string)
  (l : list A) :
  soma_de (fun k => soma_de f (grupo chave k l)) (distintos (map chave l))
  = soma_de f l.
Proof.
  rewrite <- (soma_de_perm f _ _ (grupos_distintos_particao chave l)).
  now rewrite soma_de_concat, soma_de_map.
Qed.

Lemma soma_de_ext {A : Type} (f g : A -> Z) (l : list A) :
  (forall a, f a = g a) -> soma_de f l = soma_de g l.
Proof.
  intros H. unfold soma_de. induction l as [|a l IH]; [reflexivity|].
  cbn [fold_right]. now rewrite IH, H.
Qed.

Lemma soma_de_length {A : Type} (l : list A) :
  soma_de (fun _ => 1) l = Z.of_nat (List.length l).
Proof.
  unfold soma_de. induction l as [|a l IH]; [reflexivity|].
  cbn [fold_right List.length]. rewrite Nat2Z.inj_succ, IH. lia.
Qed.

Lemma acumular_conta {A : Type} (valor : A -> float) (conta : A -> Z)
  (g : list A) (total : float) (qtd : Z) :
  snd (fold_left
         (fun acc a =>
            (let '(total, qtd) := acc in
             ((total + valor a)%float, qtd + conta a)))
         g (total, qtd))
  = qtd + soma_de conta g.
Proof.
  revert total qtd. induction g as [|a g IH]; intros total qtd.
  - simpl. lia.
  - cbn [fold_left]. rewrite IH. unfold soma_de. simpl. lia.
Qed.

(** A key of the dictionary has a group that is not empty. *)
Lemma grupo_presente {A : Type} (chave : A -> string) (k : string)
  (l : list A) :
  In k (distintos (map chave l)) -> grupo chave k l <> [].
Proof.
  intros H Hnil. apply distintos_In, in_map_iff in H as (a & <- & Ha).
  assert (Hin : In a (grupo chave (chave a) l)).
  { apply filter_In. split; [exact Ha|apply String.eqb_refl]. }
  rewrite Hnil in Hin. destruct Hin.
Qed.

Lemma calcular_vendas_por_vendedor_entradas (vs : list (venda D)) :
  calcular_vendas_por_vendedor vs
  = map (entrada_vendedor vs) (distintos (map vendedor vs)).
Proof.
  unfold calcular_vendas_por_vendedor, acumular_por_vendedor.
  rewrite (dict_fold_spec (@vendedor D) (0%float, 0)
             (fun v '(total, qtd) =>
                ((total + valor_total v)%float, qtd + 1)) vs).
  rewrite map_map. apply map_ext_in. intros k Hk.
  unfold entrada_vendedor, acumulado. cbv zeta.
  pose proof (acumular_total valor_total (fun _ q => q + 1)
                (grupo vendedor k vs) 0%float 0) as Ht.
  pose proof (acumular_conta valor_total (fun _ => 1)
                (grupo vendedor k vs) 0%float 0) as Hq.
  rewrite soma_de_length in Hq.
  destruct (fold_left _ (grupo vendedor k vs) (0%float, 0)) as [t q].
  cbn [fst snd] in Ht, Hq. subst t q. f_equal. f_equal.
  unfold media.
  apply grupo_presente in Hk.
  destruct (grupo vendedor k vs); [contradiction|].
  simpl List.length. destruct (Z.ltb_spec 0 (Z.of_nat (S (List.length l))));
    [reflexivity|lia].
Qed.

Lemma calcular_vendas_por_produto_entradas (vs : list (venda D)) :
  calcular_vendas_por_produto vs
  = map (entrada_produto vs) (distintos (map produto vs)).
Proof.
  unfold calcular_vendas_por_produto, acumular_por_produto.
  rewrite (dict_fold_spec (@produto D) (0%float, 0)
             (fun v '(total, qtd) =>
                ((total + valor_total v)%float, qtd + quantidade v)) vs).
  rewrite map_map. apply map_ext. intros k.
  unfold entrada_produto, acumulado. cbv zeta.
  pose proof (acumular_total valor_total (fun v q => q + quantidade v)
                (grupo produto k vs) 0%float 0) as Ht.
  pose proof (acumular_conta valor_total quantidade
                (grupo produto k vs) 0%float 0) as Hq.
  destruct (fold_left _ (grupo produto k vs) (0%float, 0)) as [t q].
  cbn [fst snd] in Ht, Hq. subst t q. reflexivity.
Qed.

Lemma acumular_por_mes_entradas (mes : D -> string) (vs : list (venda D)) :
  acumular_por_mes mes vs
  = map (entrada_mes mes vs) (distintos (map (fun v => mes (data v)) vs)).
Proof.
  unfold acumular_por_mes.
  rewrite (dict_fold_spec (fun v : venda D => mes (data v)) 0%float
             (fun v total => (total + valor_total v)%float)).
  apply map_ext. intros k. unfold entrada_mes, acumulado. f_equal.
  generalize 0%float.
  induction (grupo (fun v : venda D => mes (data v)) k vs) as [|v g IH];
    intros t; [reflexivity|apply IH].
Qed.

End Agregacoes.

(** X4. [calcular_vendas_por_vendedor] has one entry per seller of the
    ledger, in the order in which the sellers first appear, and none else.
    The entry of a seller holds the total accumulated over that seller's
    sales, their number, which is at least 1, and the total divided by
    that number: the alternative [0.0] of the average is never taken.  The
    numbers of sales of all the entries add up to the size of the
    ledger. *)
Theorem estatisticas_por_vendedor {D : Type} (vs : list (venda D)) :
  calcular_vendas_por_vendedor vs
  = map (entrada_vendedor vs) (distintos (map vendedor vs))
  /\ NoDup (map fst (calcular_vendas_por_vendedor vs))
  /\ (forall v, In v vs ->
        In (entrada_vendedor vs (vendedor v)) (calcular_vendas_por_vendedor vs))
  /\ Forall (fun e => 1 <= StatsVendedor.quantidade_vendas (snd e))
       (calcular_vendas_por_vendedor vs)
  /\ soma_de (fun e => StatsVendedor.quantidade_vendas (snd e))
       (calcular_vendas_por_vendedor vs)
     = Z.of_nat (List.length vs).
Proof.
  rewrite calcular_vendas_por_vendedor_entradas. repeat split.
  - rewrite map_map. cbn. rewrite map_id. apply distintos_NoDup.
  - intros v Hv. apply in_map, distintos_In, in_map, Hv.
  - apply Forall_forall. intros e He.
    apply in_map_iff in He as (k & <- & Hk). cbn.
    apply grupo_presente in Hk.
    destruct (grupo vendedor k vs); [contradiction|].
    cbn [List.length]. lia.
  - rewrite soma_de_map.
    rewrite <- (soma_de_length vs), <- (soma_de_grupos (fun _ => 1) vendedor vs).
    apply soma_de_ext. intros k. cbn. now rewrite soma_de_length.
Qed.

(** X5. [calcular_vendas_por_produto] has one entry per product of the
    ledger, in the order in which the products first appear.  The entry of
    a product holds the total accumulated over the sales of that product,
    twice (as [total_vendido] and as [receita]), and the sum of their
    quantities.  The units of all the entries add up to the units of the
    ledger, exactly; and each is positive when the quantities are. *)
Theorem estatisticas_por_produto {D : Type} (vs : list (venda D)) :
  calcular_vendas_por_produto vs
  = map (entrada_produto vs) (distintos (map produto vs))
  /\ NoDup (map fst (calcular_vendas_por_produto vs))
  /\ (forall v, In v vs ->
        In (entrada_produto vs (produto v)) (calcular_vendas_por_produto vs))
  /\ soma_de (fun e => StatsProduto.quantidade_vendida (snd e))
       (calcular_vendas_por_produto vs)
     = soma_de quantidade vs
  /\ (Forall (fun v => 0 < quantidade v) vs ->
      Forall (fun e => 0 < StatsProduto.quantidade_vendida (snd e))
        (calcular_vendas_por_produto vs)).
Proof.
  rewrite calcular_vendas_por_produto_entradas. repeat split.
  - rewrite map_map. cbn. rewrite map_id. apply distintos_NoDup.
  - intros v Hv. apply in_map, distintos_In, in_map, Hv.
  - rewrite soma_de_map. cbn. apply soma_de_grupos.
  - intros Hpos. apply Forall_forall. intros e He.
    apply in_map_iff in He as (k & <- & Hk). cbn.
    apply grupo_presente in Hk.
    assert (Hg : Forall (fun v => 0 < quantidade v) (grupo produto k vs)).
    { apply Forall_forall. intros v Hv. apply filter_In in Hv as [Hv _].
      rewrite Forall_forall in Hpos. now apply Hpos. }
    destruct (grupo produto k vs) as [|v g]; [contradiction|].
    inversion_clear Hg as [|? ? Hv Hg'].
    assert (0 <= soma_de quantidade g).
    { clear -Hg'. unfold soma_de.
      induction Hg' as [|a g Ha Hg' IH]; cbn [fold_right]; lia. }
    unfold entrada_produto. cbn [snd StatsProduto.quantidade_vendida].
    unfold soma_de in *. cbn [fold_right]. lia.
Qed.

(** X6. The month map has one entry per month of the ledger and none
    else; the entry of a month holds the total accumulated, in the order
    of the ledger, over the sales of that month.  Sorting only reorders
    these entries.  For both variants, [mes] being how the variant reads
    the month of a stored date. *)
Theorem vendas_por_mes_entradas {D : Type} (mes : D -> string)
  (vs : list (venda D)) :
  Permutation (calcular_vendas_por_mes mes vs)
    (map (entrada_mes mes vs) (distintos (map (fun v => mes (data v)) vs)))
  /\ NoDup (map fst (calcular_vendas_por_mes mes vs))
  /\ (forall v, In v vs ->
        In (entrada_mes mes vs (mes (data v))) (calcular_vendas_por_mes mes vs))
  /\ (forall k total,
        In (k, total) (calcular_vendas_por_mes mes vs) ->
        exists v, In v vs /\ mes (data v) = k
                  /\ (k, total) = entrada_mes mes vs k).
Proof.
  assert (Hp : Permutation (calcular_vendas_por_mes mes vs)
                 (map (entrada_mes mes vs)
                    (distintos (map (fun v => mes (data v)) vs)))).
  { unfold calcular_vendas_por_mes.
    rewrite sorted_perm. now rewrite acumular_por_mes_entradas. }
  repeat split.
  - exact Hp.
  - eapply Permutation_NoDup;
      [symmetry; apply Permutation_map, Hp|].
    rewrite map_map. cbn. rewrite map_id. apply distintos_NoDup.
  - intros v Hv. eapply Permutation_in; [symmetry; exact Hp|].
    apply in_map, distintos_In.
    apply (in_map (fun v => mes (data v))), Hv.
  - intros k total Hin. eapply Permutation_in in Hin; [|exact Hp].
    apply in_map_iff in Hin as (k' & E & Hk'). pose proof E as E'.
    unfold entrada_mes in E'. injection E' as <- _.
    apply distintos_In, in_map_iff in Hk' as (v & Hv & Hin).
    exists v. repeat split; trivial. now rewrite E.
Qed.

(** ** The rankings *)

(** The whole ranking of the products, before it is cut at the limit. *)
Definition ranking_completo_produtos {D : Type} (vs : list (venda D))
  : list (string * StatsProduto.t) :=
  Py.sorted_reverse Z.ltb
    (fun item => StatsProduto.quantidade_vendida (snd item))
    (calcular_vendas_por_produto vs).

(** Every item is at least as large as every later one. *)
Definition nao_crescente {A : Type} (le : A -> A -> Prop) (l : list A) : Prop :=
  StronglySorted (fun a b => le b a) l.

Section OrdenacaoGeral.

Import Py.

Context {A K : Type} (lt : K -> K -> bool) (key : A -> K).

Hypothesis lt_asym : forall x y, lt x y = true -> lt y x = false.

Lemma insert_asc_sorted_geral (x : A) (l : list A) :
  Sorted (fun a b => lt (key b) (key a) = false) l ->
  Sorted (fun a b => lt (key b) (key a) = false)
    (insert_asc (fun a b => lt (key a) (key b)) x l).
Proof.
  induction l as [|y l IH]; intros H; cbn [insert_asc].
  - repeat constructor.
  - destruct (lt (key y) (key x)) eqn:E.
    + inversion_clear H as [|? ? Hl Hy]. constructor; [now apply IH|].
      destruct l as [|z l]; cbn [insert_asc].
      * constructor. now apply lt_asym.
      * inversion_clear Hy.
        destruct (lt (key z) (key x)); constructor; trivial.
        now apply lt_asym.
    + constructor; [exact H|]. now constructor.
Qed.

Lemma sorted_sorted_geral (l : list A) :
  Sorted (fun a b => lt (key b) (key a) = false)
    (sorted (fun a b => lt (key a) (key b)) l).
Proof.
  induction l as [|x l IH]; [constructor|].
  cbn [sorted fold_right]. now apply insert_asc_sorted_geral.
Qed.

Lemma sorted_reverse_sorted_geral (l : list A) :
  Sorted (fun a b => lt (key a) (key b) = false) (sorted_reverse lt key l).
Proof.
  unfold sorted_reverse.
  apply (Sorted_rev (fun a b => lt (key b) (key a) = false)).
  apply sorted_sorted_geral.
Qed.

(** The items that satisfy [p] keep their order, when no two of them are
    one below the other. *)
Lemma sorted_reverse_filter_geral (p : A -> bool) (l : list A) :
  (forall x y, p x = true -> p y = true -> lt (key y) (key x) = false) ->
  filter p (sorted_reverse lt key l) = filter p l.
Proof.
  intros Hp. unfold sorted_reverse.
  rewrite filter_rev.
  assert (G : forall l', filter p (sorted (fun a b => lt (key a) (key b)) l')
                         = filter p l').
  { induction l' as [|x l' IH]; [reflexivity|].
    cbn [sorted fold_right].
    fold (sorted (fun a b => lt (key a) (key b)) l').
    transitivity (filter p (x :: sorted (fun a b => lt (key a) (key b)) l')).
    - generalize (sorted (fun a b => lt (key a) (key b)) l'). intros s.
      induction s as [|y s IHs]; [reflexivity|]. cbn [insert_asc].
      destruct (lt (key y) (key x)) eqn:E; [|reflexivity].
      cbn [filter] in *. rewrite IHs.
      destruct (p y) eqn:Ey, (p x) eqn:Ex; trivial.
      now rewrite (Hp x y Ex Ey) in E.
    - cbn [filter]. now rewrite IH. }
  now rewrite G, filter_rev, rev_involutive.
Qed.

End OrdenacaoGeral.

Section RankingsMais.

Import Py.

Lemma Sorted_Forall_impl {A : Type} (R1 R2 : A -> A -> Prop) (P : A -> Prop)
  (l : list A) :
  (forall a b, P a -> P b -> R1 a b -> R2 a b) ->
  Forall P l -> Sorted R1 l -> Sorted R2 l.
Proof.
  intros H HP HS. induction HS as [|a l Hl IH Ha]; [constructor|].
  inversion_clear HP as [|? ? Pa Pl]. constructor; [now apply IH|].
  destruct Ha as [|b l' Hab]; constructor.
  inversion_clear Pl. now apply H.
Qed.

Lemma StronglySorted_firstn {A : Type} (R : A -> A -> Prop) (n : nat)
  (l : list A) :
  StronglySorted R l -> StronglySorted R (firstn n l).
Proof.
  intros H. revert n. induction H as [|a l Hl IH Ha]; intros [|n];
    cbn [firstn]; try constructor; [apply IH|].
  rewrite Forall_forall in *. intros x Hx. apply Ha.
  eapply (In_nth_error) in Hx as [i Hi].
  apply nth_error_In with i. rewrite nth_error_firstn in Hi.
  destruct (i <? n)%nat; [exact Hi|discriminate].
Qed.

Lemma StronglySorted_take {A : Type} (R : A -> A -> Prop) (n : Z)
  (l : list A) :
  StronglySorted R l -> StronglySorted R (take n l).
Proof. intros H. unfold take. destruct (n <? 0); now apply StronglySorted_firstn. Qed.

Lemma StronglySorted_map {A B : Type} (R : B -> B -> Prop) (f : A -> B)
  (l : list A) :
  StronglySorted (fun a b => R (f a) (f b)) l -> StronglySorted R (map f l).
Proof.
  induction 1 as [|a l Hl IH Ha]; cbn [map]; constructor; [exact IH|].
  now apply Forall_map.
Qed.

Context {D : Type}.

Lemma ranking_produtos_take (vs : list (venda D)) (limite mais : Z) :
  0 <= limite -> 0 <= mais ->
  ranking_produtos vs limite
  = take limite (ranking_produtos vs (limite + mais)).
Proof.
  intros H1 H2. unfold ranking_produtos.
  rewrite take_map, take_take by lia. reflexivity.
Qed.

Lemma take_of_nat {A : Type} (n : nat) (l : list A) :
  take (Z.of_nat n) l = firstn n l.
Proof.
  unfold take. destruct (Z.ltb_spec (Z.of_nat n) 0); [lia|].
  now rewrite Nat2Z.id.
Qed.

Lemma ranking_completo_produtos_ordem (vs : list (venda D)) :
  nao_crescente
    (fun a b : string * StatsProduto.t =>
       StatsProduto.quantidade_vendida (snd a)
       <= StatsProduto.quantidade_vendida (snd b))
    (ranking_completo_produtos vs).
Proof.
  unfold nao_crescente, ranking_completo_produtos.
  apply Sorted_StronglySorted.
  - intros a b c Hab Hbc. lia.
  - eapply Sorted_Forall_impl with (P := fun _ => True);
      [| apply Forall_forall; trivial
       | apply (sorted_reverse_sorted_geral Z.ltb)].
    + intros a b _ _ H. apply Z.ltb_ge in H. exact H.
    + intros x y H. apply Z.ltb_lt in H. apply Z.ltb_ge. lia.
Qed.

End RankingsMais.

(** X7. [ranking_produtos] cuts, at the limit, the list of the product
    entries sorted by units sold: that list holds every entry once, each
    has at least as many units as every later one, and entries of equal
    units stay in the order of [calcular_vendas_por_produto].  So the
    ranking at one limit is the start of the ranking at any larger one. *)
Theorem ranking_produtos_ordenado {D : Type} (vs : list (venda D)) :
  (forall n : Z,
      ranking_produtos vs n
      = map (fun item => (fst item, StatsProduto.quantidade_vendida (snd item)))
          (Py.take n (ranking_completo_produtos vs)))
  /\ Permutation (ranking_completo_produtos vs) (calcular_vendas_por_produto vs)
  /\ nao_crescente
       (fun a b : string * StatsProduto.t =>
          StatsProduto.quantidade_vendida (snd a)
          <= StatsProduto.quantidade_vendida (snd b))
       (ranking_completo_produtos vs)
  /\ (forall k : Z,
        filter (fun e => StatsProduto.quantidade_vendida (snd e) =? k)
          (ranking_completo_produtos vs)
        = filter (fun e => StatsProduto.quantidade_vendida (snd e) =? k)
            (calcular_vendas_por_produto vs))
  /\ (forall n mais : nat,
        ranking_produtos vs (Z.of_nat n)
        = firstn n (ranking_produtos vs (Z.of_nat (n + mais))))
  /\ (forall n : nat,
        nao_crescente (fun a b : string * Z => snd a <= snd b)
          (ranking_produtos vs (Z.of_nat n))).
Proof.
  assert (H1 : forall n : Z,
             ranking_produtos vs n
             = map (fun item =>
                      (fst item, StatsProduto.quantidade_vendida (snd item)))
                 (Py.take n (ranking_completo_produtos vs))).
  { intros n. unfold ranking_produtos, ranking_completo_produtos.
    apply map_ext. now intros [k dados]. }
  split; [exact H1|]. split; [apply sorted_reverse_perm|].
  split; [apply ranking_completo_produtos_ordem|]. split; [|split].
  - intros k. apply sorted_reverse_filter_geral.
    intros x y Hx Hy. apply Z.eqb_eq in Hx, Hy. apply Z.ltb_ge. lia.
  - intros n mais.
    rewrite (ranking_produtos_take vs (Z.of_nat n) (Z.of_nat mais)) by lia.
    now rewrite take_of_nat, Nat2Z.inj_add.
  - intros n. rewrite H1. unfold nao_crescente.
    apply StronglySorted_map. cbn [snd].
    apply StronglySorted_take, ranking_completo_produtos_ordem.
Qed.

Section RankingTamanho.

Import Py.

Ltac sf_leb_cases :=
  repeat match goal with
         | s : bool |- _ => destruct s
         end;
  simpl in *; try discriminate; try reflexivity;
  repeat match goal with
         | H : context [Z.compare ?a ?b] |- _ =>
             destruct (Z.compare_spec a b); subst
         | |- context [Z.compare ?a ?b] =>
             destruct (Z.compare_spec a b); subst
         end;
  simpl in *; try discriminate; try reflexivity; try lia;
  repeat match goal with
         | H : context [Pos.compare_cont Eq ?a ?b] |- _ =>
             change (Pos.compare_cont Eq a b) with (Pos.compare a b) in H;
             destruct (Pos.compare_spec a b); subst
         | |- context [Pos.compare_cont Eq ?a ?b] =>
             change (Pos.compare_cont Eq a b) with (Pos.compare a b);
             destruct (Pos.compare_spec a b); subst
         end;
  simpl in *; try discriminate; try reflexivity; try lia.

Lemma SFleb_trans (x y z : spec_float) :
  SFleb x y = true -> SFleb y z = true -> SFleb x z = true.
Proof.
  unfold SFleb, SFcompare.
  destruct x as [sx|sx| |sx mx ex], y as [sy|sy| |sy my ey],
    z as [sz|sz| |sz mz ez]; intros H1 H2; sf_leb_cases.
Qed.

(** [<=] on floats is transitive. *)
Lemma float_leb_trans (x y z : float) :
  (x <=? y)%float = true -> (y <=? z)%float = true -> (x <=? z)%float = true.
Proof. rewrite !leb_spec. apply SFleb_trans. Qed.

Lemma NoDup_firstn {A : Type} (n : nat) (l : list A) :
  NoDup l -> NoDup (firstn n l).
Proof.
  intros H. rewrite <- (firstn_skipn n l) in H.
  now apply NoDup_app_remove_r in H.
Qed.

Lemma In_firstn {A : Type} (k : nat) (l : list A) (a : A) :
  In a (firstn k l) -> In a l.
Proof.
  intros H. rewrite <- (firstn_skipn k l). apply in_or_app. now left.
Qed.

Lemma take_incl {A : Type} (n : Z) (l : list A) (a : A) :
  In a (take n l) -> In a l.
Proof. unfold take. destruct (n <? 0); apply In_firstn. Qed.

Lemma NoDup_take {A : Type} (n : Z) (l : list A) :
  NoDup l -> NoDup (take n l).
Proof. unfold take. destruct (n <? 0); apply NoDup_firstn. Qed.

Context {D : Type}.

Lemma ranking_completo_chaves (vs : list (venda D)) :
  Permutation (map fst (ranking_completo vs)) (distintos (map vendedor vs)).
Proof.
  unfold ranking_completo.
  rewrite (Permutation_map fst (sorted_reverse_perm _ _ _)).
  now rewrite calcular_vendas_por_vendedor_chaves.
Qed.

Lemma ranking_completo_produtos_chaves (vs : list (venda D)) :
  Permutation (map fst (ranking_completo_produtos vs))
    (distintos (map produto vs)).
Proof.
  unfold ranking_completo_produtos.
  rewrite (Permutation_map fst (sorted_reverse_perm _ _ _)).
  rewrite calcular_vendas_por_produto_entradas, map_map. cbn.
  now rewrite map_id.
Qed.

Lemma ranking_vendedores_completo (vs : list (venda D)) (n : Z) :
  ranking_vendedores vs n
  = map (fun item => (fst item, StatsVendedor.total_vendas (snd item)))
      (take n (ranking_completo vs)).
Proof.
  unfold ranking_vendedores, ranking_completo.
  apply map_ext. now intros [k dados].
Qed.

Lemma ranking_produtos_completo (vs : list (venda D)) (n : Z) :
  ranking_produtos vs n
  = map (fun item => (fst item, StatsProduto.quantidade_vendida (snd item)))
      (take n (ranking_completo_produtos vs)).
Proof.
  unfold ranking_produtos, ranking_completo_produtos.
  apply map_ext. now intros [k dados].
Qed.

(** The length of a ranking cut at [n]. *)
Lemma rankings_comprimento (vs : list (venda D)) (n : nat) :
  List.length (ranking_vendedores vs (Z.of_nat n))
  = Nat.min n (List.length (distintos (map vendedor vs)))
  /\ List.length (ranking_produtos vs (Z.of_nat n))
     = Nat.min n (List.length (distintos (map produto vs))).
Proof.
  rewrite ranking_vendedores_completo, ranking_produtos_completo.
  rewrite !take_of_nat. split.
  - rewrite length_map, length_firstn. f_equal. rewrite <- (length_map fst).
    apply Permutation_length, ranking_completo_chaves.
  - rewrite length_map, length_firstn. f_equal. rewrite <- (length_map fst).
    apply Permutation_length, ranking_completo_produtos_chaves.
Qed.

End RankingTamanho.

(** X8. A ranking asked with the limit [n] has [n] entries, or as many as
    there are sellers (products) when these are fewer: a limit beyond the
    number of keys gives them all, and the limit 0 gives none.  No seller
    (product) appears twice, and each entry pairs a key of the aggregation
    with the figure that aggregation holds for it. *)
Theorem rankings_tamanho {D : Type} (vs : list (venda D)) (n : nat) :
  List.length (ranking_vendedores vs (Z.of_nat n))
  = Nat.min n (List.length (distintos (map vendedor vs)))
  /\ List.length (ranking_produtos vs (Z.of_nat n))
     = Nat.min n (List.length (distintos (map produto vs)))
  /\ NoDup (map fst (ranking_vendedores vs (Z.of_nat n)))
  /\ NoDup (map fst (ranking_produtos vs (Z.of_nat n)))
  /\ (forall k total,
        In (k, total) (ranking_vendedores vs (Z.of_nat n)) ->
        exists dados,
          In (k, dados) (calcular_vendas_por_vendedor vs)
          /\ StatsVendedor.total_vendas dados = total)
  /\ (forall k unidades,
        In (k, unidades) (ranking_produtos vs (Z.of_nat n)) ->
        exists dados,
          In (k, dados) (calcular_vendas_por_produto vs)
          /\ StatsProduto.quantidade_vendida dados = unidades).
Proof.
  rewrite ranking_vendedores_completo, ranking_produtos_completo.
  rewrite !take_of_nat.
  split; [|split; [|split; [|split; [|split]]]].
  - rewrite length_map, length_firstn. f_equal. rewrite <- (length_map fst).
    apply Permutation_length, ranking_completo_chaves.
  - rewrite length_map, length_firstn. f_equal. rewrite <- (length_map fst).
    apply Permutation_length, ranking_completo_produtos_chaves.
  - rewrite map_map. cbn [fst]. rewrite <- firstn_map. apply NoDup_firstn.
    eapply Permutation_NoDup;
      [symmetry; apply ranking_completo_chaves|apply distintos_NoDup].
  - rewrite map_map. cbn [fst]. rewrite <- firstn_map. apply NoDup_firstn.
    eapply Permutation_NoDup;
      [symmetry; apply ranking_completo_produtos_chaves|apply distintos_NoDup].
  - intros k total H. apply in_map_iff in H as ([k' dados] & E & H).
    injection E as <- <-. exists dados. split; [|reflexivity].
    apply In_firstn in H. unfold ranking_completo in H.
    exact (Permutation_in _ (sorted_reverse_perm _ _ _) H).
  - intros k total H. apply in_map_iff in H as ([k' dados] & E & H).
    injection E as <- <-. exists dados. split; [|reflexivity].
    apply In_firstn in H. unfold ranking_completo_produtos in H.
    exact (Permutation_in _ (sorted_reverse_perm _ _ _) H).
Qed.

(** X9. When no seller total is NaN, [ranking_vendedores] is in
    non-increasing order of totals: the total of each entry is at least
    the total of every later entry, so the first entry holds a largest
    total. *)
Theorem ranking_vendedores_sem_nan {D : Type} (vs : list (venda D)) (n : Z) :
  Forall (fun e => is_nan (StatsVendedor.total_vendas (snd e)) = false)
    (calcular_vendas_por_vendedor vs) ->
  nao_crescente (fun a b : string * float => (snd a <=? snd b)%float = true)
    (ranking_vendedores vs n).
Proof.
  intros Hnan. rewrite ranking_vendedores_completo. unfold nao_crescente.
  apply StronglySorted_map. cbn [snd]. apply StronglySorted_take.
  apply Sorted_StronglySorted.
  - intros a b c Hab Hbc. now apply (float_leb_trans _ _ _ Hbc Hab).
  - eapply Sorted_Forall_impl
      with (P := fun e => is_nan (StatsVendedor.total_vendas (snd e)) = false);
      [| | apply (sorted_reverse_decrescente
                    (fun item : string * StatsVendedor.t =>
                       StatsVendedor.total_vendas (snd item)))].
    + intros a b Ha Hb H. now apply float_leb_of_not_ltb.
    + eapply Permutation_Forall; [symmetry; apply sorted_reverse_perm|].
      exact Hnan.
Qed.

Lemma ranking_vendedores_sem_nan_witness :
  let vs := vendas (RelatorioFinalEdu.executar inicial exemplo) in
  forallb (fun e => negb (is_nan (StatsVendedor.total_vendas (snd e))))
    (calcular_vendas_por_vendedor vs) = true
  /\ ranking_vendedores vs 5
     = [("Maria Silva"%string, 7750%float);
        ("Carlos Andrade"%string, 1599.5%float);
        ("Ana Pereira"%string, 850%float)]
  /\ nao_crescente (fun a b : string * float => (snd a <=? snd b)%float = true)
       (ranking_vendedores vs 5).
Proof.
  cbv zeta. split; [vm_compute; reflexivity|].
  split; [vm_compute; reflexivity|].
  apply ranking_vendedores_sem_nan.
  apply Forall_forall. intros e He.
  assert (Hb : forallb
                 (fun e => negb (is_nan (StatsVendedor.total_vendas (snd e))))
                 (calcular_vendas_por_vendedor
                    (vendas (RelatorioFinalEdu.executar inicial exemplo)))
               = true) by (vm_compute; reflexivity).
  rewrite forallb_forall in Hb. apply negb_true_iff, Hb, He.
Defined.

(** ** The general report and the report of one seller, field by field *)

Section RelatoriosMais.

Import Py.

Context {D : Type}.

Lemma string_append_assoc (a b c : string) :
  ((a ++ b) ++ c = a ++ (b ++ c))%string.
Proof. induction a as [|x a IH]; simpl; [reflexivity|now rewrite IH]. Qed.

Lemma contem_refl (s : string) : contem s s.
Proof.
  exists EmptyString, EmptyString. simpl.
  induction s as [|x s IH]; simpl; [reflexivity|now rewrite <- IH].
Qed.

Lemma contem_trans (a b c : string) : contem a b -> contem b c -> contem a c.
Proof.
  intros (p & s & ->) (p' & s' & ->).
  exists (p' ++ p)%string, (s ++ s')%string.
  now rewrite !string_append_assoc.
Qed.

Lemma lower_char_idempotent (c : ascii) :
  lower_char (lower_char c) = lower_char c.
Proof. destruct c as [[] [] [] [] [] [] [] []]; reflexivity. Qed.

Lemma lower_idempotent (s : string) : lower (lower s) = lower s.
Proof.
  induction s as [|c s IH]; simpl; [reflexivity|].
  now rewrite lower_char_idempotent, IH.
Qed.

Lemma fold_left_soma_de {A : Type} (f : A -> Z) (g : list A) (q : Z) :
  fold_left (fun acc a => acc + f a) g q = q + soma_de f g.
Proof.
  revert q. unfold soma_de. induction g as [|a g IH]; intros q; simpl;
    [lia|]. rewrite IH. lia.
Qed.

Lemma produtos_vendidos_entradas (l : list (venda D)) :
  fold_left
    (fun d v => dict_update 0 (fun q => q + quantidade v) (produto v) d) l []
  = map (fun k => (k, soma_de quantidade (grupo produto k l)))
      (distintos (map produto l)).
Proof.
  rewrite (dict_fold_spec (@produto D) 0 (fun v q => q + quantidade v) l).
  apply map_ext. intros k. f_equal.
  now rewrite (fold_left_soma_de quantidade).
Qed.

Lemma gerar_relatorio_vendedor_ext (vs : list (venda D)) (q1 q2 : string) :
  lower q1 = lower q2 ->
  gerar_relatorio_vendedor vs q1 = gerar_relatorio_vendedor vs q2.
Proof.
  intros H. unfold gerar_relatorio_vendedor.
  assert (E : filter (corresponde q1) vs = filter (corresponde q2) vs).
  { apply filter_ext. intros v. unfold corresponde. now rewrite H. }
  now rewrite E.
Qed.

Lemma relatorio_vendedor_por_trecho_aux (vs : list (venda D))
  (q : string) (r : RelatorioVendedor.t D) :
  gerar_relatorio_vendedor vs q = Some r ->
  RelatorioVendedor.lista_vendas r = filter (corresponde q) vs
  /\ exists p, In p vs /\ vendedor_contem q p.
Proof.
  intros Hr. pose proof (gerar_relatorio_vendedor_cases vs q) as Hc.
  destruct (filter (corresponde q) vs) as [|p resto] eqn:Ef; [congruence|].
  destruct Hc as (r' & Hr' & _ & Hl & _).
  assert (r' = r) by congruence. subst r'. split; [exact Hl|].
  exists p.
  assert (Hin : In p (filter (corresponde q) vs)) by (rewrite Ef; now left).
  apply filter_In in Hin as [Hin Hm]. split; [exact Hin|].
  now apply corresponde_spec.
Qed.

End RelatoriosMais.

(** X10. [gerar_relatorio_geral] returns [None] exactly on the empty
    ledger.  Otherwise the report counts the sales of the ledger, at least
    one; its two rankings have five entries, or as many as there are
    sellers (products) when these are fewer; and its best month is never
    the sentinel: it is an entry of the month map of the report.  Both
    variants, [mes] being how the variant reads the month. *)
Theorem relatorio_geral_campos {D : Type} (mes : D -> string)
  (vs : list (venda D)) :
  (gerar_relatorio_geral mes vs = None <-> vs = [])
  /\ (forall r,
        gerar_relatorio_geral mes vs = Some r ->
        RelatorioGeral.total_transacoes r = Z.of_nat (List.length vs)
        /\ 1 <= RelatorioGeral.total_transacoes r
        /\ RelatorioGeral.total_vendas r = calcular_total_vendas vs
        /\ List.length (RelatorioGeral.ranking_vendedores r)
           = Nat.min 5 (List.length (distintos (map vendedor vs)))
        /\ List.length (RelatorioGeral.ranking_produtos r)
           = Nat.min 5 (List.length (distintos (map produto vs)))
        /\ (1 <= List.length (RelatorioGeral.estatisticas_vendedor r))%nat
        /\ exists m total,
            RelatorioGeral.melhor_mes r = (Some m, total)
            /\ In (m, total) (RelatorioGeral.vendas_por_mes r)).
Proof.
  split.
  - destruct vs; simpl; split; congruence.
  - intros r Hr. destruct vs as [|v vs]; [discriminate|].
    unfold gerar_relatorio_geral in Hr. injection Hr as <-.
    cbn [RelatorioGeral.total_transacoes RelatorioGeral.total_vendas
         RelatorioGeral.ranking_vendedores RelatorioGeral.ranking_produtos
         RelatorioGeral.estatisticas_vendedor RelatorioGeral.melhor_mes
         RelatorioGeral.vendas_por_mes].
    destruct (rankings_comprimento (v :: vs) 5) as (H1 & H2).
    repeat split; trivial.
    + cbn [List.length]. lia.
    + rewrite <- (length_map fst), calcular_vendas_por_vendedor_chaves.
      destruct (distintos (map vendedor (v :: vs))) eqn:E; [|cbn; lia].
      assert (Hin : In (vendedor v) (distintos (map vendedor (v :: vs))))
        by (apply distintos_In; now left).
      rewrite E in Hin. destruct Hin.
    + pose proof (melhor_mes_maior mes (v :: vs)) as Hm.
      unfold maior_mes in Hm.
      destruct (calcular_vendas_por_mes mes (v :: vs)) as [|e l] eqn:E.
      * apply calcular_vendas_por_mes_nil in E. discriminate.
      * destruct Hm as (m & total & Hm & Hin & _). now exists m, total.
Qed.

(** X11. In the report of one seller the count is the number of sales
    listed, at least one; the total is [sum] of their totals; the average
    is the total divided by the count, never the alternative [0.0]; and
    [produtos_vendidos] has one entry per product of the listed sales, in
    the order of first appearance, with the sum of the quantities of that
    product.  These quantities add up to the units of the listed
    sales. *)
Theorem relatorio_vendedor_campos {D : Type} (vs : list (venda D))
  (consulta : string) (r : RelatorioVendedor.t D) :
  gerar_relatorio_vendedor vs consulta = Some r ->
  let lista := RelatorioVendedor.lista_vendas r in
  RelatorioVendedor.quantidade_transacoes r = Z.of_nat (List.length lista)
  /\ 1 <= RelatorioVendedor.quantidade_transacoes r
  /\ RelatorioVendedor.total_vendas r = Py.sum (map valor_total lista)
  /\ RelatorioVendedor.valor_medio_transacao r
     = (RelatorioVendedor.total_vendas r
        / Py.float_of_len (RelatorioVendedor.quantidade_transacoes r))%float
  /\ RelatorioVendedor.produtos_vendidos r
     = map (fun k => (k, soma_de quantidade (grupo produto k lista)))
         (distintos (map produto lista))
  /\ soma_de snd (RelatorioVendedor.produtos_vendidos r)
     = soma_de quantidade lista.
Proof.
  unfold gerar_relatorio_vendedor.
  destruct (filter (corresponde consulta) vs) as [|p resto] eqn:E;
    [discriminate|].
  assert (Hlen : (1 <= List.length (p :: resto))%nat) by (cbn; lia).
  remember (p :: resto) as l eqn:El. clear El.
  intros H. injection H as <-. cbv zeta.
  cbn [RelatorioVendedor.lista_vendas RelatorioVendedor.quantidade_transacoes
       RelatorioVendedor.total_vendas RelatorioVendedor.valor_medio_transacao
       RelatorioVendedor.produtos_vendidos].
  rewrite produtos_vendidos_entradas.
  split; [reflexivity|]. split; [lia|].
  split; [reflexivity|]. split; [|split; [reflexivity|]].
  - unfold media.
    destruct (Z.ltb_spec 0 (Z.of_nat (List.length l))); [reflexivity|lia].
  - rewrite soma_de_map. cbn [snd]. apply soma_de_grupos.
Qed.

Lemma relatorio_vendedor_campos_witness :
  let vs := vendas (RelatorioFinalEdu.executar inicial exemplo) in
  exists r,
    gerar_relatorio_vendedor vs "silva" = Some r
    /\ RelatorioVendedor.produtos_vendidos r
       = [("Notebook Dell"%string, 2); ("Teclado"%string, 3)]
    /\ soma_de snd (RelatorioVendedor.produtos_vendidos r)
       = soma_de quantidade (RelatorioVendedor.lista_vendas r).
Proof.
  cbv zeta.
  destruct (gerar_relatorio_vendedor
              (vendas (RelatorioFinalEdu.executar inicial exemplo)) "silva")
    as [r|] eqn:E; [|vm_compute in E; discriminate E].
  exists r. split; [reflexivity|].
  split.
  - vm_compute in E. injection E as <-. reflexivity.
  - apply (relatorio_vendedor_campos _ _ _ E).
Defined.

(** X12. Searching a seller.  The name of a seller, as it is stored,
    always finds a report, which lists every sale stored under that name.
    A query contained in another, letter case apart, finds at least the
    sales the other finds.  And the letter case of the query does not
    matter: queries that lower-case to the same text, such as a query and
    its lower-cased form, give the same report. *)
Theorem busca_de_vendedor {D : Type} (vs : list (venda D)) :
  (forall v, In v vs ->
     exists r,
       gerar_relatorio_vendedor vs (vendedor v) = Some r
       /\ forall u, In u vs -> vendedor u = vendedor v ->
                    In u (RelatorioVendedor.lista_vendas r))
  /\ (forall q1 q2 r2,
        contem (Py.lower q1) (Py.lower q2) ->
        gerar_relatorio_vendedor vs q2 = Some r2 ->
        exists r1,
          gerar_relatorio_vendedor vs q1 = Some r1
          /\ incl (RelatorioVendedor.lista_vendas r2)
                  (RelatorioVendedor.lista_vendas r1))
  /\ (forall q1 q2,
        Py.lower q1 = Py.lower q2 ->
        gerar_relatorio_vendedor vs q1 = gerar_relatorio_vendedor vs q2)
  /\ (forall q,
        gerar_relatorio_vendedor vs (Py.lower q)
        = gerar_relatorio_vendedor vs q).
Proof.
  assert (Hsome : forall q v,
             In v vs -> vendedor_contem q v ->
             exists r, gerar_relatorio_vendedor vs q = Some r
                       /\ RelatorioVendedor.lista_vendas r
                          = filter (corresponde q) vs).
  { intros q v Hv Hm.
    pose proof (gerar_relatorio_vendedor_cases vs q) as Hc.
    destruct (filter (corresponde q) vs) as [|p resto] eqn:Ef.
    - assert (Hin : In v (filter (corresponde q) vs))
        by (apply filter_In; split; [exact Hv|now apply corresponde_spec]).
      rewrite Ef in Hin. destruct Hin.
    - destruct Hc as (r & Hr & _ & Hl & _). exists r. now split. }
  split; [|split; [|split]].
  - intros v Hv.
    destruct (Hsome (vendedor v) v Hv (contem_refl _)) as (r & Hr & Hl).
    exists r. split; [exact Hr|]. intros u Hu E. rewrite Hl.
    apply filter_In. split; [exact Hu|].
    apply corresponde_spec. unfold vendedor_contem. rewrite E.
    apply contem_refl.
  - intros q1 q2 r2 Hq H2.
    destruct (relatorio_vendedor_por_trecho_aux vs q2 r2 H2) as (Hl2 & p & Hp & Hm).
    destruct (Hsome q1 p Hp (contem_trans _ _ _ Hq Hm)) as (r1 & Hr1 & Hl1).
    exists r1. split; [exact Hr1|]. intros u Hu.
    rewrite Hl2 in Hu. rewrite Hl1.
    apply filter_In in Hu as [Hu Hc]. apply filter_In. split; [exact Hu|].
    apply corresponde_spec. apply corresponde_spec in Hc.
    exact (contem_trans _ _ _ Hq Hc).
  - intros q1 q2. apply gerar_relatorio_vendedor_ext.
  - intros q. apply gerar_relatorio_vendedor_ext, lower_idempotent.
Qed.

(** ** Dates: the text, the date and the month *)

Section Datas.

Import Py.

Lemma digit_char_code (n : Z) :
  N_of_ascii (digit_char n) = Z.to_N (48 + n mod 10).
Proof.
  unfold digit_char. apply N_ascii_embedding.
  pose proof (Z.mod_pos_bound n 10 ltac:(lia)). lia.
Qed.

Lemma digit_char_val (n : Z) : digit_val (digit_char n) = n mod 10.
Proof.
  unfold digit_val. rewrite digit_char_code.
  pose proof (Z.mod_pos_bound n 10 ltac:(lia)). lia.
Qed.

Lemma digit_char_is_digit (n : Z) : is_digit (digit_char n) = true.
Proof.
  unfold is_digit. rewrite digit_char_code.
  pose proof (Z.mod_pos_bound n 10 ltac:(lia)).
  apply andb_true_intro. split; apply N.leb_le; lia.
Qed.


(** The month is the first seven characters of that text. *)
Lemma strftime_Ym_prefixo (d : datetime) :
  1000 <= year d -> strftime_Ym d = slice_prefix 7 (strftime_Ymd d).
Proof.
  intros H. unfold strftime_Ym, strftime_Ymd. now rewrite strftime_Y_pad4.
Qed.

Lemma strftime_Ymd_truthy (d : datetime) : truthy (strftime_Ymd d) = true.
Proof.
  unfold strftime_Ymd, strftime_Y.
  destruct (year d <? 10); [reflexivity|].
  destruct (year d <? 100); [reflexivity|].
  now destruct (year d <? 1000).
Qed.

Lemma strftime_Ym_truthy (d : datetime) : truthy (strftime_Ym d) = true.
Proof.
  unfold strftime_Ym, strftime_Y.
  destruct (year d <? 10); [reflexivity|].
  destruct (year d <? 100); [reflexivity|].
  now destruct (year d <? 1000).
Qed.

Lemma strptime_strftime (d : datetime) :
  date_ok (year d) (month d) (day d) = true -> 1000 <= year d <= 9999 ->
  strptime_Ymd (strftime_Ymd d) = Some d.
Proof.
  intros Hok Hy. rewrite strftime_Ymd_texto_iso by lia.
  rewrite strptime_Ymd_texto_iso by apply digit_char_is_digit.
  unfold quatro_digitos, dois_digitos. rewrite !digit_char_val.
  pose proof (days_in_month_le (year d) (month d)) as Hdim.
  pose proof Hok as Hok'. unfold date_ok in Hok'.
  apply andb_prop in Hok' as [Hok' H5]. apply andb_prop in Hok' as [Hok' H4].
  apply andb_prop in Hok' as [Hok' H3]. apply andb_prop in Hok' as [H1 H2].
  apply Z.leb_le in H1, H2, H3, H4, H5.
  replace (1000 * ((year d / 1000) mod 10) + 100 * ((year d / 100) mod 10)
           + 10 * ((year d / 10) mod 10) + year d mod 10) with (year d)
    by (Z.div_mod_to_equations; lia).
  replace (10 * ((month d / 10) mod 10) + month d mod 10) with (month d)
    by (Z.div_mod_to_equations; lia).
  replace (10 * ((day d / 10) mod 10) + day d mod 10) with (day d)
    by (Z.div_mod_to_equations; lia).
  rewrite Hok. now destruct d.
Qed.


End Datas.

(** The month of a date comes before the month of another one. *)
Definition mes_anterior (d1 d2 : Py.datetime) : bool :=
  (Py.year d1 <? Py.year d2)
  || ((Py.year d1 =? Py.year d2) && (Py.month d1 <? Py.month d2)).

(** Two dates are of the same month of the same year. *)
Definition mesmo_mes (d1 d2 : Py.datetime) : bool :=
  (Py.year d1 =? Py.year d2) && (Py.month d1 =? Py.month d2).

Section MesesNoCalendario.

Import Py.

Lemma ascii_compare_digit (a b : Z) :
  Ascii.compare (digit_char a) (digit_char b) = (a mod 10 ?= b mod 10).
Proof.
  unfold Ascii.compare. rewrite !digit_char_code.
  pose proof (Z.mod_pos_bound a 10 ltac:(lia)).
  pose proof (Z.mod_pos_bound b 10 ltac:(lia)).
  rewrite Z2N.inj_compare by lia.
  apply Z.add_compare_mono_l.
Qed.

Lemma quatro_algarismos (y : Z) :
  0 <= y <= 9999 ->
  exists a b c d,
    (y / 1000) mod 10 = a /\ (y / 100) mod 10 = b
    /\ (y / 10) mod 10 = c /\ y mod 10 = d
    /\ 0 <= a <= 9 /\ 0 <= b <= 9 /\ 0 <= c <= 9 /\ 0 <= d <= 9
    /\ y = 1000 * a + 100 * b + 10 * c + d.
Proof.
  intros H. do 4 eexists. repeat (split; [reflexivity|]).
  Z.div_mod_to_equations. lia.
Qed.

Lemma dois_algarismos (m : Z) :
  0 <= m <= 99 ->
  exists a b,
    (m / 10) mod 10 = a /\ m mod 10 = b
    /\ 0 <= a <= 9 /\ 0 <= b <= 9 /\ m = 10 * a + b.
Proof.
  intros H. do 2 eexists. repeat (split; [reflexivity|]).
  Z.div_mod_to_equations. lia.
Qed.

(** The texts of two months compare as their months do in the
    calendar. *)
Lemma strftime_Ym_compare (d1 d2 : datetime) :
  1000 <= year d1 <= 9999 -> 1000 <= year d2 <= 9999 ->
  0 <= month d1 <= 99 -> 0 <= month d2 <= 99 ->
  String.compare (strftime_Ym d1) (strftime_Ym d2)
  = match year d1 ?= year d2 with
    | Eq => month d1 ?= month d2
    | r => r
    end.
Proof.
  intros Hy1 Hy2 Hm1 Hm2.
  unfold strftime_Ym. rewrite !strftime_Y_pad4 by lia. unfold pad4, pad2.
  cbn [String.append String.compare]. rewrite !ascii_compare_digit.
  change (Ascii.compare "-" "-") with Eq. cbv iota.
  assert (Hy1' : 0 <= year d1 <= 9999) by lia.
  assert (Hy2' : 0 <= year d2 <= 9999) by lia. clear Hy1 Hy2.
  destruct (quatro_algarismos _ Hy1')
    as (a1 & b1 & c1 & e1 & -> & -> & -> & -> & ? & ? & ? & ? & ->).
  destruct (quatro_algarismos _ Hy2')
    as (a2 & b2 & c2 & e2 & -> & -> & -> & -> & ? & ? & ? & ? & ->).
  destruct (dois_algarismos _ Hm1) as (p1 & q1 & -> & -> & ? & ? & ->).
  destruct (dois_algarismos _ Hm2) as (p2 & q2 & -> & -> & ? & ? & ->).
  repeat match goal with
         | |- context [match ?a ?= ?b with _ => _ end] =>
             destruct (Z.compare_spec a b)
         end;
    try reflexivity; symmetry;
    first [apply Z.compare_eq_iff | apply Z.compare_lt_iff
          | apply Z.compare_gt_iff | idtac]; try lia.
Qed.

Lemma strftime_Ym_ltb (d1 d2 : datetime) :
  1000 <= year d1 <= 9999 -> 1000 <= year d2 <= 9999 ->
  0 <= month d1 <= 99 -> 0 <= month d2 <= 99 ->
  (strftime_Ym d1 <? strftime_Ym d2)%string = mes_anterior d1 d2.
Proof.
  intros Hy1 Hy2 Hm1 Hm2. unfold String.ltb, mes_anterior.
  rewrite strftime_Ym_compare by assumption.
  destruct (Z.compare_spec (year d1) (year d2)) as [E|E|E].
  - rewrite E, Z.ltb_irrefl, Z.eqb_refl. cbn [orb andb].
    unfold Z.ltb. now destruct (month d1 ?= month d2).
  - apply Z.ltb_lt in E. now rewrite E.
  - destruct (Z.ltb_spec (year d1) (year d2)); [lia|].
    destruct (Z.eqb_spec (year d1) (year d2)); [lia|reflexivity].
Qed.

Lemma strftime_Ym_eqb (d1 d2 : datetime) :
  1000 <= year d1 <= 9999 -> 1000 <= year d2 <= 9999 ->
  0 <= month d1 <= 99 -> 0 <= month d2 <= 99 ->
  (strftime_Ym d1 =? strftime_Ym d2)%string = mesmo_mes d1 d2.
Proof.
  intros Hy1 Hy2 Hm1 Hm2. unfold mesmo_mes.
  pose proof (strftime_Ym_compare d1 d2 Hy1 Hy2 Hm1 Hm2) as Hc.
  destruct (String.eqb_spec (strftime_Ym d1) (strftime_Ym d2)) as [E|E].
  - rewrite E in Hc.
    rewrite string_compare_refl in Hc.
    destruct (Z.compare_spec (year d1) (year d2)); try discriminate.
    symmetry in Hc. apply Z.compare_eq_iff in Hc.
    symmetry. apply andb_true_intro. split; apply Z.eqb_eq; assumption.
  - destruct (Z.eqb_spec (year d1) (year d2)) as [Ey|]; [|reflexivity].
    destruct (Z.eqb_spec (month d1) (month d2)) as [Em|]; [|reflexivity].
    exfalso. apply E. apply String.compare_eq_iff. rewrite Hc, Ey, Em.
    now rewrite !Z.compare_refl.
Qed.

End MesesNoCalendario.

Section FormatoEData.

Import Py.

(** The texts the date test of the first variant lets through. *)
Lemma formato_data_forma (s : string) :
  AnaliseVendasEdu.formato_data s = true ->
  exists y1 y2 y3 y4 m1 m2 d1 d2, s = texto_iso y1 y2 y3 y4 m1 m2 d1 d2.
Proof.
  unfold AnaliseVendasEdu.formato_data, len, char_at. intros H.
  apply andb_prop in H as [Hl Hc]. apply Z.eqb_eq in Hl.
  destruct s as [|y1 [|y2 [|y3 [|y4 [|c4 [|m1 [|m2 [|c7 [|d1 [|d2 [|x r]]]]]]]]]]];
    cbn [String.length] in Hl; try lia.
  cbn in Hc. apply andb_prop in Hc as [H4 H7].
  apply Ascii.eqb_eq in H4, H7. subst.
  now exists y1, y2, y3, y4, m1, m2, d1, d2.
Qed.





End FormatoEData.

Section DataNasDuasVariantes.

Import Py.

Lemma strptime_Ymd_date_ok (s : string) (d : datetime) :
  strptime_Ymd s = Some d -> date_ok (year d) (month d) (day d) = true.
Proof.
  unfold strptime_Ymd.
  destruct (match_Ymd s) as [[[[y m] dd] [|? ?]]|]; try discriminate.
  destruct (date_ok y m dd) eqn:E; [|discriminate].
  intros H. injection H as <-. exact E.
Qed.


End DataNasDuasVariantes.

Section DatasGuardadas.

Import Py.

Lemma StronglySorted_impl {A : Type} (R R' : A -> A -> Prop) (l : list A) :
  (forall a b, In a l -> In b l -> R a b -> R' a b) ->
  StronglySorted R l -> StronglySorted R' l.
Proof.
  induction l as [|x l IH]; intros Himp Hs; [constructor|].
  apply StronglySorted_inv in Hs as [Hs Hx]. constructor.
  - apply IH; [|exact Hs]. intros a b Ha Hb. apply Himp; now right.
  - rewrite Forall_forall in *. intros b Hb.
    apply Himp; [now left|now right|now apply Hx].
Qed.


Lemma relatorio_chamar_data (self : RelatorioFinalEdu.estado) (c : chamada)
  (st' : RelatorioFinalEdu.estado) (v : venda RelatorioFinalEdu.data_venda) :
  RelatorioFinalEdu.chamar self c = (st', Returned (Some v)) ->
  strptime_Ymd (arg_data c) = Some (RelatorioFinalEdu.data_obj (data v))
  /\ RelatorioFinalEdu.data_str (data v)
     = strftime_Ymd (RelatorioFinalEdu.data_obj (data v)).
Proof.
  intros H. split.
  - destruct (relatorio_registro _ _ _ _ H)
      as (_ & _ & _ & _ & _ & _ & _ & _ & Hd). exact Hd.
  - revert H. unfold RelatorioFinalEdu.chamar,
      RelatorioFinalEdu.registrar_venda.
    repeat match goal with
           | |- context [if ?b then _ else _] => destruct b; [discriminate|]
           end.
    destruct (strptime_Ymd _); [|discriminate].
    destruct (mul_int_float _ _); [|discriminate].
    intros E. inversion E. reflexivity.
Qed.

(** The text stored with a date of a year of four digits is the text
    [strftime] writes for it. *)
Lemma relatorio_data_str (v : venda RelatorioFinalEdu.data_venda) :
  relatorio_bem_formada v ->
  1000 <= year (RelatorioFinalEdu.data_obj (data v)) ->
  RelatorioFinalEdu.data_str (data v)
  = strftime_Ymd (RelatorioFinalEdu.data_obj (data v)).
Proof.
  intros (_ & _ & _ & _ & _ & _ & _ & Hs) Hy.
  rewrite strftime_Ymd_texto_iso by exact Hy. now apply Hs.
Qed.

Lemma relatorio_executar_Forall (P : venda RelatorioFinalEdu.data_venda -> Prop)
  (cs : list chamada) :
  (forall v, relatorio_bem_formada v -> P v) ->
  Forall P (vendas (RelatorioFinalEdu.executar inicial cs)).
Proof.
  intros HP. eapply Forall_impl; [exact HP|].
  apply relatorio_executar_bem_formadas. constructor.
Qed.

Lemma relatorio_bem_formada_limites
  (v : venda RelatorioFinalEdu.data_venda) :
  relatorio_bem_formada v ->
  1 <= year (RelatorioFinalEdu.data_obj (data v)) <= 9999
  /\ 1 <= month (RelatorioFinalEdu.data_obj (data v)) <= 12.
Proof.
  intros (_ & _ & _ & _ & _ & Hok & Hy & _).
  unfold date_ok in Hok.
  apply andb_prop in Hok as [Hok _]. apply andb_prop in Hok as [Hok _].
  apply andb_prop in Hok as [Hok H3]. apply andb_prop in Hok as [H1 H2].
  apply Z.leb_le in H1, H2, H3. lia.
Qed.

End DatasGuardadas.

(** X13. A date and its text.  A date of the calendar of a year from
    1000 to 9999, written with [strftime] and read again with [strptime],
    is the same date; so the text written for a date that was read from
    any accepted text reads as that date.  Hence in the second variant the
    text stored with a sale reads as the date stored with it, and a call
    made again with the stored text in the place of the date is accepted
    and stores the same date, the same texts and the same total. *)
Theorem data_ida_e_volta :
  (forall d : Py.datetime,
     Py.date_ok (Py.year d) (Py.month d) (Py.day d) = true ->
     1000 <= Py.year d <= 9999 ->
     Py.strptime_Ymd (Py.strftime_Ymd d) = Some d)
  /\ (forall (s : string) (d : Py.datetime),
        Py.strptime_Ymd s = Some d -> 1000 <= Py.year d ->
        Py.strptime_Ymd (Py.strftime_Ymd d) = Some d)
  /\ (forall cs : list chamada,
        Forall
          (fun v =>
             1000 <= Py.year (RelatorioFinalEdu.data_obj (data v)) ->
             Py.strptime_Ymd (RelatorioFinalEdu.data_str (data v))
             = Some (RelatorioFinalEdu.data_obj (data v)))
          (vendas (RelatorioFinalEdu.executar inicial cs)))
  /\ (forall (self st' : RelatorioFinalEdu.estado) (c : chamada)
        (v : venda RelatorioFinalEdu.data_venda),
        RelatorioFinalEdu.chamar self c = (st', Py.Returned (Some v)) ->
        1000 <= Py.year (RelatorioFinalEdu.data_obj (data v)) ->
        exists v',
          RelatorioFinalEdu.chamar st'
            (Chamada (arg_produto c) (arg_vendedor c) (arg_quantidade c)
               (arg_valor_unitario c) (RelatorioFinalEdu.data_str (data v)))
          = (Sistema (vendas st' ++ [v']) (contador_id st' + 1),
             Py.Returned (Some v'))
          /\ data v' = data v /\ produto v' = produto v
          /\ vendedor v' = vendedor v /\ valor_total v' = valor_total v).
Proof.
  assert (H1 : forall d : Py.datetime,
             Py.date_ok (Py.year d) (Py.month d) (Py.day d) = true ->
             1000 <= Py.year d <= 9999 ->
             Py.strptime_Ymd (Py.strftime_Ymd d) = Some d).
  { intros d Hok Hy. apply strptime_strftime; [exact Hok|lia]. }
  split; [exact H1|]. split; [|split].
  - intros s d Hs Hy. apply H1.
    + eapply strptime_Ymd_date_ok, Hs.
    + pose proof (strptime_Ymd_year_le _ _ Hs). lia.
  - intros cs. apply relatorio_executar_Forall.
    intros v Hv Hy. rewrite (relatorio_data_str v Hv Hy).
    pose proof Hv as (_ & _ & _ & _ & _ & Hok & Hle & _).
    apply H1; [exact Hok|lia].
  - intros self st' c v H Hy.
    pose proof (relatorio_bem_formada_nova _ _ _ _ H)
      as (_ & _ & _ & _ & _ & Hok & Hle & _).
    pose proof (proj2 (relatorio_chamar_data _ _ _ _ H)) as Hstr.
    destruct (relatorio_registro _ _ _ _ H)
      as (Hv & _ & _ & Hp & Hs & Hq & Hu & Ht & Hd).
    unfold RelatorioFinalEdu.valida, textos_presentes, quantidade_positiva,
      valor_positivo in Hv.
    apply andb_prop in Hv as [Hv _]. apply andb_prop in Hv as [Hv Hpos].
    apply andb_prop in Hv as [Htx Hqp].
    apply negb_true_iff in Hpos, Hqp.
    unfold Py.all3 in Htx. apply andb_prop in Htx as [Htx _].
    apply andb_prop in Htx as [Htp Htv].
    unfold RelatorioFinalEdu.chamar, RelatorioFinalEdu.registrar_venda.
    cbn [arg_produto arg_vendedor arg_quantidade arg_valor_unitario arg_data].
    unfold Py.all3. rewrite Htp, Htv, Hstr, Hqp, Hpos.
    rewrite H1 by (trivial; lia).
    rewrite strftime_Ymd_truthy. cbn [andb negb].
    destruct (Py.mul_int_float (arg_quantidade c) (arg_valor_unitario c))
      as [p|]; [|discriminate Ht].
    injection Ht as Ht.
    eexists. split; [reflexivity|]. cbn [data produto vendedor valor_total].
    rewrite Hp, Hs, Ht. repeat split.
    destruct (data v) as [ds dobj]. cbn in *. now subst ds.
Qed.

(** X14. The key of the month.  In the first variant the month of a
    stored sale is the first seven characters of its date text, seven
    characters with a hyphen as the fifth: the text for a date that is too
    short is never the month of a stored sale.  In the second variant,
    for a year from 1000 on, the month of a stored sale is the first seven
    characters of the date text stored with it, which is what the first
    variant would read in that text. *)
Theorem chave_do_mes (cs : list chamada) :
  Forall
    (fun v =>
       AnaliseVendasEdu.extrair_mes (data v) = Py.slice_prefix 7 (data v)
       /\ String.length (AnaliseVendasEdu.extrair_mes (data v)) = 7%nat
       /\ Py.char_at (AnaliseVendasEdu.extrair_mes (data v)) 4
          = Some "-"%char)
    (vendas (AnaliseVendasEdu.executar inicial cs))
  /\ Forall
       (fun v =>
          1000 <= Py.year (RelatorioFinalEdu.data_obj (data v)) ->
          RelatorioFinalEdu.mes_da_venda (data v)
          = Py.slice_prefix 7 (RelatorioFinalEdu.data_str (data v))
          /\ RelatorioFinalEdu.mes_da_venda (data v)
             = AnaliseVendasEdu.extrair_mes
                 (RelatorioFinalEdu.data_str (data v)))
       (vendas (RelatorioFinalEdu.executar inicial cs)).
Proof.
  split.
  - eapply Forall_impl; [|apply analise_executar_bem_formadas; constructor].
    intros v (_ & _ & _ & _ & _ & Hf).
    apply formato_data_forma in Hf
      as (y1 & y2 & y3 & y4 & m1 & m2 & d1 & d2 & ->).
    repeat split.
  - apply relatorio_executar_Forall.
    intros v Hv Hy. rewrite (relatorio_data_str v Hv Hy).
    unfold RelatorioFinalEdu.mes_da_venda, RelatorioFinalEdu.extrair_mes.
    rewrite (strftime_Ym_prefixo _ Hy), (strftime_Ymd_texto_iso _ Hy).
    split; reflexivity.
Qed.

(** X15. The months of the second variant are in the order of the
    calendar.  For two sales of a ledger, of years from 1000 on, the month
    of the one is before the month of the other, as texts, exactly when it
    is an earlier month of the calendar, and the two texts are the same
    exactly when the dates are of the same month of the same year.  So the
    month map, which is sorted by the text, lists the months from the
    earliest to the latest. *)
Theorem meses_em_ordem_cronologica (cs : list chamada)
  (v1 v2 : venda RelatorioFinalEdu.data_venda) :
  let self := RelatorioFinalEdu.executar inicial cs in
  In v1 (vendas self) -> In v2 (vendas self) ->
  1000 <= Py.year (RelatorioFinalEdu.data_obj (data v1)) ->
  1000 <= Py.year (RelatorioFinalEdu.data_obj (data v2)) ->
  (RelatorioFinalEdu.mes_da_venda (data v1)
   <? RelatorioFinalEdu.mes_da_venda (data v2))%string
  = mes_anterior (RelatorioFinalEdu.data_obj (data v1))
      (RelatorioFinalEdu.data_obj (data v2))
  /\ (RelatorioFinalEdu.mes_da_venda (data v1)
      =? RelatorioFinalEdu.mes_da_venda (data v2))%string
     = mesmo_mes (RelatorioFinalEdu.data_obj (data v1))
         (RelatorioFinalEdu.data_obj (data v2))
  /\ (Forall (fun v => 1000 <= Py.year (RelatorioFinalEdu.data_obj (data v)))
        (vendas self) ->
      StronglySorted
        (fun a b =>
           forall u1 u2, In u1 (vendas self) -> In u2 (vendas self) ->
             RelatorioFinalEdu.mes_da_venda (data u1) = fst a ->
             RelatorioFinalEdu.mes_da_venda (data u2) = fst b ->
             mes_anterior (RelatorioFinalEdu.data_obj (data u1))
               (RelatorioFinalEdu.data_obj (data u2)) = true)
        (RelatorioFinalEdu.calcular_vendas_por_mes self)).
Proof.
  intros self Hin1 Hin2 Hy1 Hy2.
  assert (Hbf : Forall relatorio_bem_formada (vendas self))
    by (apply relatorio_executar_bem_formadas; constructor).
  rewrite Forall_forall in Hbf.
  assert (Hlt : forall u1 u2, In u1 (vendas self) -> In u2 (vendas self) ->
            1000 <= Py.year (RelatorioFinalEdu.data_obj (data u1)) ->
            1000 <= Py.year (RelatorioFinalEdu.data_obj (data u2)) ->
            (RelatorioFinalEdu.mes_da_venda (data u1)
             <? RelatorioFinalEdu.mes_da_venda (data u2))%string
            = mes_anterior (RelatorioFinalEdu.data_obj (data u1))
                (RelatorioFinalEdu.data_obj (data u2))).
  { intros u1 u2 Hu1 Hu2 Ha1 Ha2.
    destruct (relatorio_bem_formada_limites _ (Hbf _ Hu1)).
    destruct (relatorio_bem_formada_limites _ (Hbf _ Hu2)).
    apply strftime_Ym_ltb; lia. }
  split; [now apply Hlt|]. split.
  - destruct (relatorio_bem_formada_limites _ (Hbf _ Hin1)).
    destruct (relatorio_bem_formada_limites _ (Hbf _ Hin2)).
    apply strftime_Ym_eqb; lia.
  - intros Hanos. rewrite Forall_forall in Hanos.
    eapply StronglySorted_impl;
      [|apply (calcular_vendas_por_mes_crescente
                 RelatorioFinalEdu.mes_da_venda (vendas self))].
    intros a b _ _ Hab u1 u2 Hu1 Hu2 E1 E2.
    rewrite <- Hlt by auto. now rewrite E1, E2.
Qed.

Lemma meses_em_ordem_cronologica_witness :
  let vs := vendas (RelatorioFinalEdu.executar inicial exemplo) in
  exists v1 v2,
    nth_error vs 0 = Some v1 /\ nth_error vs 3 = Some v2
    /\ RelatorioFinalEdu.mes_da_venda (data v1) = "2024-01"%string
    /\ RelatorioFinalEdu.mes_da_venda (data v2) = "2024-02"%string
    /\ (RelatorioFinalEdu.mes_da_venda (data v1)
        <? RelatorioFinalEdu.mes_da_venda (data v2))%string
       = mes_anterior (RelatorioFinalEdu.data_obj (data v1))
           (RelatorioFinalEdu.data_obj (data v2)).
Proof.
  cbv zeta.
  destruct (nth_error (vendas (RelatorioFinalEdu.executar inicial exemplo)) 0)
    as [v1|] eqn:E1; [|vm_compute in E1; discriminate E1].
  destruct (nth_error (vendas (RelatorioFinalEdu.executar inicial exemplo)) 3)
    as [v2|] eqn:E2; [|vm_compute in E2; discriminate E2].
  exists v1, v2. split; [reflexivity|]. split; [reflexivity|].
  pose proof (nth_error_In _ _ E1) as Hin1.
  pose proof (nth_error_In _ _ E2) as Hin2.
  assert (Hy1 : 1000 <= Py.year (RelatorioFinalEdu.data_obj (data v1)))
    by (vm_compute in E1; injection E1 as <-; vm_compute; discriminate).
  assert (Hy2 : 1000 <= Py.year (RelatorioFinalEdu.data_obj (data v2)))
    by (vm_compute in E2; injection E2 as <-; vm_compute; discriminate).
  split; [vm_compute in E1; injection E1 as <-; reflexivity|].
  split; [vm_compute in E2; injection E2 as <-; reflexivity|].
  exact (proj1 (meses_em_ordem_cronologica exemplo v1 v2 Hin1 Hin2 Hy1 Hy2)).
Defined.



(** * The texts of the reports *)

From Stdlib Require DecimalString.

(** ** Python built-ins used to write the reports

    A text printed or written is the [str] given to [print] or
    [f.write]; the bytes of a file are its UTF-8 encoding, which is not
    modelled. *)

Module PyTexto.

(** The line feed, ["\n"]. *)
Definition nl : string := String (ascii_of_N 10) EmptyString.

(** [str(n)] for an [int], as [f"{n}"] writes it. *)
Definition str_int (n : Z) : string :=
  DecimalString.NilZero.string_of_int (Z.to_int n).

(** The thousands separators of the format [","]: a comma before every
    group of three digits, counted from the right. *)
Fixpoint agrupar (digitos : list ascii) : list ascii :=
  match digitos with
  | [] => []
  | c :: r =>
      c :: (if (negb (List.length r =? 0)%nat
                && (Nat.modulo (List.length r) 3 =? 0)%nat)
            then ","%char :: agrupar r else agrupar r)
  end.

(** The hundredths nearest to a finite value [m * 2^e], ties to even. *)
Definition centesimos (m : positive) (e : Z) : Z :=
  if 0 <=? e then Zpos m * 100 * 2 ^ e
  else Py.round_half_even (Zpos m * 100) (2 ^ (- e)).

(** [f"{x:,.2f}"] for a [float]: the exact value rounded to two places,
    ties to even, the integer part grouped by thousands. *)
Definition format_2f (x : float) : string :=
  match Prim2SF x with
  | S754_nan => "nan"
  | S754_infinity s => if s then "-inf" else "inf"
  | S754_zero s => if s then "-0.00" else "0.00"
  | S754_finite s m e =>
      let n := centesimos m e in
      ((if s then "-" else "")
       ++ string_of_list_ascii
            (agrupar (list_ascii_of_string (str_int (n / 100))))
       ++ "." ++ Py.pad2 (n mod 100))%string
  end.

(** [s.replace(old, new)] for texts [old] and [new] of one character. *)
Fixpoint replace (old new : ascii) (s : string) : string :=
  match s with
  | EmptyString => EmptyString
  | String c s' =>
      String (if Ascii.eqb c old then new else c) (replace old new s')
  end.

(** [c * n] for a text [c] of one character. *)
Definition mul_str (c : ascii) (n : nat) : string :=
  string_of_list_ascii (repeat c n).

(** [f"{s:<n}"]: [s] filled with spaces on the right up to [n]
    characters. *)
Definition ljust (n : nat) (s : string) : string :=
  (s ++ mul_str " " (n - String.length s))%string.

(** [enumerate(l, 1)] *)
Definition enumerate1 {A : Type} (l : list A) : list (Z * A) :=
  combine (map Z.of_nat (seq 1 (List.length l))) l.

(** [l.append(x)] *)
Definition append {A : Type} (l : list A) (x : A) : list A := l ++ [x].

(** [sep.join(l)] *)
Definition join (sep : string) (l : list string) : string :=
  String.concat sep l.

(** What a sequence of [print] calls, or of [f.write] calls, puts out:
    [print] ends its text with a line feed, [write] adds nothing. *)
Definition print (s : string) : string := (s ++ nl)%string.

Definition escrito (partes : list string) : string :=
  String.concat EmptyString partes.

End PyTexto.

(** ** The text of a report *)

(** [formatar_moeda], the same in both files: the Python text of the
    amount with its commas and points exchanged.  (The second file wraps
    the body in a [try]; writing a [float] does not raise, so its handler
    is not reached.) *)
Definition formatar_moeda (valor : float) : string :=
  let valor_formatado := PyTexto.format_2f valor in
  let valor_formatado :=
    PyTexto.replace "v" "."
      (PyTexto.replace "." "," (PyTexto.replace "," "v" valor_formatado)) in
  ("R$ " ++ valor_formatado)%string.

(** One character given by its code point, for the accented letters of
    the texts below. *)
Definition letra (n : N) : string := String (ascii_of_N n) EmptyString.

(** The no-break space, U+00A0, which the texts of the second file have
    where the texts of the first have a space. *)
Definition nbsp : string := letra 160.

(** [if mes:] on the month of [melhor_mes], which is [None] or a text. *)
Definition mes_presente (mes : option string) : bool :=
  match mes with Some m => Py.truthy m | None => false end.

Definition texto_do_mes (mes : option string) : string :=
  match mes with Some m => m | None => "None" end.

(** *** [RelatorioFinalEdu.py]: the lines are built first *)

Module SaidaRelatorio.

Import PyTexto.

Local Open Scope string_scope.

Definition _formatar_relatorio_texto (relatorio : RelatorioGeral.t)
  : list string :=
  let linhas : list string := [] in
  let linhas := append linhas (mul_str "=" 40) in
  let linhas :=
    append linhas (" " ++ nbsp ++ " " ++ nbsp ++ " " ++ nbsp ++ "RELAT" ++ letra 211
       ++ "RIO GERAL DE VENDAS") in
  let linhas := append linhas (mul_str "=" 40) in
  let linhas := append linhas (nl ++ "Resumo Geral:") in
  let linhas :=
    append linhas
      (" " ++ nbsp ++ "- Total Geral de Vendas: "
       ++ formatar_moeda (RelatorioGeral.total_vendas relatorio)) in
  let linhas :=
    append linhas
      (" " ++ nbsp ++ "- Total de Transa" ++ letra 231 ++ letra 245 ++ "es: "
       ++ nbsp ++ " "
       ++ str_int (RelatorioGeral.total_transacoes relatorio)) in
  let '(mes, valor) := RelatorioGeral.melhor_mes relatorio in
  let linhas :=
    if mes_presente mes
    then append linhas
           (" " ++ nbsp ++ "- Melhor M" ++ letra 234 ++ "s: " ++ nbsp ++ " " ++ nbsp
            ++ " " ++ nbsp ++ " " ++ nbsp ++ " " ++ nbsp ++ " " ++ nbsp
            ++ texto_do_mes mes ++ " (" ++ formatar_moeda valor ++ ")")
    else linhas in
  let linhas := append linhas (nl ++ mul_str "-" 40) in
  let linhas := append linhas "Top 5 Vendedores (por Valor)" in
  let linhas := append linhas (mul_str "-" 40) in
  let linhas :=
    fold_left
      (fun linhas '(i, (vendedor, total)) =>
         append linhas
           (" " ++ nbsp ++ str_int i ++ ". " ++ ljust 20 vendedor ++ " - "
            ++ formatar_moeda total))
      (enumerate1 (RelatorioGeral.ranking_vendedores relatorio)) linhas in
  let linhas := append linhas (nl ++ mul_str "-" 40) in
  let linhas := append linhas "Top 5 Produtos (por Quantidade)" in
  let linhas := append linhas (mul_str "-" 40) in
  let linhas :=
    fold_left
      (fun linhas '(i, (produto, qtd)) =>
         append linhas
           (" " ++ nbsp ++ str_int i ++ ". " ++ ljust 20 produto ++ " - "
            ++ str_int qtd ++ " unidades"))
      (enumerate1 (RelatorioGeral.ranking_produtos relatorio)) linhas in
  let linhas := append linhas (nl ++ mul_str "-" 40) in
  let linhas := append linhas ("Vendas por M" ++ letra 234 ++ "s") in
  let linhas := append linhas (mul_str "-" 40) in
  let linhas :=
    fold_left
      (fun linhas '(mes, total) =>
         append linhas (" " ++ nbsp ++ "- " ++ mes ++ ": " ++ formatar_moeda total))
      (RelatorioGeral.vendas_por_mes relatorio) linhas in
  let linhas := append linhas (nl ++ mul_str "=" 40) in
  linhas.

Definition _formatar_relatorio_markdown (relatorio : RelatorioGeral.t)
  : list string :=
  let linhas : list string := [] in
  let linhas :=
    append linhas ("# Relat" ++ letra 243 ++ "rio Geral de Vendas" ++ nl) in
  let linhas := append linhas ("## Resumo Geral" ++ nl) in
  let linhas :=
    append linhas
      ("* **Total Geral de Vendas:** "
       ++ formatar_moeda (RelatorioGeral.total_vendas relatorio)) in
  let linhas :=
    append linhas
      ("* **Total de Transa" ++ letra 231 ++ letra 245 ++ "es:** "
       ++ str_int (RelatorioGeral.total_transacoes relatorio)) in
  let '(mes, valor) := RelatorioGeral.melhor_mes relatorio in
  let linhas :=
    if mes_presente mes
    then append linhas
           ("* **Melhor M" ++ letra 234 ++ "s:** " ++ texto_do_mes mes
            ++ " (" ++ formatar_moeda valor ++ ")" ++ nl)
    else linhas in
  let linhas := append linhas ("## Top 5 Vendedores (por Valor)" ++ nl) in
  let linhas :=
    fold_left
      (fun linhas '(i, (vendedor, total)) =>
         append linhas
           (str_int i ++ ". " ++ nbsp ++ "**" ++ vendedor ++ "** - "
            ++ formatar_moeda total))
      (enumerate1 (RelatorioGeral.ranking_vendedores relatorio)) linhas in
  let linhas :=
    append linhas (nl ++ "## Top 5 Produtos (por Quantidade)" ++ nl) in
  let linhas :=
    fold_left
      (fun linhas '(i, (produto, qtd)) =>
         append linhas
           (str_int i ++ ". " ++ nbsp ++ "**" ++ produto ++ "** - " ++ str_int qtd
            ++ " unidades"))
      (enumerate1 (RelatorioGeral.ranking_produtos relatorio)) linhas in
  let linhas :=
    append linhas (nl ++ "## Vendas por M" ++ letra 234 ++ "s" ++ nl) in
  let linhas :=
    fold_left
      (fun linhas '(mes, total) =>
         append linhas ("* **" ++ mes ++ ":** " ++ formatar_moeda total))
      (RelatorioGeral.vendas_por_mes relatorio) linhas in
  linhas.

(** What [exibir_relatorio_vendas] prints. *)
Definition exibir_relatorio_vendas (self : RelatorioFinalEdu.estado)
  : string :=
  match RelatorioFinalEdu.gerar_relatorio_geral self with
  | None =>
      print (nl ++ "*** Nenhuma venda registrada para gerar relat"
             ++ letra 243 ++ "rio. ***")
  | Some relatorio =>
      let linhas_formatadas := _formatar_relatorio_texto relatorio in
      print (join nl linhas_formatadas)
  end.

(** What [salvar_relatorio_geral] writes to its file, when it writes one:
    with no sale there is no file.  The folder, the path and the messages
    on the console, which show the path, are left out; the file is taken
    to open. *)
Definition salvar_relatorio_geral (self : RelatorioFinalEdu.estado)
  : option string :=
  match RelatorioFinalEdu.gerar_relatorio_geral self with
  | None => None
  | Some relatorio =>
      let linhas_formatadas := _formatar_relatorio_texto relatorio in
      Some (escrito [join nl linhas_formatadas])
  end.

Definition salvar_relatorio_markdown (self : RelatorioFinalEdu.estado)
  : option string :=
  match RelatorioFinalEdu.gerar_relatorio_geral self with
  | None => None
  | Some relatorio =>
      let linhas_formatadas := _formatar_relatorio_markdown relatorio in
      Some (escrito [join nl linhas_formatadas])
  end.

End SaidaRelatorio.

(** *** [AnaliseVendasEdu.py]: each text is printed, or written, in turn *)

Module SaidaAnalise.

Import PyTexto.

Local Open Scope string_scope.

(** What [exibir_relatorio_vendas] prints. *)
Definition exibir_relatorio_vendas (st : AnaliseVendasEdu.estado) : string :=
  match AnaliseVendasEdu.gerar_relatorio_geral st with
  | None =>
      print (nl ++ "*** Nenhuma venda registrada para gerar relat"
             ++ letra 243 ++ "rio. ***")
  | Some relatorio =>
      let saida : list string := [] in
      let saida := append saida (print (nl ++ mul_str "=" 40)) in
      let saida :=
        append saida
          (print ("      RELAT" ++ letra 211 ++ "RIO GERAL DE VENDAS")) in
      let saida := append saida (print (mul_str "=" 40)) in
      let saida := append saida (print (nl ++ "Resumo Geral:")) in
      let saida :=
        append saida
          (print ("  - Total Geral de Vendas: "
                  ++ formatar_moeda (RelatorioGeral.total_vendas relatorio))) in
      let saida :=
        append saida
          (print ("  - Total de Transa" ++ letra 231 ++ letra 245 ++ "es:   "
                  ++ str_int (RelatorioGeral.total_transacoes relatorio))) in
      let '(mes, valor) := RelatorioGeral.melhor_mes relatorio in
      let saida :=
        if mes_presente mes
        then append saida
               (print ("  - Melhor M" ++ letra 234 ++ "s:            "
                       ++ texto_do_mes mes ++ " (" ++ formatar_moeda valor
                       ++ ")"))
        else saida in
      let saida := append saida (print (nl ++ mul_str "-" 40)) in
      let saida := append saida (print "Top 5 Vendedores (por Valor)") in
      let saida := append saida (print (mul_str "-" 40)) in
      let saida :=
        fold_left
          (fun saida '(i, (vendedor, total)) =>
             append saida
               (print ("  " ++ str_int i ++ ". " ++ ljust 20 vendedor ++ " - "
                       ++ formatar_moeda total)))
          (enumerate1 (RelatorioGeral.ranking_vendedores relatorio)) saida in
      let saida := append saida (print (nl ++ mul_str "-" 40)) in
      let saida := append saida (print "Top 5 Produtos (por Quantidade)") in
      let saida := append saida (print (mul_str "-" 40)) in
      let saida :=
        fold_left
          (fun saida '(i, (produto, qtd)) =>
             append saida
               (print ("  " ++ str_int i ++ ". " ++ ljust 20 produto ++ " - "
                       ++ str_int qtd ++ " unidades")))
          (enumerate1 (RelatorioGeral.ranking_produtos relatorio)) saida in
      let saida := append saida (print (nl ++ mul_str "-" 40)) in
      let saida := append saida (print ("Vendas por M" ++ letra 234 ++ "s")) in
      let saida := append saida (print (mul_str "-" 40)) in
      let saida :=
        fold_left
          (fun saida '(mes, total) =>
             append saida
               (print ("  - " ++ mes ++ ": " ++ formatar_moeda total)))
          (RelatorioGeral.vendas_por_mes relatorio) saida in
      let saida := append saida (print (nl ++ mul_str "=" 40)) in
      escrito saida
  end.

(** What [salvar_relatorio_geral] writes to its file, when it writes one:
    with no sale there is no file.  The folder, the path and the messages
    on the console, which show the path, are left out; the file is taken
    to open. *)
Definition salvar_relatorio_geral (st : AnaliseVendasEdu.estado)
  : option string :=
  match AnaliseVendasEdu.gerar_relatorio_geral st with
  | None => None
  | Some relatorio =>
      let f : list string := [] in
      let f := append f (mul_str "=" 40 ++ nl) in
      let f :=
        append f ("      RELAT" ++ letra 211 ++ "RIO GERAL DE VENDAS" ++ nl) in
      let f := append f (mul_str "=" 40 ++ nl) in
      let f := append f (nl ++ "Resumo Geral:" ++ nl) in
      let f :=
        append f
          ("  - Total Geral de Vendas: "
           ++ formatar_moeda (RelatorioGeral.total_vendas relatorio) ++ nl) in
      let f :=
        append f
          ("  - Total de Transa" ++ letra 231 ++ letra 245 ++ "es:   "
           ++ str_int (RelatorioGeral.total_transacoes relatorio) ++ nl) in
      let '(mes, valor) := RelatorioGeral.melhor_mes relatorio in
      let f :=
        if mes_presente mes
        then append f
               ("  - Melhor M" ++ letra 234 ++ "s:            "
                ++ texto_do_mes mes ++ " (" ++ formatar_moeda valor ++ ")"
                ++ nl)
        else f in
      let f := append f (nl ++ mul_str "-" 40 ++ nl) in
      let f := append f ("Top 5 Vendedores (por Valor)" ++ nl) in
      let f := append f (mul_str "-" 40 ++ nl) in
      let f :=
        fold_left
          (fun f '(i, (vendedor, total)) =>
             append f
               ("  " ++ str_int i ++ ". " ++ ljust 20 vendedor ++ " - "
                ++ formatar_moeda total ++ nl))
          (enumerate1 (RelatorioGeral.ranking_vendedores relatorio)) f in
      let f := append f (nl ++ mul_str "-" 40 ++ nl) in
      let f := append f ("Top 5 Produtos (por Quantidade)" ++ nl) in
      let f := append f (mul_str "-" 40 ++ nl) in
      let f :=
        fold_left
          (fun f '(i, (produto, qtd)) =>
             append f
               ("  " ++ str_int i ++ ". " ++ ljust 20 produto ++ " - "
                ++ str_int qtd ++ " unidades" ++ nl))
          (enumerate1 (RelatorioGeral.ranking_produtos relatorio)) f in
      let f := append f (nl ++ mul_str "-" 40 ++ nl) in
      let f := append f ("Vendas por M" ++ letra 234 ++ "s" ++ nl) in
      let f := append f (mul_str "-" 40 ++ nl) in
      let f :=
        fold_left
          (fun f '(mes, total) =>
             append f ("  - " ++ mes ++ ": " ++ formatar_moeda total ++ nl))
          (RelatorioGeral.vendas_por_mes relatorio) f in
      let f := append f (nl ++ mul_str "=" 40 ++ nl) in
      Some (escrito f)
  end.

Definition salvar_relatorio_markdown (st : AnaliseVendasEdu.estado)
  : option string :=
  match AnaliseVendasEdu.gerar_relatorio_geral st with
  | None => None
  | Some relatorio =>
      let f : list string := [] in
      let f :=
        append f
          ("# Relat" ++ letra 243 ++ "rio Geral de Vendas" ++ nl ++ nl) in
      let f := append f ("## Resumo Geral" ++ nl ++ nl) in
      let f :=
        append f
          ("* **Total Geral de Vendas:** "
           ++ formatar_moeda (RelatorioGeral.total_vendas relatorio) ++ nl) in
      let f :=
        append f
          ("* **Total de Transa" ++ letra 231 ++ letra 245 ++ "es:** "
           ++ str_int (RelatorioGeral.total_transacoes relatorio) ++ nl) in
      let '(mes, valor) := RelatorioGeral.melhor_mes relatorio in
      let f :=
        if mes_presente mes
        then append f
               ("* **Melhor M" ++ letra 234 ++ "s:** " ++ texto_do_mes mes
                ++ " (" ++ formatar_moeda valor ++ ")" ++ nl ++ nl)
        else f in
      let f := append f ("## Top 5 Vendedores (por Valor)" ++ nl ++ nl) in
      let f :=
        fold_left
          (fun f '(i, (vendedor, total)) =>
             append f
               (str_int i ++ ".  **" ++ vendedor ++ "** - "
                ++ formatar_moeda total ++ nl))
          (enumerate1 (RelatorioGeral.ranking_vendedores relatorio)) f in
      let f :=
        append f (nl ++ "## Top 5 Produtos (por Quantidade)" ++ nl ++ nl) in
      let f :=
        fold_left
          (fun f '(i, (produto, qtd)) =>
             append f
               (str_int i ++ ".  **" ++ produto ++ "** - " ++ str_int qtd
                ++ " unidades" ++ nl))
          (enumerate1 (RelatorioGeral.ranking_produtos relatorio)) f in
      let f :=
        append f (nl ++ "## Vendas por M" ++ letra 234 ++ "s" ++ nl ++ nl) in
      let f :=
        fold_left
          (fun f '(mes, total) =>
             append f
               ("* **" ++ mes ++ ":** " ++ formatar_moeda total ++ nl))
          (RelatorioGeral.vendas_por_mes relatorio) f in
      Some (escrito f)
  end.

End SaidaAnalise.

(** ** The amounts *)

(** A comma for a point and a point for a comma. *)
Definition trocar (c : ascii) : ascii :=
  if Ascii.eqb c ","%char then "."%char
  else if Ascii.eqb c "."%char then ","%char else c.

Fixpoint trocar_texto (s : string) : string :=
  match s with
  | EmptyString => EmptyString
  | String c s' => String (trocar c) (trocar_texto s')
  end.

(** Every character of [s] passes the test [p]. *)
Definition todos (p : ascii -> bool) (s : string) : bool :=
  forallb p (list_ascii_of_string s).

(** A digit or a point. *)
Definition digito_ou_ponto (c : ascii) : bool :=
  Py.is_digit c || Ascii.eqb c "."%char.

Section Quantias.

Import Py PyTexto.

Lemma todos_app (p : ascii -> bool) (s t : string) :
  todos p (s ++ t) = todos p s && todos p t.
Proof.
  unfold todos. induction s as [|c s IH]; simpl; [reflexivity|].
  now rewrite IH, andb_assoc.
Qed.

Lemma todos_impl (p q : ascii -> bool) (s : string) :
  (forall c, p c = true -> q c = true) ->
  todos p s = true -> todos q s = true.
Proof.
  intros Hpq. unfold todos. induction s as [|c s IH]; simpl; [reflexivity|].
  intros H. apply andb_prop in H as [H1 H2].
  now rewrite (Hpq _ H1), IH.
Qed.

Lemma string_of_uint_digitos (u : Decimal.uint) :
  todos is_digit (DecimalString.NilEmpty.string_of_uint u) = true.
Proof. induction u; simpl; trivial. Qed.

Lemma str_int_nao_negativo (n : Z) :
  0 <= n -> todos is_digit (str_int n) = true.
Proof.
  intros Hn. unfold str_int, Z.to_int.
  destruct n as [|p|p]; [reflexivity| |lia].
  unfold DecimalString.NilZero.string_of_int,
    DecimalString.NilZero.string_of_uint.
  destruct (Pos.to_uint p); try reflexivity; apply string_of_uint_digitos.
Qed.

Lemma agrupar_caracteres (p : ascii -> bool) (l : list ascii) :
  p ","%char = true -> forallb p l = true -> forallb p (agrupar l) = true.
Proof.
  intros Hc. induction l as [|c l IH]; simpl; [reflexivity|].
  intros H. apply andb_prop in H as [H1 H2]. rewrite H1. simpl.
  destruct (_ && _); simpl; [rewrite Hc; simpl|]; now apply IH.
Qed.

Lemma pad2_digitos (n : Z) : todos is_digit (pad2 n) = true.
Proof.
  unfold todos, pad2. simpl. now rewrite !digit_char_is_digit.
Qed.

Lemma centesimos_nao_negativo (m : positive) (e : Z) : 0 <= centesimos m e.
Proof.
  unfold centesimos, round_half_even.
  destruct (Z.leb_spec 0 e).
  - apply Z.mul_nonneg_nonneg; [lia|]. now apply Z.pow_nonneg.
  - assert (0 < 2 ^ (- e)) by (apply Z.pow_pos_nonneg; lia).
    assert (0 <= Z.pos m * 100 / 2 ^ (- e))
      by (apply Z.div_pos; lia).
    destruct (_ ?= _); [destruct (Z.even _)| |]; lia.
Qed.

(** The parts of the Python text of a finite amount. *)
Lemma format_2f_finito (x : float) :
  PrimFloat.is_nan x = false -> PrimFloat.is_infinity x = false ->
  exists sinal inteiro c d,
    format_2f x
    = (sinal ++ inteiro ++ "." ++ String c (String d EmptyString))%string
    /\ (sinal = EmptyString \/ sinal = "-"%string)
    /\ todos (fun c => is_digit c || Ascii.eqb c ","%char) inteiro = true
    /\ is_digit c = true /\ is_digit d = true.
Proof.
  intros Hnan Hinf. unfold format_2f.
  destruct (Prim2SF x) as [s|s| |s m e] eqn:E.
  - exists (if s then "-" else "")%string, "0"%string, "0"%char, "0"%char.
    destruct s; repeat split; auto.
  - exfalso. unfold PrimFloat.is_infinity in Hinf.
    rewrite eqb_spec, abs_spec, E in Hinf. destruct s; discriminate Hinf.
  - exfalso. unfold PrimFloat.is_nan in Hnan.
    rewrite eqb_spec, E in Hnan. discriminate Hnan.
  - cbv zeta. pose proof (centesimos_nao_negativo m e) as Hn.
    set (n := centesimos m e) in *.
    exists (if s then "-" else "")%string,
      (string_of_list_ascii
         (agrupar (list_ascii_of_string (str_int (n / 100))))),
      (digit_char (n mod 100 / 10)), (digit_char (n mod 100)).
    repeat split.
    + destruct s; auto.
    + unfold todos. rewrite list_ascii_of_string_of_list_ascii.
      apply agrupar_caracteres; [reflexivity|].
      apply (todos_impl is_digit); [intros c ->; reflexivity|].
      apply str_int_nao_negativo. apply Z.div_pos; lia.
    + apply digit_char_is_digit.
    + apply digit_char_is_digit.
Qed.

(** No text Python writes for an amount has the letter [v]. *)
Lemma format_2f_sem_v (x : float) :
  todos (fun c => negb (Ascii.eqb c "v"%char)) (format_2f x) = true.
Proof.
  unfold format_2f.
  destruct (Prim2SF x) as [s|s| |s m e] eqn:E; try (destruct s; reflexivity);
    try reflexivity.
  cbv zeta. pose proof (centesimos_nao_negativo m e) as Hn.
  set (n := centesimos m e) in *.
  rewrite !todos_app, !andb_true_iff. split; [|split; [|split]].
  - destruct s; reflexivity.
  - unfold todos. rewrite list_ascii_of_string_of_list_ascii.
    apply agrupar_caracteres; [reflexivity|].
    apply (todos_impl is_digit).
    + intros c Hc. apply is_digit_cases in Hc. simpl in Hc.
      repeat (destruct Hc as [<-|Hc]; [reflexivity|]). destruct Hc.
    + apply str_int_nao_negativo. apply Z.div_pos; lia.
  - reflexivity.
  - apply (todos_impl is_digit); [|apply pad2_digitos].
    intros c Hc. apply is_digit_cases in Hc. simpl in Hc.
    repeat (destruct Hc as [<-|Hc]; [reflexivity|]). destruct Hc.
Qed.

(** The three replacements exchange commas and points in a text without
    the letter [v]. *)
Lemma replace_trocar (s : string) :
  todos (fun c => negb (Ascii.eqb c "v"%char)) s = true ->
  replace "v" "." (replace "." "," (replace "," "v" s)) = trocar_texto s.
Proof.
  unfold todos. induction s as [|c s IH]; simpl; [reflexivity|].
  intros H. apply andb_prop in H as [Hc Hs]. rewrite (IH Hs). f_equal.
  unfold trocar.
  destruct (Ascii.eqb_spec c ","%char) as [->|]; [reflexivity|].
  destruct (Ascii.eqb_spec c "."%char) as [->|]; [reflexivity|].
  apply negb_true_iff in Hc. now rewrite Hc.
Qed.

Lemma trocar_texto_app (s t : string) :
  trocar_texto (s ++ t) = (trocar_texto s ++ trocar_texto t)%string.
Proof. induction s as [|c s IH]; simpl; [reflexivity|now rewrite IH]. Qed.

Lemma trocar_texto_involutiva (s : string) :
  trocar_texto (trocar_texto s) = s.
Proof.
  induction s as [|c s IH]; simpl; [reflexivity|]. rewrite IH. f_equal.
  unfold trocar.
  destruct (Ascii.eqb_spec c ","%char) as [->|]; [reflexivity|].
  destruct (Ascii.eqb_spec c "."%char) as [->|]; [reflexivity|].
  destruct (Ascii.eqb_spec c ","%char); [contradiction|].
  destruct (Ascii.eqb_spec c "."%char); [contradiction|reflexivity].
Qed.

Lemma trocar_texto_inteiro (s : string) :
  todos (fun c => is_digit c || Ascii.eqb c ","%char) s = true ->
  todos digito_ou_ponto (trocar_texto s) = true.
Proof.
  unfold todos. induction s as [|c s IH]; simpl; [reflexivity|].
  intros H. apply andb_prop in H as [Hc Hs]. rewrite (IH Hs), andb_true_r.
  unfold trocar, digito_ou_ponto.
  destruct (Ascii.eqb_spec c ","%char) as [->|]; [reflexivity|].
  rewrite orb_false_r in Hc.
  destruct (Ascii.eqb_spec c "."%char) as [->|]; [discriminate Hc|].
  now rewrite Hc.
Qed.

Lemma trocar_digito (c : ascii) : is_digit c = true -> trocar c = c.
Proof.
  intros H. apply is_digit_cases in H. simpl in H.
  repeat (destruct H as [<-|H]; [reflexivity|]). destruct H.
Qed.

End Quantias.

(** X17. [formatar_moeda] writes ["R$ "] and the Python text of the
    amount with every comma turned into a point and every point into a
    comma, nothing else changed: the letter [v] that the three
    replacements go through is in no text Python writes for a [float].
    Exchanging the two signs again gives the Python text back.  For an
    amount that is neither NaN nor infinite the result is ["R$ "], a minus
    sign or nothing, digits grouped by points, a comma and two digits. *)
Theorem formatar_moeda_troca :
  (forall valor : float,
     formatar_moeda valor
     = ("R$ " ++ trocar_texto (PyTexto.format_2f valor))%string)
  /\ (forall s : string, trocar_texto (trocar_texto s) = s)
  /\ (forall valor : float,
        PrimFloat.is_nan valor = false ->
        PrimFloat.is_infinity valor = false ->
        exists sinal inteiro c d,
          formatar_moeda valor
          = ("R$ " ++ sinal ++ inteiro ++ ","
             ++ String c (String d EmptyString))%string
          /\ (sinal = EmptyString \/ sinal = "-"%string)
          /\ todos digito_ou_ponto inteiro = true
          /\ Py.is_digit c = true /\ Py.is_digit d = true).
Proof.
  assert (H1 : forall valor : float,
             formatar_moeda valor
             = ("R$ " ++ trocar_texto (PyTexto.format_2f valor))%string).
  { intros valor. unfold formatar_moeda. cbv zeta.
    now rewrite replace_trocar by apply format_2f_sem_v. }
  split; [exact H1|]. split; [exact trocar_texto_involutiva|].
  intros valor Hnan Hinf. rewrite H1.
  destruct (format_2f_finito valor Hnan Hinf)
    as (sinal & inteiro & c & d & -> & Hs & Hi & Hc & Hd).
  exists sinal, (trocar_texto inteiro), c, d.
  rewrite !trocar_texto_app. cbn [trocar_texto].
  rewrite (trocar_digito c Hc), (trocar_digito d Hd).
  repeat split; trivial.
  - destruct Hs as [-> | ->]; reflexivity.
  - now apply trocar_texto_inteiro.
Qed.

(** ** The reports as texts *)

(** A text with every no-break space made a space. *)
Definition sem_nbsp (s : string) : string :=
  PyTexto.replace (ascii_of_N 160) " " s.

Section TextosDosRelatorios.

Import Py PyTexto.

Local Open Scope string_scope.

Lemma fold_left_append {A B : Type} (f : list B -> A -> list B)
  (g : A -> B) (xs : list A) (l : list B) :
  (forall l x, f l x = append l (g x)) ->
  fold_left f xs l = (l ++ map g xs)%list.
Proof.
  intros Hf. revert l. induction xs as [|x xs IH]; intros l; simpl.
  - now rewrite app_nil_r.
  - rewrite IH, Hf. unfold append. now rewrite <- app_assoc.
Qed.

Lemma string_append_nil_r (s : string) : s ++ "" = s.
Proof. induction s as [|c s IH]; simpl; [reflexivity|now rewrite IH]. Qed.

Lemma escrito_cons (x : string) (l : list string) :
  escrito (x :: l) = x ++ escrito l.
Proof.
  unfold escrito. destruct l as [|y l]; simpl.
  - now rewrite string_append_nil_r.
  - reflexivity.
Qed.

Lemma escrito_app (l1 l2 : list string) :
  escrito (l1 ++ l2) = escrito l1 ++ escrito l2.
Proof.
  induction l1 as [|x l1 IH]; [reflexivity|].
  cbn [app]. now rewrite !escrito_cons, IH, string_append_assoc.
Qed.

(** Lines joined by line feeds, and one more line feed, are the lines
    written each with its line feed. *)
Lemma join_nl (l : list string) :
  l <> [] -> join nl l ++ nl = escrito (map (fun s => s ++ nl) l).
Proof.
  unfold join. induction l as [|x l IH]; [contradiction|]. intros _.
  cbn [map]. rewrite escrito_cons. destruct l as [|y l].
  - cbn. now rewrite string_append_nil_r.
  - rewrite <- IH by discriminate. cbn [String.concat].
    now rewrite !string_append_assoc.
Qed.

Lemma replace_app (a b : ascii) (s t : string) :
  replace a b (s ++ t) = replace a b s ++ replace a b t.
Proof. induction s as [|c s IH]; simpl; [reflexivity|now rewrite IH]. Qed.

Lemma replace_escrito (a b : ascii) (l : list string) :
  replace a b (escrito l) = escrito (map (replace a b) l).
Proof.
  induction l as [|x l IH]; [reflexivity|].
  cbn [map]. now rewrite !escrito_cons, replace_app, IH.
Qed.

Lemma enumerate1_length {A : Type} (l : list A) :
  List.length (enumerate1 l) = List.length l.
Proof.
  unfold enumerate1. rewrite length_combine, length_map, length_seq.
  apply Nat.min_id.
Qed.

End TextosDosRelatorios.

Section RelatoriosEscritos.

Import Py PyTexto.

Local Open Scope string_scope.

Lemma fold_left_append1 {A B D : Type} (h : A -> B -> D)
  (xs : list (A * B)) (l : list D) :
  fold_left (fun l '(a, b) => append l (h a b)) xs l
  = (l ++ map (fun '(a, b) => h a b) xs)%list.
Proof. apply fold_left_append. now intros ? [? ?]. Qed.

Lemma fold_left_append2 {A B C D : Type} (h : A -> B -> C -> D)
  (xs : list (A * (B * C))) (l : list D) :
  fold_left (fun l '(a, (b, c)) => append l (h a b c)) xs l
  = (l ++ map (fun '(a, (b, c)) => h a b c) xs)%list.
Proof. apply fold_left_append. now intros ? [? [? ?]]. Qed.

Lemma map_ext1 {A B D : Type} (h h' : A -> B -> D) (xs : list (A * B)) :
  (forall a b, h a b = h' a b) ->
  map (fun '(a, b) => h a b) xs = map (fun '(a, b) => h' a b) xs.
Proof. intros H. apply map_ext. now intros [? ?]. Qed.

Lemma map_ext2 {A B C D : Type} (h h' : A -> B -> C -> D)
  (xs : list (A * (B * C))) :
  (forall a b c, h a b c = h' a b c) ->
  map (fun '(a, (b, c)) => h a b c) xs
  = map (fun '(a, (b, c)) => h' a b c) xs.
Proof. intros H. apply map_ext. now intros [? [? ?]]. Qed.

Lemma Some_inj {A : Type} (a b : A) : Some a = Some b -> a = b.
Proof. congruence. Qed.

Lemma escrito_nl_cons (x y : string) (l l' : list string) :
  x = nl ++ y -> l = l' -> escrito (x :: l) = nl ++ escrito (y :: l').
Proof.
  intros -> ->. now rewrite !escrito_cons, string_append_assoc.
Qed.

End RelatoriosEscritos.

Ltac texto_igual :=
  unfold PyTexto.print; rewrite ?string_append_assoc; reflexivity.

Ltac linhas_iguais :=
  repeat first
    [ reflexivity
    | apply (f_equal2 (@cons string)); [texto_igual|]
    | apply (f_equal2 (@app string));
      [first [apply map_ext2 | apply map_ext1]; intros; texto_igual|]
    | first [apply map_ext2 | apply map_ext1]; intros; texto_igual ].

Ltac forma_normal :=
  rewrite !fold_left_append2, !fold_left_append1;
  unfold PyTexto.append; rewrite <- !app_assoc; cbn [app].

Ltac texto_sem_nbsp :=
  unfold sem_nbsp, nbsp, letra; rewrite ?replace_app;
  repeat match goal with
         | |- context [formatar_moeda ?x] =>
             generalize (formatar_moeda x); intro
         | |- context [PyTexto.str_int ?x] => generalize (PyTexto.str_int x); intro
         | |- context [PyTexto.ljust ?n ?x] => generalize (PyTexto.ljust n x); intro
         end;
  repeat (progress (simpl; rewrite ?string_append_assoc)); reflexivity.

Ltac linhas_sem_nbsp :=
  repeat first
    [ reflexivity
    | apply (f_equal2 (@cons string)); [texto_sem_nbsp|]
    | apply (f_equal2 (@app string));
      [apply map_ext; first [intros [? [? ?]] | intros [? ?]];
       texto_sem_nbsp|]
    | apply map_ext; first [intros [? [? ?]] | intros [? ?]];
      texto_sem_nbsp ].

Section RelatoriosSalvos.

Import Py PyTexto.

Local Open Scope string_scope.

(** The first file prints the text it saves, after an empty line. *)
Lemma analise_exibe_salva (st : AnaliseVendasEdu.estado) (t : string) :
  SaidaAnalise.salvar_relatorio_geral st = Some t ->
  SaidaAnalise.exibir_relatorio_vendas st = nl ++ t.
Proof.
  unfold SaidaAnalise.salvar_relatorio_geral,
    SaidaAnalise.exibir_relatorio_vendas.
  destruct (AnaliseVendasEdu.gerar_relatorio_geral st) as [r|];
    [|discriminate].
  cbv zeta. destruct (RelatorioGeral.melhor_mes r) as [mes valor].
  intros H. apply Some_inj in H. subst t.
  destruct (mes_presente mes); forma_normal;
    (apply escrito_nl_cons; [texto_igual|linhas_iguais]).
Qed.

Lemma escrito_um (x : string) : escrito [x] = x.
Proof. reflexivity. Qed.

(** The text the first file saves and the text the second saves, with a
    line feed after it, differ in the no-break spaces only. *)
Lemma textos_salvos (st1 : AnaliseVendasEdu.estado)
  (st2 : RelatorioFinalEdu.estado) (r : RelatorioGeral.t) :
  AnaliseVendasEdu.gerar_relatorio_geral st1 = Some r ->
  RelatorioFinalEdu.gerar_relatorio_geral st2 = Some r ->
  exists ta tr,
    SaidaAnalise.salvar_relatorio_geral st1 = Some ta
    /\ SaidaRelatorio.salvar_relatorio_geral st2 = Some tr
    /\ sem_nbsp ta = sem_nbsp (tr ++ nl)
    /\ String.get 42 ta = Some " "%char
    /\ String.get 42 tr = Some (ascii_of_N 160).
Proof.
  intros H1 H2.
  unfold SaidaAnalise.salvar_relatorio_geral,
    SaidaRelatorio.salvar_relatorio_geral,
    SaidaRelatorio._formatar_relatorio_texto.
  rewrite H1, H2. cbv zeta.
  destruct (RelatorioGeral.melhor_mes r) as [mes valor].
  do 2 eexists. split; [reflexivity|]. split; [reflexivity|].
  rewrite escrito_um.
  destruct (mes_presente mes); forma_normal.
  - split; [|split; reflexivity].
    rewrite join_nl by discriminate. unfold sem_nbsp.
    rewrite !replace_escrito. f_equal. fold sem_nbsp.
    repeat (progress (cbn [map]; rewrite ?map_app, ?map_map)).
    linhas_sem_nbsp.
  - split; [|split; reflexivity].
    rewrite join_nl by discriminate. unfold sem_nbsp.
    rewrite !replace_escrito. f_equal. fold sem_nbsp.
    repeat (progress (cbn [map]; rewrite ?map_app, ?map_map)).
    linhas_sem_nbsp.
Qed.

(** The same for the two Markdown texts. *)
Lemma markdown_salvos (st1 : AnaliseVendasEdu.estado)
  (st2 : RelatorioFinalEdu.estado) (r : RelatorioGeral.t) :
  AnaliseVendasEdu.gerar_relatorio_geral st1 = Some r ->
  RelatorioFinalEdu.gerar_relatorio_geral st2 = Some r ->
  exists ma mr,
    SaidaAnalise.salvar_relatorio_markdown st1 = Some ma
    /\ SaidaRelatorio.salvar_relatorio_markdown st2 = Some mr
    /\ sem_nbsp ma = sem_nbsp (mr ++ nl).
Proof.
  intros H1 H2.
  unfold SaidaAnalise.salvar_relatorio_markdown,
    SaidaRelatorio.salvar_relatorio_markdown,
    SaidaRelatorio._formatar_relatorio_markdown.
  rewrite H1, H2. cbv zeta.
  destruct (RelatorioGeral.melhor_mes r) as [mes valor].
  do 2 eexists. split; [reflexivity|]. split; [reflexivity|].
  rewrite escrito_um.
  destruct (mes_presente mes); forma_normal;
    rewrite join_nl by discriminate; unfold sem_nbsp;
    rewrite !replace_escrito; f_equal; fold sem_nbsp;
    repeat (progress (cbn [map]; rewrite ?map_app, ?map_map));
    linhas_sem_nbsp.
Qed.

(** A report that exists has a best month, whose text is not empty when
    no month is the empty text. *)
Lemma melhor_mes_presente {D : Type} (mes : D -> string)
  (vs : list (venda D)) (r : RelatorioGeral.t) :
  (forall d, truthy (mes d) = true) ->
  gerar_relatorio_geral mes vs = Some r ->
  exists m total,
    RelatorioGeral.melhor_mes r = (Some m, total)
    /\ In (m, total) (RelatorioGeral.vendas_por_mes r)
    /\ truthy m = true.
Proof.
  intros Hmes Hr. destruct vs as [|v vs]; [discriminate|].
  unfold gerar_relatorio_geral in Hr. apply Some_inj in Hr. subst r.
  cbn [RelatorioGeral.melhor_mes RelatorioGeral.vendas_por_mes].
  pose proof (melhor_mes_maior mes (v :: vs)) as Hm. unfold maior_mes in Hm.
  destruct (calcular_vendas_por_mes mes (v :: vs)) as [|item items] eqn:E.
  - apply calcular_vendas_por_mes_nil in E. discriminate.
  - destruct Hm as (m & total & Hres & Hin & _).
    exists m, total. repeat split; trivial.
    assert (Hk : In m (map fst (calcular_vendas_por_mes mes (v :: vs)))).
    { rewrite E. apply (in_map fst) in Hin. exact Hin. }
    unfold calcular_vendas_por_mes in Hk.
    eapply Permutation_in in Hk; [|apply Permutation_map, sorted_perm].
    rewrite acumular_por_mes_chaves in Hk.
    apply distintos_In, in_map_iff in Hk as (u & <- & _). apply Hmes.
Qed.

Lemma analise_mes_truthy (data : string) :
  truthy (AnaliseVendasEdu.extrair_mes data) = true.
Proof.
  unfold AnaliseVendasEdu.extrair_mes, len.
  destruct (Z.leb_spec 7 (Z.of_nat (String.length data))); [|reflexivity].
  do 7 (destruct data as [|? data]; [cbn [String.length] in *; lia|]).
  reflexivity.
Qed.

Lemma relatorio_mes_truthy (d : RelatorioFinalEdu.data_venda) :
  truthy (RelatorioFinalEdu.mes_da_venda d) = true.
Proof. apply strftime_Ym_truthy. Qed.

End RelatoriosSalvos.

Section RelatoriosEscritosMais.

Import Py PyTexto.

Local Open Scope string_scope.

Lemma escrito_contem (l : list string) (x : string) :
  In x l -> contem x (escrito l).
Proof.
  intros H. apply in_split in H as (l1 & l2 & ->).
  exists (escrito l1), (escrito l2).
  now rewrite escrito_app, escrito_cons.
Qed.

Lemma gerar_relatorio_geral_vazio {D : Type} (mes : D -> string)
  (vs : list (venda D)) :
  (vs = [] -> gerar_relatorio_geral mes vs = None)
  /\ (vs <> [] -> exists r, gerar_relatorio_geral mes vs = Some r).
Proof.
  split; [now intros ->|].
  destruct vs as [|v vs]; [contradiction|]. intros _. eexists. reflexivity.
Qed.

End RelatoriosEscritosMais.

(** X18. Showing and saving the general report.  With no sale neither
    file writes a report: each prints the same notice and saves nothing.
    With a sale each saves a text and a Markdown text, and what it prints
    is the text it saves: in the first file, which prints and writes the
    report with two copies of the same lines, after an empty line; in the
    second with a line feed after it. *)
Theorem relatorio_exibido_e_salvo (st : AnaliseVendasEdu.estado)
  (self : RelatorioFinalEdu.estado) :
  let aviso :=
    PyTexto.print
      (PyTexto.nl ++ "*** Nenhuma venda registrada para gerar relat"
       ++ letra 243 ++ "rio. ***")%string in
  (vendas st = [] ->
     SaidaAnalise.salvar_relatorio_geral st = None
     /\ SaidaAnalise.salvar_relatorio_markdown st = None
     /\ SaidaAnalise.exibir_relatorio_vendas st = aviso)
  /\ (vendas st <> [] ->
        exists t m,
          SaidaAnalise.salvar_relatorio_geral st = Some t
          /\ SaidaAnalise.salvar_relatorio_markdown st = Some m
          /\ SaidaAnalise.exibir_relatorio_vendas st
             = (PyTexto.nl ++ t)%string)
  /\ (vendas self = [] ->
        SaidaRelatorio.salvar_relatorio_geral self = None
        /\ SaidaRelatorio.salvar_relatorio_markdown self = None
        /\ SaidaRelatorio.exibir_relatorio_vendas self = aviso)
  /\ (vendas self <> [] ->
        exists t m,
          SaidaRelatorio.salvar_relatorio_geral self = Some t
          /\ SaidaRelatorio.salvar_relatorio_markdown self = Some m
          /\ SaidaRelatorio.exibir_relatorio_vendas self
             = (t ++ PyTexto.nl)%string).
Proof.
  cbv zeta. split; [|split; [|split]].
  - intros H.
    unfold SaidaAnalise.salvar_relatorio_geral,
      SaidaAnalise.salvar_relatorio_markdown,
      SaidaAnalise.exibir_relatorio_vendas,
      AnaliseVendasEdu.gerar_relatorio_geral.
    rewrite H. repeat split.
  - intros H.
    destruct (proj2 (gerar_relatorio_geral_vazio AnaliseVendasEdu.extrair_mes
                       (vendas st)) H) as [r Hr].
    destruct (SaidaAnalise.salvar_relatorio_geral st) as [t|] eqn:Et.
    + exists t. pose proof (analise_exibe_salva st t Et) as He.
      unfold SaidaAnalise.salvar_relatorio_markdown.
      unfold AnaliseVendasEdu.gerar_relatorio_geral. rewrite Hr.
      cbv zeta. destruct (RelatorioGeral.melhor_mes r) as [mes valor].
      eexists. repeat split. exact He.
    + exfalso. revert Et. unfold SaidaAnalise.salvar_relatorio_geral,
        AnaliseVendasEdu.gerar_relatorio_geral.
      rewrite Hr. cbv zeta. destruct (RelatorioGeral.melhor_mes r).
      discriminate.
  - intros H.
    unfold SaidaRelatorio.salvar_relatorio_geral,
      SaidaRelatorio.salvar_relatorio_markdown,
      SaidaRelatorio.exibir_relatorio_vendas,
      RelatorioFinalEdu.gerar_relatorio_geral.
    rewrite H. repeat split.
  - intros H.
    destruct (proj2 (gerar_relatorio_geral_vazio
                       RelatorioFinalEdu.mes_da_venda (vendas self)) H)
      as [r Hr].
    unfold SaidaRelatorio.salvar_relatorio_geral,
      SaidaRelatorio.salvar_relatorio_markdown,
      SaidaRelatorio.exibir_relatorio_vendas,
      RelatorioFinalEdu.gerar_relatorio_geral.
    rewrite Hr. cbv zeta.
    destruct (RelatorioGeral.melhor_mes r) as [mes valor].
    do 2 eexists. repeat split.
Qed.

(** X19. The same report in the two files.  When the two files hold the
    same general report, the text the first saves is the text the second
    saves with a line feed after it, and so is the Markdown text, once
    every no-break space (U+00A0) is read as a space: the second file has
    that character in its own texts where the first has a space.  The two
    text files are never the same: their forty-third characters are a
    space in the first and a no-break space in the second. *)
Theorem relatorios_das_duas_variantes (st1 : AnaliseVendasEdu.estado)
  (st2 : RelatorioFinalEdu.estado) (r : RelatorioGeral.t) :
  AnaliseVendasEdu.gerar_relatorio_geral st1 = Some r ->
  RelatorioFinalEdu.gerar_relatorio_geral st2 = Some r ->
  exists ta tr ma mr,
    SaidaAnalise.salvar_relatorio_geral st1 = Some ta
    /\ SaidaRelatorio.salvar_relatorio_geral st2 = Some tr
    /\ SaidaAnalise.salvar_relatorio_markdown st1 = Some ma
    /\ SaidaRelatorio.salvar_relatorio_markdown st2 = Some mr
    /\ sem_nbsp ta = sem_nbsp (tr ++ PyTexto.nl)
    /\ sem_nbsp ma = sem_nbsp (mr ++ PyTexto.nl)
    /\ String.get 42 ta = Some " "%char
    /\ String.get 42 tr = Some (ascii_of_N 160).
Proof.
  intros H1 H2.
  destruct (textos_salvos st1 st2 r H1 H2)
    as (ta & tr & Ha & Hr & Ht & Hga & Hgr).
  destruct (markdown_salvos st1 st2 r H1 H2) as (ma & mr & Hma & Hmr & Hm).
  exists ta, tr, ma, mr. repeat split; assumption.
Qed.

Lemma relatorios_das_duas_variantes_witness :
  let c := Chamada "Teclado" "Maria Silva" 3 250 "2024-01-17" in
  exists ta tr,
    SaidaAnalise.salvar_relatorio_geral (AnaliseVendasEdu.executar inicial [c])
    = Some ta
    /\ SaidaRelatorio.salvar_relatorio_geral
         (RelatorioFinalEdu.executar inicial [c]) = Some tr
    /\ sem_nbsp ta = sem_nbsp (tr ++ PyTexto.nl)
    /\ String.get 42 ta = Some " "%char
    /\ String.get 42 tr = Some (ascii_of_N 160).
Proof.
  cbv zeta.
  destruct (AnaliseVendasEdu.gerar_relatorio_geral
              (AnaliseVendasEdu.executar inicial
                 [Chamada "Teclado" "Maria Silva" 3 250 "2024-01-17"]))
    as [r|] eqn:E1; [|vm_compute in E1; discriminate E1].
  assert (E2 : RelatorioFinalEdu.gerar_relatorio_geral
                 (RelatorioFinalEdu.executar inicial
                    [Chamada "Teclado" "Maria Silva" 3 250 "2024-01-17"])
               = Some r).
  { vm_compute in E1. injection E1 as <-. vm_compute. reflexivity. }
  destruct (relatorios_das_duas_variantes _ _ r E1 E2)
    as (ta & tr & ma & mr & Ha & Hr & _ & _ & Ht & _ & Hga & Hgr).
  exists ta, tr. repeat split; assumption.
Defined.

(** X20. The line of the best month.  A general report that exists has
    a best month, one of the months of its month map, and its text is
    never empty, so the test [if mes:] passes where the report is
    written: the first file writes the line of the best month in the text
    it saves, and in the second the line is the seventh of the text and
    the fifth of the Markdown text.  The text of the second file then has 17
    lines and the Markdown text 8, besides one for each entry of the two
    rankings, of at most five entries each, and one for each month. *)
Theorem melhor_mes_no_relatorio :
  (forall (st : AnaliseVendasEdu.estado) (r : RelatorioGeral.t),
     AnaliseVendasEdu.gerar_relatorio_geral st = Some r ->
     exists m total t,
       RelatorioGeral.melhor_mes r = (Some m, total)
       /\ In (m, total) (RelatorioGeral.vendas_por_mes r)
       /\ SaidaAnalise.salvar_relatorio_geral st = Some t
       /\ contem
            ("  - Melhor M" ++ letra 234 ++ "s:            " ++ m ++ " ("
             ++ formatar_moeda total ++ ")" ++ PyTexto.nl)%string t)
  /\ (forall (self : RelatorioFinalEdu.estado) (r : RelatorioGeral.t),
        RelatorioFinalEdu.gerar_relatorio_geral self = Some r ->
        exists m total,
          RelatorioGeral.melhor_mes r = (Some m, total)
          /\ In (m, total) (RelatorioGeral.vendas_por_mes r)
          /\ nth_error (SaidaRelatorio._formatar_relatorio_texto r) 6
             = Some (" " ++ nbsp ++ "- Melhor M" ++ letra 234 ++ "s: "
                     ++ nbsp ++ " " ++ nbsp ++ " " ++ nbsp ++ " " ++ nbsp
                     ++ " " ++ nbsp ++ " " ++ nbsp ++ m ++ " ("
                     ++ formatar_moeda total ++ ")")%string
          /\ nth_error (SaidaRelatorio._formatar_relatorio_markdown r) 4
             = Some ("* **Melhor M" ++ letra 234 ++ "s:** " ++ m ++ " ("
                     ++ formatar_moeda total ++ ")" ++ PyTexto.nl)%string
          /\ List.length (SaidaRelatorio._formatar_relatorio_texto r)
             = (17 + List.length (RelatorioGeral.ranking_vendedores r)
                + List.length (RelatorioGeral.ranking_produtos r)
                + List.length (RelatorioGeral.vendas_por_mes r))%nat
          /\ List.length (SaidaRelatorio._formatar_relatorio_markdown r)
             = (8 + List.length (RelatorioGeral.ranking_vendedores r)
                + List.length (RelatorioGeral.ranking_produtos r)
                + List.length (RelatorioGeral.vendas_por_mes r))%nat
          /\ (List.length (RelatorioGeral.ranking_vendedores r) <= 5)%nat
          /\ (List.length (RelatorioGeral.ranking_produtos r) <= 5)%nat).
Proof.
  split.
  - intros st r Hr.
    destruct (melhor_mes_presente AnaliseVendasEdu.extrair_mes (vendas st) r
                analise_mes_truthy Hr) as (m & total & Hm & Hin & Ht).
    exists m, total. unfold SaidaAnalise.salvar_relatorio_geral.
    rewrite Hr. cbv zeta. rewrite Hm. cbn [mes_presente texto_do_mes].
    rewrite Ht. eexists. repeat split; trivial.
    forma_normal. apply escrito_contem. do 6 right. left. reflexivity.
  - intros self r Hr.
    destruct (melhor_mes_presente RelatorioFinalEdu.mes_da_venda
                (vendas self) r relatorio_mes_truthy Hr)
      as (m & total & Hm & Hin & Ht).
    exists m, total.
    unfold SaidaRelatorio._formatar_relatorio_texto,
      SaidaRelatorio._formatar_relatorio_markdown.
    cbv zeta. rewrite Hm. cbn [mes_presente texto_do_mes]. rewrite Ht.
    forma_normal.
    split; [reflexivity|]. split; [exact Hin|].
    split; [reflexivity|]. split; [reflexivity|].
    split; [|split; [|split]].
    + cbn [List.length].
      rewrite !length_app, !length_map, !enumerate1_length.
      cbn [List.length].
      rewrite !length_app, !length_map, !enumerate1_length.
      cbn [List.length]. rewrite !length_app, !length_map. cbn [List.length].
      lia.
    + cbn [List.length].
      rewrite !length_app, !length_map, !enumerate1_length.
      cbn [List.length].
      rewrite !length_app, !length_map, !enumerate1_length.
      cbn [List.length]. rewrite ?length_app, !length_map. cbn [List.length].
      lia.
    + unfold RelatorioFinalEdu.gerar_relatorio_geral in Hr.
      destruct (vendas self) as [|v vs]; [discriminate|].
      unfold gerar_relatorio_geral in Hr. apply Some_inj in Hr. subst r.
      cbn [RelatorioGeral.ranking_vendedores].
      pose proof (proj1 (rankings_comprimento (v :: vs) 5)) as Hl.
      change (Z.of_nat 5) with 5 in Hl. rewrite Hl. lia.
    + unfold RelatorioFinalEdu.gerar_relatorio_geral in Hr.
      destruct (vendas self) as [|v vs]; [discriminate|].
      unfold gerar_relatorio_geral in Hr. apply Some_inj in Hr. subst r.
      cbn [RelatorioGeral.ranking_produtos].
      pose proof (proj2 (rankings_comprimento (v :: vs) 5)) as Hl.
      change (Z.of_nat 5) with 5 in Hl. rewrite Hl. lia.
Qed.

(** ** The report of one seller on the console

    [menu_relatorio_vendedor] asks for a name and prints the report of
    [gerar_relatorio_vendedor] for it.  The name typed is the argument
    [nome]; the result is what the [print] calls put out (the prompt of
    [input] is not among them). *)

Module MenuAnalise.

Import PyTexto.

Local Open Scope string_scope.

Definition menu_relatorio_vendedor (st : AnaliseVendasEdu.estado)
  (nome : string) : string :=
  let saida : list string := [] in
  let saida :=
    append saida
      (print (nl ++ "--- Relat" ++ letra 243 ++ "rio por Vendedor ---")) in
  match gerar_relatorio_vendedor (vendas st) nome with
  | None =>
      let saida :=
        append saida
          (print ("Nenhuma venda encontrada para o vendedor contendo '"
                  ++ nome ++ "'.")) in
      escrito saida
  | Some relatorio =>
      let saida :=
        append saida
          (print (nl ++ "Relat" ++ letra 243 ++ "rio de: "
                  ++ RelatorioVendedor.nome relatorio)) in
      let saida :=
        append saida
          (print ("  - Total Vendido: "
                  ++ formatar_moeda
                       (RelatorioVendedor.total_vendas relatorio))) in
      let saida :=
        append saida
          (print ("  - N" ++ letra 186 ++ " de Transa" ++ letra 231
                  ++ letra 245 ++ "es: "
                  ++ str_int
                       (RelatorioVendedor.quantidade_transacoes relatorio))) in
      let saida :=
        append saida
          (print ("  - Valor M" ++ letra 233 ++ "dio/Transa" ++ letra 231
                  ++ letra 227 ++ "o: "
                  ++ formatar_moeda
                       (RelatorioVendedor.valor_medio_transacao relatorio))) in
      let saida :=
        append saida (print (nl ++ "  Produtos vendidos (Quantidade):")) in
      let saida :=
        fold_left
          (fun saida '(produto, qtd) =>
             append saida
               (print ("    - " ++ produto ++ ": " ++ str_int qtd ++ " un.")))
          (RelatorioVendedor.produtos_vendidos relatorio) saida in
      escrito saida
  end.

End MenuAnalise.

Module MenuRelatorio.

Import PyTexto.

Local Open Scope string_scope.

Definition menu_relatorio_vendedor (sistema : RelatorioFinalEdu.estado)
  (nome : string) : string :=
  let saida : list string := [] in
  let saida :=
    append saida
      (print (nl ++ "--- Relat" ++ letra 243 ++ "rio por Vendedor ---")) in
  if negb (Py.truthy nome)
  then
    let saida :=
      append saida (print ("Nome n" ++ letra 227 ++ "o pode ser vazio.")) in
    escrito saida
  else
    match gerar_relatorio_vendedor (vendas sistema) nome with
    | None =>
        let saida :=
          append saida
            (print ("Nenhuma venda encontrada para o vendedor contendo '"
                    ++ nome ++ "'.")) in
        escrito saida
    | Some relatorio =>
        let saida :=
          append saida
            (print (nl ++ "Relat" ++ letra 243 ++ "rio de: "
                    ++ RelatorioVendedor.nome relatorio)) in
        let saida :=
          append saida
            (print (" " ++ nbsp ++ "- Total Vendido: "
                    ++ formatar_moeda
                         (RelatorioVendedor.total_vendas relatorio))) in
        let saida :=
          append saida
            (print (" " ++ nbsp ++ "- N" ++ letra 186 ++ " de Transa"
                    ++ letra 231 ++ letra 245 ++ "es: "
                    ++ str_int
                         (RelatorioVendedor.quantidade_transacoes
                            relatorio))) in
        let saida :=
          append saida
            (print (" " ++ nbsp ++ "- Valor M" ++ letra 233 ++ "dio/Transa"
                    ++ letra 231 ++ letra 227 ++ "o: "
                    ++ formatar_moeda
                         (RelatorioVendedor.valor_medio_transacao
                            relatorio))) in
        let saida :=
          append saida
            (print (nl ++ " " ++ nbsp ++ "Produtos vendidos (Quantidade):")) in
        let saida :=
          fold_left
            (fun saida '(produto, qtd) =>
               append saida
                 (print (" " ++ nbsp ++ " " ++ nbsp ++ "- " ++ produto ++ ": "
                         ++ str_int qtd ++ " un.")))
            (RelatorioVendedor.produtos_vendidos relatorio) saida in
        escrito saida
    end.

End MenuRelatorio.

(** The two reports show the same figures. *)
Definition mesmos_campos {D1 D2 : Type} (r1 : RelatorioVendedor.t D1)
  (r2 : RelatorioVendedor.t D2) : Prop :=
  RelatorioVendedor.nome r1 = RelatorioVendedor.nome r2
  /\ RelatorioVendedor.total_vendas r1 = RelatorioVendedor.total_vendas r2
  /\ RelatorioVendedor.quantidade_transacoes r1
     = RelatorioVendedor.quantidade_transacoes r2
  /\ RelatorioVendedor.valor_medio_transacao r1
     = RelatorioVendedor.valor_medio_transacao r2
  /\ RelatorioVendedor.produtos_vendidos r1
     = RelatorioVendedor.produtos_vendidos r2.

Section MenuDoVendedor.

Import Py PyTexto.

Local Open Scope string_scope.

Lemma gerar_relatorio_vendedor_nenhum {D : Type} (vs : list (venda D))
  (nome : string) :
  (forall v, In v vs -> corresponde nome v = false) ->
  gerar_relatorio_vendedor vs nome = None.
Proof.
  intros H. pose proof (gerar_relatorio_vendedor_cases vs nome) as Hc.
  destruct (filter (corresponde nome) vs) as [|p resto] eqn:E; [exact Hc|].
  assert (Hin : In p (filter (corresponde nome) vs)) by (rewrite E; now left).
  apply filter_In in Hin as [Hin Hp]. rewrite (H p Hin) in Hp. discriminate.
Qed.

Lemma gerar_relatorio_vendedor_todos {D : Type} (v : venda D)
  (vs : list (venda D)) :
  exists r,
    gerar_relatorio_vendedor (v :: vs) "" = Some r
    /\ RelatorioVendedor.nome r = vendedor v
    /\ RelatorioVendedor.quantidade_transacoes r
       = Z.of_nat (List.length (v :: vs)).
Proof.
  pose proof (gerar_relatorio_vendedor_cases (v :: vs) "") as Hc.
  rewrite forallb_filter_id in Hc
    by (apply forallb_forall; intros; apply corresponde_vazio).
  destruct Hc as (r & Hr & Hnome & _ & _ & Hqtd).
  exists r. auto.
Qed.

Lemma menu_analise_vazio (st : AnaliseVendasEdu.estado) (v : venda string)
  (vs : list (venda string)) :
  vendas st = v :: vs ->
  contem (print (nl ++ "Relat" ++ letra 243 ++ "rio de: " ++ vendedor v))
    (MenuAnalise.menu_relatorio_vendedor st "")
  /\ contem
       (print ("  - N" ++ letra 186 ++ " de Transa" ++ letra 231 ++ letra 245
               ++ "es: " ++ str_int (Z.of_nat (List.length (vendas st)))))
       (MenuAnalise.menu_relatorio_vendedor st "").
Proof.
  intros E. unfold MenuAnalise.menu_relatorio_vendedor. rewrite E.
  destruct (gerar_relatorio_vendedor_todos v vs) as (r & -> & Hn & Hq).
  cbv zeta. rewrite fold_left_append1. unfold append. cbn [app].
  split; apply escrito_contem.
  - right. left. now rewrite Hn.
  - do 3 right. left. now rewrite Hq.
Qed.

Lemma menu_mesmos_campos (st : AnaliseVendasEdu.estado)
  (sistema : RelatorioFinalEdu.estado) (nome : string)
  (r1 : RelatorioVendedor.t string)
  (r2 : RelatorioVendedor.t RelatorioFinalEdu.data_venda) :
  truthy nome = true ->
  gerar_relatorio_vendedor (vendas st) nome = Some r1 ->
  gerar_relatorio_vendedor (vendas sistema) nome = Some r2 ->
  mesmos_campos r1 r2 ->
  sem_nbsp (MenuAnalise.menu_relatorio_vendedor st nome)
  = sem_nbsp (MenuRelatorio.menu_relatorio_vendedor sistema nome).
Proof.
  intros Hn H1 H2 (Enome & Etotal & Eqtd & Emedio & Eprod).
  unfold MenuAnalise.menu_relatorio_vendedor,
    MenuRelatorio.menu_relatorio_vendedor.
  rewrite Hn, H1, H2. cbn [negb]. cbv zeta.
  rewrite !fold_left_append1. unfold append. cbn [app].
  rewrite Enome, Etotal, Eqtd, Emedio, Eprod.
  unfold sem_nbsp. rewrite !replace_escrito. f_equal. fold sem_nbsp.
  repeat (progress (cbn [map]; rewrite ?map_app, ?map_map)).
  unfold print. linhas_sem_nbsp.
Qed.

End MenuDoVendedor.

(** X21. The report of one seller on the console.  With no name typed
    the second file prints that the name cannot be empty and looks for
    nothing, while the first file, on a ledger that is not empty, prints a
    report under the name of the seller of the first sale that counts
    every sale of the ledger.  A name that no seller of the ledger
    contains gives, in both files, the notice that nothing was found,
    with the name as it was typed.  And for a name that is not empty,
    when the two files find reports with the same figures, they print the
    same text, once every no-break space is read as a space. *)
Theorem menu_do_vendedor :
  (forall sistema : RelatorioFinalEdu.estado,
     MenuRelatorio.menu_relatorio_vendedor sistema ""
     = (PyTexto.print
          (PyTexto.nl ++ "--- Relat" ++ letra 243 ++ "rio por Vendedor ---")
        ++ PyTexto.print ("Nome n" ++ letra 227 ++ "o pode ser vazio."))%string)
  /\ (forall (st : AnaliseVendasEdu.estado) (v : venda string)
        (vs : list (venda string)),
        vendas st = v :: vs ->
        contem
          (PyTexto.print
             (PyTexto.nl ++ "Relat" ++ letra 243 ++ "rio de: " ++ vendedor v))
          (MenuAnalise.menu_relatorio_vendedor st "")
        /\ contem
             (PyTexto.print
                ("  - N" ++ letra 186 ++ " de Transa" ++ letra 231
                 ++ letra 245 ++ "es: "
                 ++ PyTexto.str_int (Z.of_nat (List.length (vendas st)))))
             (MenuAnalise.menu_relatorio_vendedor st ""))
  /\ (forall (st : AnaliseVendasEdu.estado)
        (sistema : RelatorioFinalEdu.estado) (nome : string),
        Py.truthy nome = true ->
        let aviso :=
          (PyTexto.print
             (PyTexto.nl ++ "--- Relat" ++ letra 243
              ++ "rio por Vendedor ---")
           ++ PyTexto.print
                ("Nenhuma venda encontrada para o vendedor contendo '"
                 ++ nome ++ "'."))%string in
        ((forall v, In v (vendas st) -> corresponde nome v = false) ->
         MenuAnalise.menu_relatorio_vendedor st nome = aviso)
        /\ ((forall v, In v (vendas sistema) -> corresponde nome v = false) ->
            MenuRelatorio.menu_relatorio_vendedor sistema nome = aviso))
  /\ (forall (st : AnaliseVendasEdu.estado)
        (sistema : RelatorioFinalEdu.estado) (nome : string)
        (r1 : RelatorioVendedor.t string)
        (r2 : RelatorioVendedor.t RelatorioFinalEdu.data_venda),
        Py.truthy nome = true ->
        gerar_relatorio_vendedor (vendas st) nome = Some r1 ->
        gerar_relatorio_vendedor (vendas sistema) nome = Some r2 ->
        mesmos_campos r1 r2 ->
        sem_nbsp (MenuAnalise.menu_relatorio_vendedor st nome)
        = sem_nbsp (MenuRelatorio.menu_relatorio_vendedor sistema nome)).
Proof.
  split; [reflexivity|]. split; [exact menu_analise_vazio|].
  split; [|exact menu_mesmos_campos].
  intros st sistema nome Hn. cbv zeta. split; intros H.
  - unfold MenuAnalise.menu_relatorio_vendedor.
    rewrite (gerar_relatorio_vendedor_nenhum _ _ H). cbv zeta.
    unfold PyTexto.append. cbn [app].
    now rewrite !escrito_cons, string_append_nil_r.
  - unfold MenuRelatorio.menu_relatorio_vendedor.
    rewrite Hn, (gerar_relatorio_vendedor_nenhum _ _ H). cbn [negb]. cbv zeta.
    unfold PyTexto.append. cbn [app].
    now rewrite !escrito_cons, string_append_nil_r.
Qed.

(** ** The best month, again *)

Section MelhorMesNoCalendario.

Import Py.



End MelhorMesNoCalendario.


